(** * Opentrons DNA-mix protocols: a shallow embedding and its properties

    The two protocols of the repository ([DNAmix_final.py] and
    [DNAmix_aliquoting_final.py]) are embedded as Rocq functions that
    compute the log of robot calls a run issues, together with the way
    the run ends.

    Conventions of the embedding:
    - Python [float] volumes are rationals ([Q]). The functions of the
      protocol are embedded with exact arithmetic; [Binary64.round] is
      the rounding of Python's floats, and the definitions that end in
      [_with] take the rounding, or the test that depends on it, as a
      parameter. A statement about numbers is a statement of exact
      arithmetic unless it is made for every rounding or test.
    - Python [str] is [string] (a byte string); [dict] is an association
      list in insertion order, as iteration order of a Python [dict].
    - A Python exception is a value of [exn]; code that can raise returns
      in the logging monad [L], which carries the robot calls issued so
      far and either a value or the exception raised.
    - Calls on the robot interface are recorded as [event]s and are taken
      to succeed. *)

From Stdlib Require Import List String Ascii Bool Arith ZArith NArith QArith Qfield Lia Lqa.
From Stdlib Require Import DecimalString.
From Stdlib Require Import Floats.
Import ListNotations.

Local Close Scope Q_scope.
Local Open Scope string_scope.
Local Open Scope list_scope.

(** ** Python runtime helpers *)

Module Py.

(** Exceptions, with the text [str(e)] gives. *)
Inductive exn : Type :=
| IndexError (msg : string)
| KeyError (key : string)
| ValueError (msg : string)
| RuntimeError (msg : string).

Definition str_exn (e : exn) : string :=
  match e with
  | IndexError m => m
  | KeyError k => "'" ++ k ++ "'"
  | ValueError m => m
  | RuntimeError m => m
  end.

Definition list_index_out_of_range : exn := IndexError "list index out of range".
Definition pop_from_empty_list : exn := IndexError "pop from empty list".

Inductive result (A : Type) : Type :=
| Ok (a : A)
| Raise (e : exn).
Arguments Ok {A} a.
Arguments Raise {A} e.

(** [l[i]] for a non-negative index. *)
Definition index {A} (l : list A) (i : nat) : result A :=
  match nth_error l i with
  | Some a => Ok a
  | None => Raise list_index_out_of_range
  end.

(** [l[-1]]. *)
Definition index_last {A} (l : list A) : result A :=
  match rev l with
  | a :: _ => Ok a
  | [] => Raise list_index_out_of_range
  end.

(** [l.pop(0)]: the head and the rest. *)
Definition pop0 {A} (l : list A) : result (A * list A) :=
  match l with
  | a :: r => Ok (a, r)
  | [] => Raise pop_from_empty_list
  end.

(** [range(a, b)]. *)
Definition range (a b : nat) : list nat := seq a (b - a).

(** *** Strings *)

(** White space as [str.strip()] knows it. A string is the byte string
    of its UTF-8 encoding: the ASCII white space is one byte, U+0085 and
    U+00A0 are two, and U+1680, U+2000 to U+200A, U+2028, U+2029,
    U+202F, U+205F and U+3000 are three. *)
Definition is_space (c : ascii) : bool :=
  match nat_of_ascii c with
  | 9 | 10 | 11 | 12 | 13 | 28 | 29 | 30 | 31 | 32 => true
  | _ => false
  end.

Definition is_space2 (a b : ascii) : bool :=
  let a := nat_of_ascii a in
  let b := nat_of_ascii b in
  ((a =? 194) && ((b =? 133) || (b =? 160)))%nat.

Definition is_space3 (a b c : ascii) : bool :=
  let a := nat_of_ascii a in
  let b := nat_of_ascii b in
  let c := nat_of_ascii c in
  (((a =? 225) && (b =? 154) && (c =? 128))
   || ((a =? 226) && (b =? 128)
       && (((128 <=? c) && (c <=? 138)) || (c =? 168) || (c =? 169)
           || (c =? 175)))
   || ((a =? 226) && (b =? 129) && (c =? 159))
   || ((a =? 227) && (b =? 128) && (c =? 128)))%nat.

Fixpoint lstrip_l (l : list ascii) : list ascii :=
  match l with
  | a :: r =>
      if is_space a then lstrip_l r
      else
        match r with
        | b :: r1 =>
            if is_space2 a b then lstrip_l r1
            else
              match r1 with
              | c :: r2 => if is_space3 a b c then lstrip_l r2 else l
              | [] => l
              end
        | [] => l
        end
  | [] => []
  end.

(** The same from the end, on the reversed bytes. *)
Fixpoint rstrip_rev (l : list ascii) : list ascii :=
  match l with
  | a :: r =>
      if is_space a then rstrip_rev r
      else
        match r with
        | b :: r1 =>
            if is_space2 b a then rstrip_rev r1
            else
              match r1 with
              | c :: r2 => if is_space3 c b a then rstrip_rev r2 else l
              | [] => l
              end
        | [] => l
        end
  | [] => []
  end.

(** [s.strip()]. *)
Definition strip (s : string) : string :=
  string_of_list_ascii
    (rev (rstrip_rev (rev (lstrip_l (list_ascii_of_string s))))).

(** [s.replace(BOM, '')]: the byte-order mark U+FEFF is the three bytes
    EF BB BF of its UTF-8 encoding. *)
Fixpoint remove_bom (l : list ascii) : list ascii :=
  match l with
  | a :: r =>
      match r with
      | b :: c :: r' =>
          if ((nat_of_ascii a =? 239) && (nat_of_ascii b =? 187)
              && (nat_of_ascii c =? 191))%nat
          then remove_bom_skip2 r
          else a :: remove_bom r
      | _ => a :: remove_bom r
      end
  | [] => []
  end
with remove_bom_skip2 (l : list ascii) : list ascii :=
  match l with
  | _ :: r => match r with _ :: r' => remove_bom r' | [] => [] end
  | [] => []
  end.

Definition replace_bom (s : string) : string :=
  string_of_list_ascii (remove_bom (list_ascii_of_string s)).

(** [str(n)] for a natural number. *)
Definition str_nat (n : nat) : string := NilZero.string_of_uint (Nat.to_uint n).

(** [sep.join(l)]. *)
Fixpoint join (sep : string) (l : list string) : string :=
  match l with
  | [] => ""
  | [s] => s
  | s :: r => s ++ sep ++ join sep r
  end.

(** [x in l] for strings. *)
Definition mem (x : string) (l : list string) : bool :=
  existsb (String.eqb x) l.

(** [list(dict.fromkeys(l))]: duplicates dropped, first occurrences kept
    in order. *)
Fixpoint dedup_from (seen : list string) (l : list string) : list string :=
  match l with
  | [] => []
  | x :: r => if mem x seen then dedup_from seen r
              else x :: dedup_from (x :: seen) r
  end.
Definition dedup (l : list string) : list string := dedup_from [] l.

(** *** Numbers *)

Definition Qlt_bool (x y : Q) : bool := negb (Qle_bool y x).

(** [sum(l)]: left to right from [0]. *)
Definition sum (l : list Q) : Q := fold_left Qplus l 0%Q.

(** [min(l)] of a non-empty list given as head and tail: the first
    smallest element. *)
Definition min_from (x : Q) (l : list Q) : Q :=
  fold_left (fun m v => if Qlt_bool v m then v else m) l x.

(** [float(s)] on plain decimal literals: an optional sign, digits, an
    optional point and digits, at least one digit. Every other string
    raises [ValueError]; exponents, underscores and the special values
    that Python also reads are outside this model. *)
Definition digit_of (c : ascii) : option N :=
  let n := N_of_ascii c in
  if ((48 <=? n) && (n <=? 57))%N then Some (n - 48)%N else None.

Fixpoint digits_value (acc : N) (l : list ascii) : option N :=
  match l with
  | [] => Some acc
  | c :: r => match digit_of c with
              | Some d => digits_value (10 * acc + d)%N r
              | None => None
              end
  end.

Fixpoint split_dot (l : list ascii) : list ascii * option (list ascii) :=
  match l with
  | [] => ([], None)
  | c :: r =>
      if Ascii.eqb c "."%char then ([], Some r)
      else let (a, b) := split_dot r in (c :: a, b)
  end.

Definition float (s : string) : result Q :=
  let l := list_ascii_of_string s in
  let (neg, body) :=
    match l with
    | c :: r => if Ascii.eqb c "-"%char then (true, r)
                else if Ascii.eqb c "+"%char then (false, r)
                else (false, l)
    | [] => (false, l)
    end in
  let (ip, fp) := split_dot body in
  let fp := match fp with Some r => r | None => [] end in
  match ip ++ fp, digits_value 0 ip, digits_value 0 fp with
  | _ :: _, Some i, Some f =>
      let den := (10 ^ N.of_nat (List.length fp))%N in
      let num := Z.of_N (i * den + f) in
      Ok (Qmake (if neg then - num else num) (N.succ_pos (N.pred den)))
  | _, _, _ =>
      Raise (ValueError ("could not convert string to float: '" ++ s ++ "'"))
  end.

(** Whether a text has a decimal digit, as the rendering of any mix
    index has. *)
Definition has_digit (s : string) : bool :=
  existsb (fun c => match digit_of c with Some _ => true | None => false end)
          (list_ascii_of_string s).

(** *** Dictionaries in insertion order *)

Section Dict.
Context {V : Type}.

Fixpoint get (d : list (string * V)) (k : string) : option V :=
  match d with
  | [] => None
  | (k', v) :: r => if String.eqb k k' then Some v else get r k
  end.

(** [d[k] = v]: an existing key keeps its place, a new one goes last. *)
Fixpoint set (d : list (string * V)) (k : string) (v : V) : list (string * V) :=
  match d with
  | [] => [(k, v)]
  | (k', v') :: r => if String.eqb k k' then (k, v) :: r
                     else (k', v') :: set r k v
  end.

(** [d[k]], which raises [KeyError]. *)
Definition getitem (d : list (string * V)) (k : string) : result V :=
  match get d k with
  | Some v => Ok v
  | None => Raise (KeyError k)
  end.

End Dict.

End Py.

(** ** Binary64 numbers

    A Python [float] is a binary64 number, and [+], [*] and [/] give the
    binary64 number nearest to the exact result, ties to the even
    mantissa. Every finite binary64 number is a rational, so the values
    stay in [Q] and an operation of the code is the exact operation
    followed by [round]. Results beyond the largest binary64 number,
    which Python turns into infinities, are outside this model. *)

Module Binary64.
Local Open Scope Z_scope.

(** [n / d] rounded to the nearest integer, ties to the even one, for
    [d] positive and [n] not negative. *)
Definition div_nearest_even (n d : Z) : Z :=
  let q := n / d in
  let r := n mod d in
  match 2 * r ?= d with
  | Lt => q
  | Gt => q + 1
  | Eq => if Z.even q then q else q + 1
  end.

(** The exponent of the unit in the last place of [n / d]: the largest
    [e] with [2^52 * 2^e <= n / d], and [-1074] at least (subnormal
    numbers). *)
Definition ulp_exponent (n d : Z) : Z :=
  let l := Z.log2 n - Z.log2 d in
  let ex := if (if 0 <=? l then d * 2 ^ l <=? n else d <=? n * 2 ^ (- l))
            then l else l - 1 in
  Z.max (ex - 52) (-1074).

(** The binary64 number nearest to [x], ties to even. *)
Definition round (x : Q) : Q :=
  let n := Z.abs (Qnum x) in
  let d := Zpos (Qden x) in
  if n =? 0 then 0%Q
  else
    let e := ulp_exponent n d in
    let m := if 0 <=? e then div_nearest_even n (d * 2 ^ e)
             else div_nearest_even (n * 2 ^ (- e)) d in
    let m := if Qnum x <? 0 then - m else m in
    if 0 <=? e then Qmake (m * 2 ^ e) 1
    else Qmake m (Z.to_pos (2 ^ (- e))).

(** The value of a finite number of the kernel's binary64 type. *)
Definition of_float (f : PrimFloat.float) : option Q :=
  match FloatOps.Prim2SF f with
  | SpecFloat.S754_zero _ => Some 0%Q
  | SpecFloat.S754_finite s m e =>
      let v := if 0 <=? e then Qmake (Zpos m * 2 ^ e) 1
               else Qmake (Zpos m) (Z.to_pos (2 ^ (- e))) in
      Some (if s then Qopp v else v)
  | _ => None
  end.

End Binary64.

(** ** The robot interface: labware, locations and the log of calls *)

Module Robot.

Inductive labware : Type :=
| plasmid_plate | pcr_plate | reagent_plate | cell_plate
| tiprack_50 | tiprack_50_reserve | tiprack_200 | tiprack_1000.

Inductive pipette : Type := p50 | p1000.

Record well : Type := Well { well_labware : labware; well_name : string }.

(** A well, its [top(z)] or its [bottom(z)]. *)
Inductive location : Type :=
| at_well (w : well)
| top (w : well) (z : Q)
| bottom (w : well) (z : Q).

(** The parts of an f-string: literal text and formatted values. *)
Inductive frag : Type :=
| lit (s : string)
| fstr (s : string)
| fint (n : nat)
| ffloat (q : Q)
| ffloat2 (q : Q)
| flist (l : list string).

Definition fstring : Type := list frag.

Inductive event : Type :=
| comment (msg : fstring)
| pause (msg : string)
| print (msg : fstring)
| load_liquid (w : well) (liquid : string) (volume : Q)
| move_labware (lw : labware) (slot : string)
| close_labware_latch
| open_labware_latch
| delay (minutes : nat)
| flow_rate_aspirate (p : pipette) (rate : Q)
| flow_rate_dispense (p : pipette) (rate : Q)
| pick_up_tip (p : pipette) (tip : well)
| drop_tip (p : pipette)
| aspirate (p : pipette) (volume : Q) (loc : location)
| dispense (p : pipette) (volume : Q) (loc : location)
| blow_out (p : pipette) (loc : option location)
| mix (p : pipette) (repetitions : nat) (volume : Q) (loc : location)
| air_gap (p : pipette) (volume : Q).

(** The calls that make the robot act on a tip, a liquid, a piece of
    labware or the latch; comments, pauses, printed lines, flow-rate
    settings, delays and the liquids declared for the deck map are not
    among them. *)
Definition is_physical (e : event) : bool :=
  match e with
  | move_labware _ _ | close_labware_latch | open_labware_latch
  | pick_up_tip _ _ | drop_tip _ | aspirate _ _ _
  | dispense _ _ _ | blow_out _ _ | mix _ _ _ _ | air_gap _ _ => true
  | _ => false
  end.

Definition no_physical (l : list event) : Prop :=
  Forall (fun e => is_physical e = false) l.

Definition is_pick_up_tip (e : event) : bool :=
  match e with pick_up_tip _ _ => true | _ => false end.

Definition is_transfer (e : event) : bool :=
  match e with aspirate _ _ _ | dispense _ _ _ => true | _ => false end.

(** The calls that follow the first pause with message [msg]. *)
Fixpoint after_pause (msg : string) (l : list event) : option (list event) :=
  match l with
  | [] => None
  | pause m :: r => if String.eqb m msg then Some r else after_pause msg r
  | _ :: r => after_pause msg r
  end.

(** Well names of a labware with [rows] rows and [cols] columns, by row. *)
Definition row_letters : list string := ["A"; "B"; "C"; "D"; "E"; "F"; "G"; "H"].

Definition wells_by_row (rows cols : nat) : list string :=
  flat_map (fun r => map (fun c => String.append r (Py.str_nat c)) (seq 1 cols))
           (firstn rows row_letters).

Definition well_names (lw : labware) : list string :=
  match lw with
  | plasmid_plate | reagent_plate => wells_by_row 4 6
  | _ => wells_by_row 8 12
  end.

(** [lw[name]]. *)
Definition getwell (lw : labware) (name : string) : Py.result well :=
  if Py.mem name (well_names lw) then Py.Ok (Well lw name)
  else Py.Raise (Py.KeyError name).

(** [sum(rack.rows(), [])]. *)
Definition tips_by_row (rack : labware) : list well :=
  map (Well rack) (well_names rack).

(** The log of a computation and its result. *)
Definition L (A : Type) : Type := list event * Py.result A.

Definition ret {A} (a : A) : L A := ([], Py.Ok a).
Definition raise {A} (e : Py.exn) : L A := ([], Py.Raise e).
Definition emit (e : event) : L unit := ([e], Py.Ok tt).
Definition lift {A} (r : Py.result A) : L A := ([], r).

Definition bind {A B} (c : L A) (f : A -> L B) : L B :=
  match c with
  | (l, Py.Ok a) => let (l', r) := f a in (l ++ l', r)
  | (l, Py.Raise e) => (l, Py.Raise e)
  end.

Definition log {A} (c : L A) : list event := fst c.
Definition outcome {A} (c : L A) : Py.result A := snd c.

(** [for x in xs: s = body(x, s)]. *)
Fixpoint for_each {X S} (xs : list X) (body : X -> S -> L S) (s : S) : L S :=
  match xs with
  | [] => ret s
  | x :: r => bind (body x s) (for_each r body)
  end.

End Robot.

Declare Scope robot_scope.
Delimit Scope robot_scope with robot.
Notation "'let*' p ':=' c 'in' k" :=
  (Robot.bind c (fun p => k))
  (at level 10, p pattern, c at level 100, k at level 200) : robot_scope.
Notation "c ';;' k" :=
  (Robot.bind c (fun _ => k))
  (at level 100, k at level 200, right associativity) : robot_scope.

(** ** [DNAmix_final.py] *)

Module DNAmix_final.
Import Robot.
Local Open Scope robot_scope.

(** The run-time parameters of [add_parameters] that [run] reads, and the
    rows of the CSV file as [csv.reader] returns them. Both tube racks
    of [plasmids_plate_type] have the same 24 well names. *)
Record params : Type := Params {
  max_plasmid_count : nat;
  mix_count : nat;
  starting_tip_50 : string;
  starting_tip_200 : string;
  premix : bool
}.

Definition table : Type := list (list string).

Definition batch_size : nat := 12.
Definition nacl_name : string := "NaCl (150mM)".
Definition intermediate_liquid : string := "Intermediate Mix".

(** Line 98: the byte-order mark and surrounding white space are removed
    from every cell. *)
Definition clean (csv_data : table) : table :=
  map (map (fun cell => Py.strip (Py.replace_bom cell))) csv_data.

(** *** Tip racks (lines 112-142) *)

Record tips : Type := Tips {
  tips50_by_row : list well;
  tips200_by_row : list well;
  rack_50 : labware;
  rack_50_reserve : labware;
  counter_200 : nat;
  counter_50 : nat;
  counter_50_f : nat
}.

Fixpoint find_tip_index_from (i : nat) (tip_list : list well)
  (name : string) : Py.result nat :=
  match tip_list with
  | [] => Py.Raise (Py.ValueError
            ("Starting tip " ++ name ++ " not found in tip list.")%string)
  | tip :: r => if String.eqb (well_name tip) name then Py.Ok i
                else find_tip_index_from (S i) r name
  end.

Definition find_tip_index (tip_list : list well) (name : string)
  : Py.result nat := find_tip_index_from 0 tip_list name.

Definition init_tips (p : params) : L tips :=
  let* i50 := lift (find_tip_index (tips_by_row tiprack_50) (starting_tip_50 p)) in
  let* i200 := lift (find_tip_index (tips_by_row tiprack_200) (starting_tip_200 p)) in
  ret (Tips (skipn i50 (tips_by_row tiprack_50))
            (skipn i200 (tips_by_row tiprack_200))
            tiprack_50 tiprack_50_reserve 0 0 0).

(** [swap_rack50]: the reserve rack takes the place of the used one and
    the 50 µL tip list is rebuilt from it. The assignment to
    [counter_50] inside the Python function binds a local name and
    changes nothing. *)
Definition swap_rack50 (t : tips) : L tips :=
  emit (comment [lit "
====== SWAPPING 50 µL TIP RACK ======"]) ;;
  emit (move_labware (rack_50 t) "C4") ;;
  emit (move_labware (rack_50_reserve t) "B1") ;;
  ret (Tips (tips_by_row (rack_50_reserve t)) (tips200_by_row t)
            (rack_50_reserve t) (rack_50 t)
            (counter_200 t) (counter_50 t) (counter_50_f t)).

(** [if not tips50_by_row: swap_rack50()], then
    [p50.pick_up_tip(location=tips50_by_row.pop(0))] and the two
    counters. *)
Definition take_tip_50 (t : tips) : L tips :=
  let* t := match tips50_by_row t with
            | [] => swap_rack50 t
            | _ => ret t
            end in
  let* (tip, rest) := lift (Py.pop0 (tips50_by_row t)) in
  emit (pick_up_tip p50 tip) ;;
  ret (Tips rest (tips200_by_row t) (rack_50 t) (rack_50_reserve t)
            (counter_200 t) (S (counter_50 t)) (S (counter_50_f t))).

(** [p1000.pick_up_tip(location=tips200_by_row.pop(0))] and its counter:
    there is no reserve rack for the 200 µL tips. *)
Definition take_tip_200 (t : tips) : L tips :=
  let* (tip, rest) := lift (Py.pop0 (tips200_by_row t)) in
  emit (pick_up_tip p1000 tip) ;;
  ret (Tips (tips50_by_row t) rest (rack_50 t) (rack_50_reserve t)
            (S (counter_200 t)) (counter_50 t) (counter_50_f t)).

Definition take_tip (pip : pipette) (t : tips) : L tips :=
  match pip with
  | p50 => take_tip_50 t
  | p1000 => take_tip_200 t
  end.

(** *** The liquid registry (lines 144-199) *)

Definition plasmid_name_rows (csv_data : table) : list nat :=
  map (fun k => 15 * k) (seq 0 ((List.length csv_data + 14) / 15)).

Definition cell_or_empty (row : list string) (i : nat) : string :=
  match nth_error row i with
  | Some c => Py.strip c
  | None => ""
  end.

(** Lines 151-161: every named column contributes its source well. *)
Definition collect_wells (csv_data : table) : list (string * list string) :=
  fold_left
    (fun all_plasmid_wells name_row =>
       let well_row := name_row + 13 in
       match nth_error csv_data name_row, nth_error csv_data well_row with
       | Some names, Some wells =>
           let plasmid_names := map Py.strip names in
           fold_left
             (fun d i =>
                let name := nth i plasmid_names "" in
                if String.eqb name "" then d
                else
                  let well := cell_or_empty wells i in
                  if String.eqb well "" then d
                  else
                    let old := match Py.get d name with
                               | Some l => l
                               | None => []
                               end in
                    Py.set d name (old ++ [well]))
             (Py.range 1 (List.length plasmid_names))
             all_plasmid_wells
       | _, _ => all_plasmid_wells
       end)
    (plasmid_name_rows csv_data) [].

(** Lines 164-165. *)
Definition all_plasmid_wells (csv_data : table) : list (string * list string) :=
  map (fun kv => (fst kv, Py.dedup (snd kv))) (collect_wells csv_data).

(** [plasmid_well_map]: the liquid each source well holds. *)
Definition well_map : Type := list (string * string).

(** Lines 168-176. *)
Definition register_plasmids (csv_data : table) : L well_map :=
  for_each (all_plasmid_wells csv_data)
    (fun kv plasmid_well_map =>
       let (name, wells) := kv in
       let* m := for_each wells
                   (fun well m =>
                      let* w := lift (getwell plasmid_plate well) in
                      emit (load_liquid w name 1000) ;;
                      ret (Py.set m well name))
                   plasmid_well_map in
       emit (comment [fstr name; lit " "; flist wells]) ;;
       ret m)
    [].

(** Lines 186-199: the last non-empty cell of every source-well row is
    the NaCl tube of that mix. *)
Definition register_nacl (p : params) (csv_data : table)
  (plasmid_well_map : well_map) : L well_map :=
  let* (m, nacl_wells_all) :=
    for_each (Py.range 0 (mix_count p))
      (fun mix_index st =>
         let '(m, nacl_wells_all) := st in
         let row_index := 13 + 15 * mix_index in
         match nth_error csv_data row_index with
         | None => ret st
         | Some cells =>
             let row := filter (fun c => negb (String.eqb c ""))
                               (map Py.strip cells) in
             match rev row with
             | [] => ret st
             | last_well :: _ =>
                 let* w := lift (getwell plasmid_plate last_well) in
                 emit (load_liquid w nacl_name 1000) ;;
                 ret (Py.set m last_well nacl_name,
                      nacl_wells_all ++ [last_well])
             end
         end)
      (plasmid_well_map, []) in
  emit (comment [fstr nacl_name; lit " "; flist (Py.dedup nacl_wells_all)]) ;;
  ret m.

(** *** The layout parser and the volume rescaler (lines 203-275) *)

Record mix_data : Type := MixData {
  volumes : list Q;
  scale_factors : list Q;
  source_wells : list string;
  dest_well : string
}.

(** Lines 214-225: the volumes and source wells of mix [mix_index]. *)
Definition parse_components (p : params) (csv_data : table) (mix_index : nat)
  : Py.result (list Q * list string) :=
  let volume_row_index := 12 + mix_index * 15 in
  let source_row_index := volume_row_index + 1 in
  match Py.index csv_data volume_row_index with
  | Py.Raise e => Py.Raise e
  | Py.Ok volume_row =>
      fold_left
        (fun acc i =>
           match acc with
           | Py.Raise e => Py.Raise e
           | Py.Ok (mix_volumes, source_wells) =>
               let vol_str := cell_or_empty volume_row i in
               if String.eqb vol_str "" then acc
               else
                 match Py.float vol_str with
                 | Py.Raise e => Py.Raise e
                 | Py.Ok vol =>
                     if Py.Qlt_bool vol 0 then acc
                     else
                       match Py.index csv_data source_row_index with
                       | Py.Raise e => Py.Raise e
                       | Py.Ok source_row =>
                           match Py.index source_row i with
                           | Py.Raise e => Py.Raise e
                           | Py.Ok cell =>
                               let src := Py.strip cell in
                               let src := if String.eqb src ""
                                          then ("A" ++ Py.str_nat (i + 1))%string
                                          else src in
                               Py.Ok (mix_volumes ++ [vol], source_wells ++ [src])
                           end
                       end
                 end
           end)
        (Py.range 1 (Nat.min (max_plasmid_count p + 1) (List.length volume_row)))
        (Py.Ok ([], []))
  end.

(** [0 < v < 0.8]. *)
Definition is_small (v : Q) : bool :=
  Py.Qlt_bool 0 v && Py.Qlt_bool v 0.8.

(** Lines 229-252: the rescaled volumes and the recorded scale factors,
    in exact arithmetic; [Derived.rescale_with] has the rounding of each
    operation as a parameter. *)
Definition rescale (mix_volumes : list Q) : list Q * list Q :=
  let small_volumes := filter is_small mix_volumes in
  let small_volumes_count := List.length (filter is_small mix_volumes) in
  match small_volumes with
  | v :: r =>
      let min_small := Py.min_from v r in
      let scale_factor :=
        if Nat.ltb 1 small_volumes_count
        then (0.8 / Py.sum small_volumes)%Q
        else (0.8 / min_small)%Q in
      (map (fun v => (v * scale_factor)%Q) mix_volumes, [scale_factor])
  | [] => (mix_volumes, repeat 1%Q (List.length mix_volumes))
  end.

(** Line 257. *)
Definition parse_dest_well (csv_data : table) (mix_index : nat)
  : Py.result string :=
  let dest_row_index := 0 + mix_index * 15 in
  match Py.index csv_data dest_row_index with
  | Py.Raise e => Py.Raise e
  | Py.Ok [] => Py.Ok "A1"
  | Py.Ok (cell :: _) => Py.Ok (Py.strip cell)
  end.

(** [", ".join] of the per-component descriptions of line 267. *)
Fixpoint volume_info (m : well_map) (l : list (Q * string)) : fstring :=
  match l with
  | [] => []
  | (vol, well) :: r =>
      let name := match Py.get m well with Some n => n | None => "Unknown" end in
      [fstr name; lit " : "; ffloat vol; lit " µL from "; fstr well]
        ++ match r with [] => [] | _ => lit ", " :: volume_info m r end
  end.

(** One iteration of the loop of line 205. *)
Definition parse_mix (p : params) (csv_data : table) (m : well_map)
  (mix_index : nat) : L mix_data :=
  let* (mix_volumes, source_wells) := lift (parse_components p csv_data mix_index) in
  let (rescaled, factors) := rescale mix_volumes in
  (match filter is_small mix_volumes with
   | [] => ret tt
   | _ => emit (comment [lit "
Mix "; fint (mix_index + 1);
                         lit " had volume < 0.8  µL, volumes have been rescaled"])
   end) ;;
  let* dest_well := lift (parse_dest_well csv_data mix_index) in
  emit (comment ([lit "
Mix "; fint (mix_index + 1); lit " data: "]
                 ++ volume_info m (combine rescaled source_wells))) ;;
  emit (comment [lit "Destination well: "; fstr dest_well; lit "
"]) ;;
  ret (MixData rescaled factors source_wells dest_well).

(** The loop of line 205, inside [try]. *)
Definition parse_all (p : params) (csv_data : table) (m : well_map)
  : L (list mix_data) :=
  for_each (Py.range 0 (mix_count p))
    (fun mix_index all_mix_data =>
       let* d := parse_mix p csv_data m mix_index in
       ret (all_mix_data ++ [d]))
    [].

(** Lines 204-275: [except Exception as e] turns a failure into a pause
    with its text, after which [run] returns ([None] here). *)
Definition parse_csv (p : params) (csv_data : table) (m : well_map)
  : L (option (list mix_data)) :=
  match parse_all p csv_data m with
  | (l, Py.Ok all_mix_data) => (l, Py.Ok (Some all_mix_data))
  | (l, Py.Raise e) =>
      (l ++ [pause ("Error parsing CSV: " ++ Py.str_exn e)%string],
       Py.Ok None)
  end.

(** *** The intermediate-vessel allocator (lines 278-332) *)

(** The three pools are three Python lists: [intermediate_pool] is built
    by [+] from the other two and is a list of its own, so a [pop] on
    one of them leaves the others as they are. *)
Record vessels : Type := Vessels {
  intermediate_small_pool : list string;
  intermediate_final_pool : list string;
  intermediate_pool : list string;
  assigned_small_wells : list (string * string);
  assigned_final_wells : list (string * string)
}.

Definition initial_vessels : vessels :=
  let small := map (fun i => ("C" ++ Py.str_nat i)%string) (Py.range 1 7) in
  let final := map (fun i => ("D" ++ Py.str_nat i)%string) (Py.range 1 7) in
  Vessels small final (small ++ final) [] [].

Definition not_enough_wells : string := "⚠️ Not enough Eppendorf wells available!".

(** How a loop body ends: the loop goes on, or [break] leaves it. *)
Inductive control (S : Type) : Type :=
| Next (s : S)
| Break (s : S).
Arguments Next {S} s.
Arguments Break {S} s.

Definition control_state {S} (c : control S) : S :=
  match c with Next s | Break s => s end.

(** Line 298: the small volumes of a mix, counted on [v / scale], here
    the exact quotient; [Derived.small_volumes_count_with] has the test
    as a parameter and [Derived.small_after_division] the rounded one. *)
Definition small_volumes_count (d : mix_data) (scale : Q) : nat :=
  List.length (filter (fun v => is_small (v / scale)%Q) (volumes d)).

(** The body of the loop of line 295. *)
Definition assign_step (d : mix_data) (s : vessels) : L (control vessels) :=
  let* scale := lift (Py.index (scale_factors d) 0) in
  let n := small_volumes_count d scale in
  if Nat.ltb 1 n then
    match intermediate_small_pool s, intermediate_final_pool s with
    | small_well :: small_rest, final_well :: final_rest =>
        let* ws := lift (getwell plasmid_plate small_well) in
        emit (load_liquid ws intermediate_liquid 0) ;;
        let* wf := lift (getwell plasmid_plate final_well) in
        emit (load_liquid wf intermediate_liquid 0) ;;
        emit (comment [lit "Intermediate SMALL well for "; fstr (dest_well d);
                       lit ": "; fstr small_well]) ;;
        emit (comment [lit "Intermediate FINAL well for "; fstr (dest_well d);
                       lit ": "; fstr final_well]) ;;
        ret (Next (Vessels small_rest final_rest (intermediate_pool s)
                     (Py.set (assigned_small_wells s) (dest_well d) small_well)
                     (Py.set (assigned_final_wells s) (dest_well d) final_well)))
    | _, _ => emit (pause not_enough_wells) ;; ret (Break s)
    end
  else if Nat.eqb n 1 then
    match intermediate_pool s with
    | final_well :: rest =>
        let* wf := lift (getwell plasmid_plate final_well) in
        emit (load_liquid wf intermediate_liquid 0) ;;
        emit (comment [lit "Intermediate FINAL well for "; fstr (dest_well d);
                       lit ": "; fstr final_well]) ;;
        ret (Next (Vessels (intermediate_small_pool s) (intermediate_final_pool s)
                     rest (assigned_small_wells s)
                     (Py.set (assigned_final_wells s) (dest_well d) final_well)))
    | [] => emit (pause not_enough_wells) ;; ret (Break s)
    end
  else ret (Next s).

(** The loop of line 295; [Break] tells that it was left by [break]. *)
Fixpoint assign_wells (all_mix_data : list mix_data) (s : vessels)
  : L (control vessels) :=
  match all_mix_data with
  | [] => ret (Next s)
  | d :: r =>
      let* c := assign_step d s in
      match c with
      | Next s' => assign_wells r s'
      | Break s' => ret (Break s')
      end
  end.

(** The pools hold wells of the tube rack. *)
Definition known_wells (l : list string) : Prop :=
  Forall (fun w => Py.mem w (well_names plasmid_plate) = true) l.

Definition vessels_wf (s : vessels) : Prop :=
  known_wells (intermediate_small_pool s)
  /\ known_wells (intermediate_final_pool s)
  /\ known_wells (intermediate_pool s).

(** The mix the parser builds from parsed volumes (lines 259-264). *)
Definition parsed_mix (vols : list Q) (srcs : list string) (dest : string)
  : mix_data :=
  MixData (fst (rescale vols)) (snd (rescale vols)) srcs dest.

(** The allocation policy in the words of the specification, for a mix
    with [n] small volumes: none, a final vessel, or a small and a final
    vessel, and [Break] when a pool it needs is empty. *)
Definition allocation_policy (n : nat) (dest : string) (s : vessels)
  : control vessels :=
  match n with
  | 0 => Next s
  | 1 =>
      match intermediate_pool s with
      | final_well :: rest =>
          Next (Vessels (intermediate_small_pool s) (intermediate_final_pool s)
                  rest (assigned_small_wells s)
                  (Py.set (assigned_final_wells s) dest final_well))
      | [] => Break s
      end
  | _ =>
      match intermediate_small_pool s, intermediate_final_pool s with
      | small_well :: small_rest, final_well :: final_rest =>
          Next (Vessels small_rest final_rest (intermediate_pool s)
                  (Py.set (assigned_small_wells s) dest small_well)
                  (Py.set (assigned_final_wells s) dest final_well))
      | _, _ => Break s
      end
  end.

(** The policy applied to the mixes in processing order, each given by
    its number of small volumes and its destination well; after a
    [Break] no later mix is looked at. *)
Fixpoint allocate_in_order (mixes : list (nat * string)) (s : vessels)
  : control vessels :=
  match mixes with
  | [] => Next s
  | (n, dest) :: r =>
      match allocation_policy n dest s with
      | Next s' => allocate_in_order r s'
      | Break s' => Break s'
      end
  end.

(** *** The NaCl plan (lines 337-371) *)

(** Lines 341-345: the test is on the stored, rescaled volumes (exact
    here, as [rescale] gives them). *)
Definition mix_has_small_volumes (all_mix_data : list mix_data)
  : list (string * bool) :=
  fold_left (fun m d => Py.set m (dest_well d) (existsb is_small (volumes d)))
            all_mix_data [].

Record nacl_plan : Type := NaclPlan {
  nacl_totals : list (string * Q);
  nacl_dests : list (string * list (well * Q))
}.

(** Lines 358-368: where the NaCl of a mix goes. *)
Definition nacl_destination (flags : list (string * bool)) (s : vessels)
  (dest_well_name : string) : Py.result well :=
  match Py.getitem flags dest_well_name with
  | Py.Raise e => Py.Raise e
  | Py.Ok true =>
      match Py.get (assigned_final_wells s) dest_well_name with
      | Some final_epp => getwell plasmid_plate final_epp
      | None => getwell pcr_plate dest_well_name
      end
  | Py.Ok false => getwell pcr_plate dest_well_name
  end.

(** The body of the loop of line 348. *)
Definition plan_step (flags : list (string * bool)) (s : vessels)
  (d : mix_data) (plan : nacl_plan) : Py.result nacl_plan :=
  match Py.index_last (volumes d) with
  | Py.Raise e => Py.Raise e
  | Py.Ok nacl_vol =>
      if Qle_bool nacl_vol 0 then Py.Ok plan
      else
        match Py.index_last (source_wells d) with
        | Py.Raise e => Py.Raise e
        | Py.Ok src =>
            match nacl_destination flags s (dest_well d) with
            | Py.Raise e => Py.Raise e
            | Py.Ok dest =>
                let total := match Py.get (nacl_totals plan) src with
                             | Some t => t
                             | None => 0%Q
                             end in
                let dests := match Py.get (nacl_dests plan) src with
                             | Some l => l
                             | None => []
                             end in
                Py.Ok (NaclPlan
                         (Py.set (nacl_totals plan) src (total + nacl_vol)%Q)
                         (Py.set (nacl_dests plan) src (dests ++ [(dest, nacl_vol)])))
            end
        end
  end.

Definition plan_nacl (all_mix_data : list mix_data) (s : vessels)
  : Py.result nacl_plan :=
  let flags := mix_has_small_volumes all_mix_data in
  fold_left
    (fun acc d => match acc with
                  | Py.Raise e => Py.Raise e
                  | Py.Ok plan => plan_step flags s d plan
                  end)
    all_mix_data (Py.Ok (NaclPlan [] [])).

(** *** NaCl multi-dispensing (lines 373-415) *)

Definition buffer : Q := 2.

(** Line 379. *)
Definition select_max_vol (total_vol : Q) : Q :=
  if Qle_bool (total_vol + buffer) 50 then 50%Q else 200%Q.

Section Packing.
Context {D : Type}.

(** The state of the loop of line 395: the open group, its running sum
    and the groups already closed. *)
Record packing : Type := Packing {
  group : list (D * Q);
  current_sum : Q;
  grouped : list (list (D * Q))
}.

Definition pack_step (max_vol : Q) (st : packing) (dv : D * Q) : packing :=
  let (dest, vol) := dv in
  if Qle_bool (current_sum st + vol) (max_vol - buffer)
  then Packing (group st ++ [(dest, vol)]) (current_sum st + vol)%Q (grouped st)
  else Packing [(dest, vol)] vol (grouped st ++ [group st]).

Definition pack_loop (max_vol : Q) (dest_list : list (D * Q)) : packing :=
  fold_left (pack_step max_vol) dest_list (Packing [] 0%Q []).

(** Lines 392-403: the groups that are dispensed; none when the last
    open group is empty. *)
Definition dispense_groups (max_vol : Q) (dest_list : list (D * Q))
  : list (list (D * Q)) :=
  let st := pack_loop max_vol dest_list in
  match group st with
  | [] => []
  | _ => grouped st ++ [group st]
  end.

(** [sum(v for _, v in g)]. *)
Definition group_total (g : list (D * Q)) : Q := Py.sum (map snd g).

(** A group fits the tip, or it is a single destination that does not. *)
Definition fits_or_single (max_vol : Q) (g : list (D * Q)) : Prop :=
  (group_total g <= max_vol - buffer)%Q
  \/ exists d v, g = [(d, v)] /\ (max_vol - buffer < v)%Q.

(** What the loop of line 395 keeps true of its state. *)
Definition packing_inv (max_vol : Q) (st : packing) : Prop :=
  (current_sum st == group_total (group st))%Q
  /\ fits_or_single max_vol (group st)
  /\ Forall (fits_or_single max_vol) (grouped st).

End Packing.

(** Lines 404-409: one aspirate per group, one dispense per destination
    and a blow-out over the source. *)
Definition dispense_group (pip : pipette) (source : well)
  (g : list (well * Q)) : L unit :=
  emit (aspirate pip (group_total g + buffer)%Q (at_well source)) ;;
  for_each g (fun dv _ => emit (dispense pip (snd dv) (at_well (fst dv)))) tt ;;
  emit (blow_out pip (Some (top source 0))).

(** The body of the loop of line 374. *)
Definition distribute_nacl (plan : nacl_plan) (entry : string * Q) (t : tips)
  : L tips :=
  let (source_well_name, total_vol) := entry in
  let dest_list := match Py.get (nacl_dests plan) source_well_name with
                   | Some l => l
                   | None => []
                   end in
  let* source := lift (getwell plasmid_plate source_well_name) in
  let max_vol := select_max_vol total_vol in
  let pip := if Qle_bool (total_vol + buffer) 50 then p50 else p1000 in
  let* t := take_tip pip t in
  (match dispense_groups max_vol dest_list with
   | [] => ret tt
   | groups =>
       for_each groups (fun g _ => dispense_group pip source g) tt ;;
       emit (drop_tip pip)
   end) ;;
  emit (comment [lit "Distributed NaCl from "; fstr source_well_name;
                 lit " to: ";
                 fstr (Py.join ", " (map (fun dv => well_name (fst dv)) dest_list))]) ;;
  ret t.

Definition execute_nacl (plan : nacl_plan) (t : tips) : L tips :=
  for_each (nacl_totals plan) (distribute_nacl plan) t.

(** *** Plasmid transfers (lines 418-624) *)

Definition liquid_name (m : well_map) (src : string) : string :=
  match Py.get m src with Some n => n | None => "Unknown" end.

Definition is_nacl (m : well_map) (src : string) : bool :=
  String.eqb (liquid_name m src) nacl_name.

(** Lines 444-456: six in-place aspirate/dispense cycles of 200 µL. *)
Definition premix_source (m : well_map) (src : string) (t : tips) : L tips :=
  let* t := take_tip_200 t in
  emit (comment [lit "
Premix plasmid "; fstr (liquid_name m src); lit " in "; fstr src;
                 lit " ("; fint 6; lit "×"; fint 200; lit " µL)"]) ;;
  for_each (Py.range 0 6)
    (fun _ _ =>
       let* w := lift (getwell plasmid_plate src) in
       emit (aspirate p1000 200 (bottom w 1)) ;;
       let* w := lift (getwell plasmid_plate src) in
       emit (dispense p1000 200 (bottom w 10)))
    tt ;;
  let* w := lift (getwell plasmid_plate src) in
  emit (blow_out p1000 (Some (top w (-2)))) ;;
  emit (drop_tip p1000) ;;
  ret t.

(** The loop of line 437. *)
Definition premix_mix (p : params) (m : well_map) (d : mix_data)
  (st : list string * tips) : L (list string * tips) :=
  for_each (combine (volumes d) (source_wells d))
    (fun vs st =>
       let src := snd vs in
       let '(premixed_sources, t) := st in
       if negb (is_nacl m src) && premix p && negb (Py.mem src premixed_sources)
       then let* t := premix_source m src t in
            ret (premixed_sources ++ [src], t)
       else ret st)
    st.

(** The small and the normal components of a mix, lines 460-471. *)
Record components : Type := Components {
  small_volumes : list Q;
  small_sources : list string;
  normal_volumes : list Q;
  normal_sources : list string
}.

Definition separate (m : well_map) (d : mix_data) : Py.result components :=
  fold_left
    (fun acc vs =>
       let '(vol, src) := vs in
       match acc with
       | Py.Raise e => Py.Raise e
       | Py.Ok c =>
           if is_nacl m src then acc
           else
             match Py.index (scale_factors d) 0 with
             | Py.Raise e => Py.Raise e
             | Py.Ok scale =>
                 if is_small (vol / scale)%Q
                 then Py.Ok (Components (small_volumes c ++ [vol * 10])%Q
                                        (small_sources c ++ [src])
                                        (normal_volumes c) (normal_sources c))
                 else Py.Ok (Components (small_volumes c) (small_sources c)
                                        (normal_volumes c ++ [vol])
                                        (normal_sources c ++ [src]))
             end
       end)
    (combine (volumes d) (source_wells d))
    (Py.Ok (Components [] [] [] [])).

(** [p50 if vol <= 50 else p1000]. *)
Definition pipette_for (vol : Q) : pipette :=
  if Qle_bool vol 50 then p50 else p1000.

(** One tip, one aspirate from [src], one dispense into [dst], a
    blow-out and the tip dropped. *)
Definition move_plasmid (pip : pipette) (vol : Q) (src : string)
  (dst : labware * string) (blow : bool) (t : tips) : L tips :=
  let* t := take_tip pip t in
  let* ws := lift (getwell plasmid_plate src) in
  emit (aspirate pip vol (at_well ws)) ;;
  let* wd := lift (getwell (fst dst) (snd dst)) in
  emit (dispense pip vol (at_well wd)) ;;
  (if blow
   then let* wd := lift (getwell (fst dst) (snd dst)) in
        emit (blow_out pip (Some (top wd (-2))))
   else emit (blow_out pip None)) ;;
  emit (drop_tip pip) ;;
  ret t.

(** Lines 482-500. *)
Definition stage_small (c : components) (intermediate_well_small : string)
  (t : tips) : L tips :=
  for_each (combine (small_volumes c) (small_sources c))
    (fun vs t =>
       let '(vol, src) := vs in
       if Py.Qlt_bool 0 vol && Qle_bool vol 50
       then move_plasmid p50 vol src (plasmid_plate, intermediate_well_small) false t
       else if Py.Qlt_bool 50 vol && Qle_bool vol 200
       then move_plasmid p1000 vol src (plasmid_plate, intermediate_well_small) false t
       else ret t)
    t.

(** Lines 505-528: the pooled small volume goes to the final vessel. *)
Definition pool_to_final (c : components) (d : mix_data)
  (intermediate_well_small intermediate_well_final : string) (t : tips)
  : L tips :=
  let total_intermediate_volume := Py.sum (small_volumes c) in
  let final_transfer := (total_intermediate_volume / 10)%Q in
  let* t :=
    if Qle_bool final_transfer 50 then
      let* t := take_tip_50 t in
      let* w := lift (getwell plasmid_plate intermediate_well_small) in
      emit (mix p50 3 (0.8 * total_intermediate_volume)%Q (bottom w 0.1)) ;;
      let* w := lift (getwell plasmid_plate intermediate_well_small) in
      emit (aspirate p50 final_transfer (bottom w 0.1)) ;;
      let* wf := lift (getwell plasmid_plate intermediate_well_final) in
      emit (dispense p50 final_transfer (at_well wf)) ;;
      emit (blow_out p50 None) ;;
      emit (drop_tip p50) ;;
      ret t
    else
      let* t := take_tip_200 t in
      let* w := lift (getwell plasmid_plate intermediate_well_small) in
      emit (aspirate p1000 final_transfer (bottom w 0.1)) ;;
      let* wf := lift (getwell plasmid_plate intermediate_well_final) in
      emit (dispense p1000 final_transfer (at_well wf)) ;;
      emit (blow_out p1000 None) ;;
      emit (drop_tip p1000) ;;
      ret t in
  emit (comment [lit "Transferred intermediate mix ("; ffloat final_transfer;
                 lit " µL) from "; fstr intermediate_well_final; lit " to ";
                 fstr (dest_well d)]) ;;
  ret t.

(** Lines 558-575 and 607-624: the normal components go to [dst]. *)
Definition transfer_normal (c : components) (dst : labware * string)
  (t : tips) : L tips :=
  for_each (combine (normal_volumes c) (normal_sources c))
    (fun vs t =>
       let '(vol, src) := vs in
       if Qle_bool vol 0 then ret t
       else move_plasmid (pipette_for vol) vol src dst true t)
    t.

(** Line 577: the volumes divided by the scale factor and summed. *)
Definition total_volume (d : mix_data) (scale : Q) : Q :=
  Py.sum (map (fun v => (v / scale)%Q) (filter (Py.Qlt_bool 0) (volumes d))).

(** Lines 577-602: from the final vessel to the destination well. *)
Definition final_transfer (d : mix_data) (intermediate_well_final : string)
  (t : tips) : L tips :=
  let* total :=
    match filter (Py.Qlt_bool 0) (volumes d) with
    | [] => ret 0%Q
    | _ => let* scale := lift (Py.index (scale_factors d) 0) in
           ret (total_volume d scale)
    end in
  emit (comment [lit "→ Final transfer to PCR well "; fstr (dest_well d);
                 lit " ("; ffloat2 total; lit " µL)"]) ;;
  let pip := pipette_for total in
  let* t := take_tip pip t in
  let mix_vol := if Py.Qlt_bool 50 (total * 0.8)%Q then 50%Q else (total * 0.8)%Q in
  let* wf := lift (getwell plasmid_plate intermediate_well_final) in
  emit (mix pip 3 mix_vol (bottom wf 1)) ;;
  let* wf := lift (getwell plasmid_plate intermediate_well_final) in
  emit (aspirate pip total (bottom wf 1)) ;;
  let* wd := lift (getwell pcr_plate (dest_well d)) in
  emit (dispense pip total (bottom wd 1)) ;;
  let* wd := lift (getwell pcr_plate (dest_well d)) in
  emit (blow_out pip (Some (top wd (-2)))) ;;
  emit (drop_tip pip) ;;
  emit (comment [lit "✅ Final transfer for mix "; fstr (dest_well d);
                 lit " COMPLETED"]) ;;
  ret t.

(** Lines 458-624: the transfers of one mix. The [continue] of line 539
    leaves the mix with its tips state. *)
Definition transfer_mix (m : well_map) (s : vessels) (d : mix_data)
  (t : tips) : L tips :=
  emit (comment [lit "
Transferring to "; fstr (dest_well d)]) ;;
  let* c := lift (separate m d) in
  match small_volumes c with
  | [] => transfer_normal c (pcr_plate, dest_well d) t
  | first_small :: more =>
      let* r :=
        match more with
        | _ :: _ =>
            let* intermediate_well_small :=
              lift (Py.getitem (assigned_small_wells s) (dest_well d)) in
            emit (comment [lit "Small volumes found → creating intermediate mix in ";
                           fstr intermediate_well_small]) ;;
            let* t := stage_small c intermediate_well_small t in
            let* intermediate_well_final :=
              lift (Py.getitem (assigned_final_wells s) (dest_well d)) in
            emit (comment [lit "Mix "; fstr (dest_well d);
                           lit ": final transfer → Eppendorf ";
                           fstr intermediate_well_final]) ;;
            let* t := pool_to_final c d intermediate_well_small
                        intermediate_well_final t in
            ret (Next (intermediate_well_final, t))
        | [] =>
            let* intermediate_well_final :=
              lift (Py.getitem (assigned_final_wells s) (dest_well d)) in
            let vol := (first_small / 10)%Q in
            let* src := lift (Py.index (small_sources c) 0) in
            emit (comment [lit "Only one small volume → directly transferring to final intermediate well ";
                           fstr intermediate_well_final]) ;;
            if Qle_bool vol 0 then ret (Break (intermediate_well_final, t))
            else
              let* t := move_plasmid (pipette_for vol) vol src
                          (plasmid_plate, intermediate_well_final) false t in
              ret (Next (intermediate_well_final, t))
        end in
      match r with
      | Break (_, t) => ret t
      | Next (intermediate_well_final, t) =>
          let* t := transfer_normal c (plasmid_plate, intermediate_well_final) t in
          final_transfer d intermediate_well_final t
      end
  end.

(** The body of the loop of line 427. *)
Definition process_mix (p : params) (m : well_map) (s : vessels)
  (d : mix_data) (st : list string * tips) : L (list string * tips) :=
  let* (premixed_sources, t) := premix_mix p m d st in
  let* t := transfer_mix m s d t in
  ret (premixed_sources, t).

(** The body of the loop of line 419. *)
Definition process_batch (p : params) (m : well_map) (s : vessels)
  (all_mix_data : list mix_data) (batch_start : nat) (t : tips) : L tips :=
  let batch_end := Nat.min (batch_start + batch_size) (mix_count p) in
  let batch_mix_data :=
    firstn (batch_end - batch_start) (skipn batch_start all_mix_data) in
  emit (comment [lit "Processing batch mixes "; fint (batch_start + 1);
                 lit " to "; fint batch_end]) ;;
  let* (_, t) := for_each batch_mix_data (process_mix p m s) ([], t) in
  ret t.

Definition execute_transfers (p : params) (m : well_map) (s : vessels)
  (all_mix_data : list mix_data) (t : tips) : L tips :=
  for_each
    (map (fun k => batch_size * k) (seq 0 ((mix_count p + batch_size - 1) / batch_size)))
    (process_batch p m s all_mix_data) t.

(** *** The run *)

(** Lines 337-629: the NaCl plan, its execution and the plasmid
    transfers, with the vessels [s] assigned so far. *)
Definition dispatch_and_transfer (p : params) (m : well_map)
  (all_mix_data : list mix_data) (s : vessels) (t : tips) : L unit :=
  let* plan := lift (plan_nacl all_mix_data s) in
  let* t := execute_nacl plan t in
  let* t := execute_transfers p m s all_mix_data t in
  emit (comment [lit "
Protocol complete. Created "; fint (mix_count p);
                 lit " mixes including NaCl (150mM)."]) ;;
  emit open_labware_latch ;;
  emit (print [lit "Tips200 used:"; fint (counter_200 t)]) ;;
  emit (print [lit "Tips50 used:"; fint (counter_50_f t); lit "
"]).

(** What follows the parser when it succeeded: lines 278-629. However
    the allocation loop ends, by exhaustion of its list or by [break],
    the run goes on. *)
Definition run_mixes (p : params) (m : well_map)
  (all_mix_data : list mix_data) (t : tips) : L unit :=
  let* c := assign_wells all_mix_data initial_vessels in
  emit close_labware_latch ;;
  dispatch_and_transfer p m all_mix_data (control_state c) t.

Definition run (p : params) (csv_file : table) : L unit :=
  let csv_data := clean csv_file in
  let* t := init_tips p in
  let* m := register_plasmids csv_data in
  let* m := register_nacl p csv_data m in
  let* parsed := parse_csv p csv_data m in
  match parsed with
  | None => ret tt
  | Some all_mix_data => run_mixes p m all_mix_data t
  end.

End DNAmix_final.
(** ** [DNAmix_aliquoting_final.py] *)

Module DNAmix_aliquoting_final.
Import Robot.
Local Open Scope robot_scope.

(** The run-time parameters of [add_parameters]. Both tube racks of
    [reagent_plate_type] have the same 24 well names. *)
Record params : Type := Params {
  mix_count : nat;
  reagent_vol : nat;
  aliquot_vol : nat;
  reagent_eppendorf : string;
  mix_position : string;
  mix_rows_count : nat;
  mix_columns_per_row : nat;
  delay_minutes : nat;
  starting_tip_200 : string;
  starting_tip_1000 : string;
  premix : bool;
  premixvol : nat
}.

Definition vol (n : nat) : Q := inject_Z (Z.of_nat n).

Fixpoint find_tip_index_from (i : nat) (tip_list : list well)
  (name : string) : Py.result nat :=
  match tip_list with
  | [] => Py.Raise (Py.ValueError
            ("Starting tip " ++ name ++ " not found in tip list.")%string)
  | tip :: r => if String.eqb (well_name tip) name then Py.Ok i
                else find_tip_index_from (S i) r name
  end.

Definition find_tip_index (tip_list : list well) (name : string)
  : Py.result nat := find_tip_index_from 0 tip_list name.

(** [rows = "ABCDEFGH"] as its letters. *)
Definition rows : list ascii :=
  ["A"; "B"; "C"; "D"; "E"; "F"; "G"; "H"]%char.

(** [c.upper()] on ASCII letters. *)
Definition upper (c : ascii) : ascii :=
  let n := nat_of_ascii c in
  if Nat.leb 97 n && Nat.leb n 122 then ascii_of_nat (n - 32) else c.

(** [rows.index(c)]. *)
Fixpoint rows_index_from (i : nat) (l : list ascii) (c : ascii) : Py.result nat :=
  match l with
  | [] => Py.Raise (Py.ValueError "substring not found")
  | x :: r => if Ascii.eqb x c then Py.Ok i else rows_index_from (S i) r c
  end.

(** [int(s)] on a plain, non-empty string of digits; every other string
    raises [ValueError]. *)
Definition int (s : string) : Py.result nat :=
  match list_ascii_of_string s, Py.digits_value 0 (list_ascii_of_string s) with
  | _ :: _, Some n => Py.Ok (N.to_nat n)
  | _, _ => Py.Raise (Py.ValueError
              ("invalid literal for int() with base 10: '" ++ s ++ "'")%string)
  end.

Record geometry : Type := Geometry { start_col : nat; row_index : nat }.

(** Lines 206-208. *)
Definition parse_position (mix_position : string) : Py.result geometry :=
  match mix_position with
  | EmptyString => Py.Raise (Py.IndexError "string index out of range")
  | String c rest =>
      match int rest with
      | Py.Raise e => Py.Raise e
      | Py.Ok start_col =>
          match rows_index_from 0 rows (upper c) with
          | Py.Raise e => Py.Raise e
          | Py.Ok row_index => Py.Ok (Geometry start_col row_index)
          end
      end
  end.

(** Lines 215-216: the wells of the selected rows and columns, by row. *)
Definition all_wells (p : params) (g : geometry) : list string :=
  let selected_rows := firstn (mix_rows_count p) (skipn (row_index g) rows) in
  flat_map
    (fun r => map (fun c => String r (Py.str_nat c))
                  (Py.range (start_col g) (start_col g + mix_columns_per_row p)))
    selected_rows.

(** The number of destination wells that the starting position and the
    rows and columns asked for determine. *)
Definition available_wells (p : params) : nat :=
  match parse_position (mix_position p) with
  | Py.Ok g => List.length (all_wells p g)
  | Py.Raise _ => 0
  end.

(** Those of them that are wells of the PCR plate. *)
Definition wells_on_plate (p : params) : nat :=
  match parse_position (mix_position p) with
  | Py.Ok g =>
      List.length (filter (fun name => Py.mem name (well_names pcr_plate))
                          (all_wells p g))
  | Py.Raise _ => 0
  end.

(** Lines 204-222: the destination wells, or the error that stops the
    run. *)
Definition destination_wells (p : params) : L (list well) :=
  let* g := lift (parse_position (mix_position p)) in
  if Nat.ltb (List.length rows) (row_index g + mix_rows_count p) then
    emit (pause "Error: Too many rows selected for the starting position.") ;;
    raise (Py.RuntimeError "Invalid row selection.")
  else
    let wells := all_wells p g in
    if Nat.ltb (List.length wells) (mix_count p) then
      emit (pause ("Error: Only " ++ Py.str_nat (List.length wells)
                   ++ " wells available for mix placement.")%string) ;;
      raise (Py.RuntimeError "Not enough wells assigned for mixes.")
    else
      for_each (firstn (mix_count p) wells)
        (fun name acc =>
           let* w := lift (getwell pcr_plate name) in
           ret (acc ++ [w]))
        [].

(** Lines 240-258: reagent distribution. *)
Definition distribute (p : params) (source : well) (dests : list well)
  : L unit :=
  let* _ :=
    for_each (Py.range 0 (mix_count p))
      (fun well_index vol_in_tip =>
         let remaining_wells := mix_count p - well_index in
         let* vol_in_tip :=
           if Py.Qlt_bool vol_in_tip (vol (reagent_vol p)) then
             let to_aspirate :=
               if Py.Qlt_bool (vol (remaining_wells * reagent_vol p)) (1000 * 0.9)%Q
               then vol (remaining_wells * reagent_vol p)
               else (1000 * 0.9)%Q in
             (if premix p then
                emit (flow_rate_aspirate p1000 716) ;;
                emit (flow_rate_dispense p1000 716) ;;
                emit (mix p1000 3 (vol (premixvol p)) (at_well source)) ;;
                emit (flow_rate_aspirate p1000 35) ;;
                emit (flow_rate_dispense p1000 57)
              else ret tt) ;;
             emit (aspirate p1000 to_aspirate (at_well source)) ;;
             ret to_aspirate
           else ret vol_in_tip in
         let* w := lift (Py.index dests well_index) in
         emit (dispense p1000 (vol (reagent_vol p)) (top w 0)) ;;
         emit (air_gap p1000 5) ;;
         ret (vol_in_tip - vol (reagent_vol p))%Q)
      0%Q in
  ret tt.

Record counters : Type := Counters { counter_1000 : nat; counter_200 : nat }.

(** Lines 266-297: every mix goes to four wells of the cell plate. *)
Definition aliquot (p : params) (tips200_by_row tips1000_by_row : list well)
  (dests : list well) (k : counters) : L counters :=
  for_each (combine (seq 0 (List.length dests)) dests)
    (fun entry k =>
       let '(i, source_well) := entry in
       let block := (i / 6) mod 4 in
       let col := (i mod 6) + 1 + (if Nat.eqb block 2 || Nat.eqb block 3 then 6 else 0) in
       let rows_block := if Nat.eqb (block mod 2) 0 then ["A"; "B"; "C"; "D"]
                         else ["E"; "F"; "G"; "H"] in
       let* target_locs :=
         for_each rows_block
           (fun r acc =>
              let* w := lift (getwell cell_plate (r ++ Py.str_nat col)%string) in
              ret (acc ++ [w]))
           [] in
       let* (tip, k) :=
         if Nat.leb (aliquot_vol p * 4) 200 then
           let* tip := lift (Py.index tips200_by_row (counter_200 k)) in
           ret (tip, Counters (counter_1000 k) (S (counter_200 k)))
         else
           let* tip := lift (Py.index tips1000_by_row (counter_1000 k)) in
           ret (tip, Counters (S (counter_1000 k)) (counter_200 k)) in
       emit (pick_up_tip p1000 tip) ;;
       emit (flow_rate_aspirate p1000 716) ;;
       emit (flow_rate_dispense p1000 716) ;;
       emit (mix p1000 5 (vol (reagent_vol p)) (at_well source_well)) ;;
       emit (flow_rate_aspirate p1000 35) ;;
       emit (flow_rate_dispense p1000 57) ;;
       emit (aspirate p1000 (vol (aliquot_vol p * 4)) (at_well source_well)) ;;
       for_each target_locs
         (fun loc _ => emit (dispense p1000 (vol (aliquot_vol p)) (at_well loc))) tt ;;
       emit (drop_tip p1000) ;;
       ret k)
    k.

Definition run (p : params) : L unit :=
  let* i200 := lift (find_tip_index (tips_by_row tiprack_200) (starting_tip_200 p)) in
  let tips200_by_row := skipn i200 (tips_by_row tiprack_200) in
  let* i1000 := lift (find_tip_index (tips_by_row tiprack_1000) (starting_tip_1000 p)) in
  let tips1000_by_row := skipn i1000 (tips_by_row tiprack_1000) in
  emit (flow_rate_aspirate p1000 35) ;;
  emit (flow_rate_dispense p1000 57) ;;
  let* source := lift (getwell reagent_plate (reagent_eppendorf p)) in
  let* dests := destination_wells p in
  emit close_labware_latch ;;
  let* tip := lift (Py.index tips1000_by_row 0) in
  emit (pick_up_tip p1000 tip) ;;
  distribute p source dests ;;
  emit (drop_tip p1000) ;;
  emit (delay (delay_minutes p)) ;;
  let* k := aliquot p tips200_by_row tips1000_by_row dests (Counters 1 0) in
  emit open_labware_latch ;;
  emit (print [lit "Tips used — 1000 µL:"; fint (counter_1000 k)]) ;;
  emit (print [lit "Tips used — 200 µL:"; fint (counter_200 k)]).

End DNAmix_aliquoting_final.

(** ** Notions used to state properties of the runs *)

Module Derived.
Import Robot.

(** [well_choices] of [add_parameters] (line 19 of both files), as the
    values offered: every row letter with every column from 1 to 12. *)
Definition well_choices : list string :=
  flat_map (fun row => map (fun col => String row (Py.str_nat col)) (Py.range 1 13))
           ["A"; "B"; "C"; "D"; "E"; "F"; "G"; "H"]%char.

(** How many calls of a log satisfy a test. *)
Definition count (f : event -> bool) (l : list event) : nat :=
  List.length (filter f l).

Definition is_pick_up_by (p : pipette) (e : event) : bool :=
  match e, p with
  | pick_up_tip p50 _, p50 | pick_up_tip p1000 _, p1000 => true
  | _, _ => false
  end.

Definition is_drop_by (p : pipette) (e : event) : bool :=
  match e, p with
  | drop_tip p50, p50 | drop_tip p1000, p1000 => true
  | _, _ => false
  end.

Definition is_move_labware (e : event) : bool :=
  match e with move_labware _ _ => true | _ => false end.

(** The volumes of the aspirate calls of a log, in order. *)
Definition aspirated (l : list event) : list Q :=
  flat_map (fun e => match e with aspirate _ v _ => [v] | _ => [] end) l.

(** The dispense calls of a log, in order. *)
Definition dispenses (l : list event) : list event :=
  filter (fun e => match e with dispense _ _ _ => true | _ => false end) l.

(** The tips a pipette picks up in a log, in order. *)
Definition picked (p : pipette) (l : list event) : list well :=
  flat_map (fun e => match e with
                     | pick_up_tip _ w => if is_pick_up_by p e then [w] else []
                     | _ => []
                     end) l.

(** An entry of [nacl_totals] and the entry of [nacl_dests] beside it
    agree: the same source well, a total that is the sum of the listed
    volumes, at least one destination, and positive volumes only. *)
Definition plan_entry_ok (kt : string * Q) (kl : string * list (well * Q))
  : Prop :=
  fst kt = fst kl
  /\ (snd kt == DNAmix_final.group_total (snd kl))%Q
  /\ snd kl <> []
  /\ Forall (fun dv => 0 < snd dv)%Q (snd kl).

(** A test on the calls of a log: an aspirate takes at most [cap]. *)
Definition aspirate_at_most (cap : Q) (e : event) : Prop :=
  match e with
  | aspirate _ v _ => (v <= cap)%Q
  | _ => True
  end.

(** The batch starts of line 419 and the slice of line 421. *)
Definition batch_starts (p : DNAmix_final.params) : list nat :=
  map (fun k => DNAmix_final.batch_size * k)
      (seq 0 ((DNAmix_final.mix_count p + DNAmix_final.batch_size - 1)
              / DNAmix_final.batch_size)).

Definition batch_mix_data (p : DNAmix_final.params)
  (all_mix_data : list DNAmix_final.mix_data) (batch_start : nat)
  : list DNAmix_final.mix_data :=
  let batch_end := Nat.min (batch_start + DNAmix_final.batch_size)
                           (DNAmix_final.mix_count p) in
  firstn (batch_end - batch_start) (skipn batch_start all_mix_data).

(** The body of the loop of line 240 of the aliquoting protocol, as
    [DNAmix_aliquoting_final.distribute] has it. *)
Definition distribute_body (p : DNAmix_aliquoting_final.params)
  (source : well) (dests : list well) (well_index : nat) (vol_in_tip : Q)
  : L Q :=
  let vol := DNAmix_aliquoting_final.vol in
  let reagent_vol := DNAmix_aliquoting_final.reagent_vol in
  let remaining_wells := DNAmix_aliquoting_final.mix_count p - well_index in
  bind
    (if Py.Qlt_bool vol_in_tip (vol (reagent_vol p)) then
       let to_aspirate :=
         if Py.Qlt_bool (vol (remaining_wells * reagent_vol p)) (1000 * 0.9)%Q
         then vol (remaining_wells * reagent_vol p)
         else (1000 * 0.9)%Q in
       bind (if DNAmix_aliquoting_final.premix p then
               bind (emit (flow_rate_aspirate p1000 716)) (fun _ =>
               bind (emit (flow_rate_dispense p1000 716)) (fun _ =>
               bind (emit (mix p1000 3 (vol (DNAmix_aliquoting_final.premixvol p))
                                 (at_well source))) (fun _ =>
               bind (emit (flow_rate_aspirate p1000 35)) (fun _ =>
               emit (flow_rate_dispense p1000 57)))))
             else ret tt) (fun _ =>
       bind (emit (aspirate p1000 to_aspirate (at_well source))) (fun _ =>
       ret to_aspirate))
     else ret vol_in_tip)
    (fun vol_in_tip =>
       bind (lift (Py.index dests well_index)) (fun w =>
       bind (emit (dispense p1000 (vol (reagent_vol p)) (top w 0))) (fun _ =>
       bind (emit (air_gap p1000 5)) (fun _ =>
       ret (vol_in_tip - vol (reagent_vol p))%Q)))).

(** Whether a tip that holds [content] can carry out the aspirates and
    dispenses of a log without giving out more than it holds. *)
Fixpoint tip_never_overdrawn (content : Q) (l : list event) : Prop :=
  match l with
  | [] => True
  | aspirate _ v _ :: r => tip_never_overdrawn (content + v)%Q r
  | dispense _ v _ :: r =>
      (v <= content)%Q /\ tip_never_overdrawn (content - v)%Q r
  | _ :: r => tip_never_overdrawn content r
  end.

(** The body of the loop of line 266 of the aliquoting protocol, as
    [DNAmix_aliquoting_final.aliquot] has it, and the four wells of the
    cell plate it computes for the mix of index [i]. *)
Definition aliquot_targets (i : nat) : L (list well) :=
  let block := (i / 6) mod 4 in
  let col := (i mod 6) + 1 + (if Nat.eqb block 2 || Nat.eqb block 3 then 6 else 0) in
  let rows_block := if Nat.eqb (block mod 2) 0 then ["A"; "B"; "C"; "D"]
                    else ["E"; "F"; "G"; "H"] in
  for_each rows_block
    (fun r acc =>
       bind (lift (getwell cell_plate (r ++ Py.str_nat col)%string)) (fun w =>
       ret (acc ++ [w])))
    [].

Definition aliquot_body (p : DNAmix_aliquoting_final.params)
  (tips200_by_row tips1000_by_row : list well)
  (entry : nat * well) (k : DNAmix_aliquoting_final.counters)
  : L DNAmix_aliquoting_final.counters :=
  let vol := DNAmix_aliquoting_final.vol in
  let aliquot_vol := DNAmix_aliquoting_final.aliquot_vol in
  let counter_200 := DNAmix_aliquoting_final.counter_200 in
  let counter_1000 := DNAmix_aliquoting_final.counter_1000 in
  let '(i, source_well) := entry in
  bind (aliquot_targets i) (fun target_locs =>
  bind (if Nat.leb (aliquot_vol p * 4) 200 then
          bind (lift (Py.index tips200_by_row (counter_200 k))) (fun tip =>
          ret (tip, DNAmix_aliquoting_final.Counters
                      (counter_1000 k) (S (counter_200 k))))
        else
          bind (lift (Py.index tips1000_by_row (counter_1000 k))) (fun tip =>
          ret (tip, DNAmix_aliquoting_final.Counters
                      (S (counter_1000 k)) (counter_200 k))))
       (fun '(tip, k) =>
  bind (emit (pick_up_tip p1000 tip)) (fun _ =>
  bind (emit (flow_rate_aspirate p1000 716)) (fun _ =>
  bind (emit (flow_rate_dispense p1000 716)) (fun _ =>
  bind (emit (mix p1000 5 (vol (DNAmix_aliquoting_final.reagent_vol p))
                    (at_well source_well))) (fun _ =>
  bind (emit (flow_rate_aspirate p1000 35)) (fun _ =>
  bind (emit (flow_rate_dispense p1000 57)) (fun _ =>
  bind (emit (aspirate p1000 (vol (aliquot_vol p * 4)) (at_well source_well)))
       (fun _ =>
  bind (for_each target_locs
          (fun loc _ => emit (dispense p1000 (vol (aliquot_vol p)) (at_well loc)))
          tt) (fun _ =>
  bind (emit (drop_tip p1000)) (fun _ =>
  ret k))))))))))).

(** The wells a log dispenses into, in order. *)
Definition dispensed_wells (l : list event) : list well :=
  flat_map (fun e => match e with
                     | dispense _ _ (at_well w) | dispense _ _ (top w _)
                     | dispense _ _ (bottom w _) => [w]
                     | _ => []
                     end) l.

Definition labware_eqb (a b : labware) : bool :=
  match a, b with
  | plasmid_plate, plasmid_plate | pcr_plate, pcr_plate
  | reagent_plate, reagent_plate | cell_plate, cell_plate
  | tiprack_50, tiprack_50 | tiprack_50_reserve, tiprack_50_reserve
  | tiprack_200, tiprack_200 | tiprack_1000, tiprack_1000 => true
  | _, _ => false
  end.

(** The tips of one rack among the tips a pipette picks up in a log. *)
Definition picked_from (rack : labware) (p : pipette) (l : list event)
  : list well :=
  filter (fun w => labware_eqb (well_labware w) rack) (picked p l).

(** The four wells of the mix of index [i]. *)
Definition cell_wells (i : nat) : list well :=
  match outcome (aliquot_targets i) with
  | Py.Ok ws => ws
  | Py.Raise _ => []
  end.

(** The tips the aliquoting loop has left to take from: those of the rack
    it uses, from the position its counter gives. *)
Definition used_tips (p : DNAmix_aliquoting_final.params) (tips200_by_row tips1000_by_row : list well)
  (k : DNAmix_aliquoting_final.counters) : list well :=
  if Nat.leb (DNAmix_aliquoting_final.aliquot_vol p * 4) 200
  then skipn (DNAmix_aliquoting_final.counter_200 k) tips200_by_row
  else skipn (DNAmix_aliquoting_final.counter_1000 k) tips1000_by_row.

(** The step of the fold of [separate]. *)
Definition separate_step (m : DNAmix_final.well_map) (d : DNAmix_final.mix_data)
  (acc : Py.result DNAmix_final.components) (vs : Q * string) : Py.result DNAmix_final.components :=
  let '(vol, src) := vs in
  match acc with
  | Py.Raise e => Py.Raise e
  | Py.Ok c =>
      if DNAmix_final.is_nacl m src then acc
      else
        match Py.index (DNAmix_final.scale_factors d) 0 with
        | Py.Raise e => Py.Raise e
        | Py.Ok scale =>
            if DNAmix_final.is_small (vol / scale)%Q
            then Py.Ok (DNAmix_final.Components (DNAmix_final.small_volumes c ++ [vol * 10])%Q
                                   (DNAmix_final.small_sources c ++ [src])
                                   (DNAmix_final.normal_volumes c) (DNAmix_final.normal_sources c))
            else Py.Ok (DNAmix_final.Components (DNAmix_final.small_volumes c) (DNAmix_final.small_sources c)
                                   (DNAmix_final.normal_volumes c ++ [vol])
                                   (DNAmix_final.normal_sources c ++ [src]))
        end
  end.

(** Every key of the two tables of assigned vessels of [s] is a key of
    the same table of [s']. *)
Definition keeps_keys (s s' : DNAmix_final.vessels) : Prop :=
  (forall k w, Py.get (DNAmix_final.assigned_final_wells s) k = Some w ->
               exists w', Py.get (DNAmix_final.assigned_final_wells s') k = Some w')
  /\ (forall k w, Py.get (DNAmix_final.assigned_small_wells s) k = Some w ->
                  exists w', Py.get (DNAmix_final.assigned_small_wells s') k = Some w').

(** The two counters that the run prints at its end. *)
Definition tip_counters (t : DNAmix_final.tips) : nat * nat :=
  (DNAmix_final.counter_200 t, DNAmix_final.counter_50_f t).

(** The tips a log picks up with the 1000 µL and with the 50 µL pipette. *)
Definition tally (l : list event) : nat * nat :=
  (count (is_pick_up_by p1000) l, count (is_pick_up_by p50) l).

(** A computation that starts with the counters at [n] and ends without
    an exception leaves them at [n] plus the tips its log picks up. *)
Definition accounted {A} (pi : A -> nat * nat) (c : L A) (n : nat * nat)
  : Prop :=
  match outcome c with
  | Py.Ok a => pi a = (fst n + fst (tally (log c)), snd n + snd (tally (log c)))
  | Py.Raise _ => True
  end.

(** Whether each pipette holds a tip: the 50 µL one, then the 1000 µL
    one. *)
Definition hands : Type := (bool * bool)%type.

Definition empty_hands : hands := (false, false).

Definition holds (s : hands) (p : pipette) : bool :=
  match p with p50 => fst s | p1000 => snd s end.

Definition with_tip (s : hands) (p : pipette) (b : bool) : hands :=
  match p with p50 => (b, snd s) | p1000 => (fst s, b) end.

(** The calls of a log carried out from the state [s]: a pick-up needs a
    pipette without a tip; a drop, an aspirate, a dispense, a blow-out, a
    mix and an air gap need one with a tip. [None] when a call finds the
    pipette in the wrong state, else the state at the end. *)
Fixpoint tips_ok (s : hands) (l : list event) : option hands :=
  match l with
  | [] => Some s
  | e :: r =>
      match e with
      | pick_up_tip p _ =>
          if holds s p then None else tips_ok (with_tip s p true) r
      | drop_tip p =>
          if holds s p then tips_ok (with_tip s p false) r else None
      | aspirate p _ _ | dispense p _ _ | blow_out p _ | mix p _ _ _
      | air_gap p _ =>
          if holds s p then tips_ok s r else None
      | _ => tips_ok s r
      end
  end.

(** A computation started in state [s] never finds a pipette in the
    wrong state, and when it ends without an exception it ends in [s']. *)
Definition moves {A} (s s' : hands) (c : L A) : Prop :=
  match outcome c with
  | Py.Ok _ => tips_ok s (log c) = Some s'
  | Py.Raise _ => tips_ok s (log c) <> None
  end.

(** *** Volumes as the code computes them

    The functions of [DNAmix_final] above compute with exact rationals.
    The definitions below take the rounding [rnd] of each arithmetic
    operation as a parameter: with [fun x => x] they are the exact ones,
    with [Binary64.round] they compute what Python computes. *)

(** [0 < v < 0.8], with the literal [0.8] as the arithmetic reads it. *)
Definition is_small_with (rnd : Q -> Q) (v : Q) : bool :=
  Py.Qlt_bool 0 v && Py.Qlt_bool v (rnd 0.8%Q).

(** [sum(l)]: left to right from [0], each addition rounded. *)
Definition sum_with (rnd : Q -> Q) (l : list Q) : Q :=
  fold_left (fun a v => rnd (a + v)%Q) l 0%Q.

(** Lines 229-252, as [DNAmix_final.rescale] has them. *)
Definition rescale_with (rnd : Q -> Q) (mix_volumes : list Q)
  : list Q * list Q :=
  let small_volumes := filter (is_small_with rnd) mix_volumes in
  let small_volumes_count :=
    List.length (filter (is_small_with rnd) mix_volumes) in
  match small_volumes with
  | v :: r =>
      let min_small := Py.min_from v r in
      let scale_factor :=
        if Nat.ltb 1 small_volumes_count
        then rnd (rnd 0.8%Q / sum_with rnd small_volumes)%Q
        else rnd (rnd 0.8%Q / min_small)%Q in
      (map (fun v => rnd (v * scale_factor)%Q) mix_volumes, [scale_factor])
  | [] => (mix_volumes, repeat 1%Q (List.length mix_volumes))
  end.

(** The test of lines 298 and 466 on a stored volume and the scale
    factor of its mix: [0 < v / scale < 0.8]. *)
Definition small_after_division (rnd : Q -> Q) (v scale : Q) : bool :=
  is_small_with rnd (rnd (v / scale)%Q).

(** The mix the parser stores for the numbers [vols] it has read. *)
Definition stored_mix (rnd : Q -> Q) (vols : list Q) (srcs : list string)
  (dest : string) : DNAmix_final.mix_data :=
  DNAmix_final.MixData (fst (rescale_with rnd vols))
                       (snd (rescale_with rnd vols)) srcs dest.

(** Line 298 for any test [small v scale] on a stored volume and the
    scale factor; [DNAmix_final.small_volumes_count] is the case of the
    exact quotient. *)
Definition small_volumes_count_with (small : Q -> Q -> bool)
  (d : DNAmix_final.mix_data) (scale : Q) : nat :=
  List.length (filter (fun v => small v scale) (DNAmix_final.volumes d)).

(** The body of the loop of line 295 and the loop, as
    [DNAmix_final.assign_step] and [DNAmix_final.assign_wells] have
    them, for any such test. *)
Definition assign_step_with (small : Q -> Q -> bool)
  (d : DNAmix_final.mix_data) (s : DNAmix_final.vessels)
  : L (DNAmix_final.control DNAmix_final.vessels) :=
  let Next := @DNAmix_final.Next DNAmix_final.vessels in
  let Break := @DNAmix_final.Break DNAmix_final.vessels in
  let Vessels := DNAmix_final.Vessels in
  let dest_well := DNAmix_final.dest_well in
  let intermediate_liquid := DNAmix_final.intermediate_liquid in
  let not_enough_wells := DNAmix_final.not_enough_wells in
  bind (lift (Py.index (DNAmix_final.scale_factors d) 0)) (fun scale =>
  let n := small_volumes_count_with small d scale in
  if Nat.ltb 1 n then
    match DNAmix_final.intermediate_small_pool s,
          DNAmix_final.intermediate_final_pool s with
    | small_well :: small_rest, final_well :: final_rest =>
        bind (lift (getwell plasmid_plate small_well)) (fun ws =>
        bind (emit (load_liquid ws intermediate_liquid 0)) (fun _ =>
        bind (lift (getwell plasmid_plate final_well)) (fun wf =>
        bind (emit (load_liquid wf intermediate_liquid 0)) (fun _ =>
        bind (emit (comment [lit "Intermediate SMALL well for ";
                             fstr (dest_well d); lit ": "; fstr small_well]))
             (fun _ =>
        bind (emit (comment [lit "Intermediate FINAL well for ";
                             fstr (dest_well d); lit ": "; fstr final_well]))
             (fun _ =>
        ret (Next (Vessels small_rest final_rest
                     (DNAmix_final.intermediate_pool s)
                     (Py.set (DNAmix_final.assigned_small_wells s)
                             (dest_well d) small_well)
                     (Py.set (DNAmix_final.assigned_final_wells s)
                             (dest_well d) final_well)))))))))
    | _, _ => bind (emit (pause not_enough_wells)) (fun _ => ret (Break s))
    end
  else if Nat.eqb n 1 then
    match DNAmix_final.intermediate_pool s with
    | final_well :: rest =>
        bind (lift (getwell plasmid_plate final_well)) (fun wf =>
        bind (emit (load_liquid wf intermediate_liquid 0)) (fun _ =>
        bind (emit (comment [lit "Intermediate FINAL well for ";
                             fstr (dest_well d); lit ": "; fstr final_well]))
             (fun _ =>
        ret (Next (Vessels (DNAmix_final.intermediate_small_pool s)
                     (DNAmix_final.intermediate_final_pool s)
                     rest (DNAmix_final.assigned_small_wells s)
                     (Py.set (DNAmix_final.assigned_final_wells s)
                             (dest_well d) final_well))))))
    | [] => bind (emit (pause not_enough_wells)) (fun _ => ret (Break s))
    end
  else ret (Next s)).

Fixpoint assign_wells_with (small : Q -> Q -> bool)
  (all_mix_data : list DNAmix_final.mix_data) (s : DNAmix_final.vessels)
  : L (DNAmix_final.control DNAmix_final.vessels) :=
  match all_mix_data with
  | [] => ret (DNAmix_final.Next s)
  | d :: r =>
      bind (assign_step_with small d s) (fun c =>
      match c with
      | DNAmix_final.Next s' => assign_wells_with small r s'
      | DNAmix_final.Break s' => ret (DNAmix_final.Break s')
      end)
  end.

(** The small-volume count of line 298 for a mix, on its first scale
    factor. *)
Definition computed_count (small : Q -> Q -> bool)
  (d : DNAmix_final.mix_data) : nat :=
  small_volumes_count_with small d (hd 0%Q (DNAmix_final.scale_factors d)).





(** [n] tips taken one after the other with the same pipette. *)
Definition take_tips (pip : pipette) (n : nat) (t : DNAmix_final.tips)
  : L DNAmix_final.tips :=
  for_each (seq 0 n) (fun _ t => DNAmix_final.take_tip pip t) t.

End Derived.

(** ** Sample inputs *)

Module Examples.
Import DNAmix_final.

(** The fifteen rows of one mix: the destination well and the names in
    row 0, the volumes in row 12, the source wells in row 13. *)
Definition block (dest : string) (names vols wells : list string) : table :=
  [dest :: names] ++ repeat [] 11 ++ ["Volume" :: vols; "Well" :: wells; []].

Definition one_mix : params := Params 6 1 "A1" "A1" true.
Definition two_mixes : params := Params 6 2 "A1" "A1" true.
Definition seven_mixes : params := Params 6 7 "A1" "A1" false.

(** One plasmid below 0.8 µL, one above, and the NaCl. *)
Definition single_small : table :=
  block "A1" ["P1"; "P2"; "NaCl"] ["0.5"; "5"; "10"] ["A1"; "A2"; "A6"].

(** No small plasmid, a small NaCl volume. *)
Definition small_nacl : table :=
  block "A1" ["P1"; "NaCl"] ["1"; "0.5"] ["A1"; "A6"].

(** A mix with one small plasmid followed by a mix with two. *)
Definition one_then_two : table :=
  block "A1" ["P1"; "NaCl"] ["0.5"; "10"] ["A1"; "A6"]
  ++ block "A2" ["P1"; "P2"; "NaCl"] ["0.2"; "0.3"; "10"] ["A1"; "A2"; "A6"].

(** Seven mixes with two small plasmids each. *)
Definition seven_two_stage : table :=
  flat_map
    (fun dest => block dest ["P1"; "P2"; "NaCl"] ["0.2"; "0.3"; "10"]
                            ["A1"; "A2"; "A6"])
    ["A1"; "A2"; "A3"; "A4"; "A5"; "A6"; "A7"].


(** Thirteen rows: a blank volume cell and no source-well row. *)
Definition no_source_row : table :=
  [["A1"; "P1"]] ++ repeat [] 11 ++ [["Volume"; ""]].

(** A plasmid of 0.01 µL beside 10 µL of NaCl. *)
Definition tiny_plasmid : table :=
  block "A1" ["P1"; "NaCl"] ["0.01"; "10"] ["A1"; "A6"].

(** Thirteen mixes asked for on two rows of six columns from C1. *)
Definition thirteen_on_twelve : DNAmix_aliquoting_final.params :=
  DNAmix_aliquoting_final.Params 13 88 20 "D6" "C1" 2 6 15 "A1" "A1" false 2.

(** Five mixes asked for on one row of six columns from A10, of which
    the plate has three. *)
Definition five_from_A10 : DNAmix_aliquoting_final.params :=
  DNAmix_aliquoting_final.Params 5 88 20 "D6" "A10" 1 6 15 "A1" "A1" false 2.


End Examples.

(** * Properties *)

Import Robot.

(** ** Rational arithmetic of the Python helpers *)

Lemma Qlt_bool_iff (x y : Q) : Py.Qlt_bool x y = true <-> (x < y)%Q.
Proof.
  unfold Py.Qlt_bool. rewrite negb_true_iff.
  split; intro H.
  - apply Qnot_le_lt. intro Hle. apply Qle_bool_iff in Hle. congruence.
  - destruct (Qle_bool y x) eqn:E; [|reflexivity].
    apply Qle_bool_iff in E. lra.
Qed.

Lemma Qlt_bool_false_iff (x y : Q) : Py.Qlt_bool x y = false <-> (y <= x)%Q.
Proof.
  unfold Py.Qlt_bool. rewrite negb_false_iff. apply Qle_bool_iff.
Qed.

Lemma is_small_iff (v : Q) :
  DNAmix_final.is_small v = true <-> (0 < v /\ v < 0.8)%Q.
Proof.
  unfold DNAmix_final.is_small.
  rewrite andb_true_iff, !Qlt_bool_iff. reflexivity.
Qed.

Lemma fold_left_Qplus_acc (l : list Q) (a : Q) :
  (fold_left Qplus l a == a + fold_left Qplus l 0)%Q.
Proof.
  revert a. induction l as [|x l IH]; intro a; simpl.
  - ring.
  - rewrite (IH (a + x)%Q), (IH (0 + x)%Q). ring.
Qed.

Lemma sum_cons (x : Q) (l : list Q) : (Py.sum (x :: l) == x + Py.sum l)%Q.
Proof.
  unfold Py.sum. simpl. rewrite fold_left_Qplus_acc. ring.
Qed.

Lemma sum_app (l1 l2 : list Q) : (Py.sum (l1 ++ l2) == Py.sum l1 + Py.sum l2)%Q.
Proof.
  induction l1 as [|x l1 IH]; simpl.
  - unfold Py.sum at 2. simpl. ring.
  - rewrite !sum_cons, IH. ring.
Qed.

Lemma sum_pos (l : list Q) :
  l <> [] -> Forall (fun v => 0 < v)%Q l -> (0 < Py.sum l)%Q.
Proof.
  induction l as [|x l IH]; intros Hne Hall; [congruence|].
  inversion Hall as [|? ? Hx Hl]; subst.
  rewrite sum_cons.
  destruct l as [|y l'].
  - unfold Py.sum. simpl. lra.
  - assert (0 < Py.sum (y :: l'))%Q by (apply IH; [discriminate|assumption]).
    lra.
Qed.

Lemma min_from_In (x : Q) (l : list Q) : In (Py.min_from x l) (x :: l).
Proof.
  unfold Py.min_from. revert x.
  induction l as [|y l IH]; intro x; simpl.
  - now left.
  - destruct (Py.Qlt_bool y x).
    + destruct (IH y) as [H|H]; [right; left; exact H | right; right; exact H].
    + destruct (IH x) as [H|H]; [left; exact H | right; right; exact H].
Qed.

(** ** The logging monad *)

Lemma outcome_bind {A B} (c : L A) (f : A -> L B) :
  outcome (bind c f) =
  match outcome c with
  | Py.Ok a => outcome (f a)
  | Py.Raise e => Py.Raise e
  end.
Proof.
  destruct c as [l [a|e]]; simpl; [|reflexivity].
  destruct (f a); reflexivity.
Qed.

Lemma log_bind {A B} (c : L A) (f : A -> L B) :
  log (bind c f) =
  match outcome c with
  | Py.Ok a => log c ++ log (f a)
  | Py.Raise e => log c
  end.
Proof.
  destruct c as [l [a|e]]; simpl; [|reflexivity].
  destruct (f a); reflexivity.
Qed.

Lemma outcome_emit (e : event) : outcome (emit e) = Py.Ok tt.
Proof. reflexivity. Qed.

Lemma outcome_lift {A} (r : Py.result A) : outcome (lift r) = r.
Proof. reflexivity. Qed.

Lemma log_lift {A} (r : Py.result A) : log (lift r) = [].
Proof. reflexivity. Qed.

(** ** The rescaler *)

Import DNAmix_final.

(** Every recorded scale factor is positive. *)
Lemma rescale_factor_pos (mix_volumes : list Q) (s : Q) :
  In s (snd (rescale mix_volumes)) -> (0 < s)%Q.
Proof.
  unfold rescale.
  destruct (filter is_small mix_volumes) as [|v r] eqn:E; simpl.
  - intro H. apply repeat_spec in H. subst. reflexivity.
  - intros [H|[]]. subst s.
    assert (Hall : Forall (fun v => 0 < v)%Q (v :: r)).
    { rewrite <- E. apply Forall_forall. intros x Hx.
      apply filter_In in Hx. destruct Hx as [_ Hx].
      apply is_small_iff in Hx. tauto. }
    destruct (Nat.ltb 1 _).
    + apply Qlt_shift_div_l; [apply sum_pos; [discriminate|exact Hall]|lra].
    + assert (0 < Py.min_from v r)%Q.
      { pose proof (min_from_In v r) as Hin.
        rewrite Forall_forall in Hall. apply Hall. exact Hin. }
      apply Qlt_shift_div_l; lra.
Qed.

(** The rescaled volumes are the parsed ones times the first factor. *)
Lemma rescale_volumes (mix_volumes : list Q) (s : Q) :
  nth_error (snd (rescale mix_volumes)) 0 = Some s ->
  Forall2 (fun v' v => v' == v * s)%Q (fst (rescale mix_volumes)) mix_volumes.
Proof.
  unfold rescale.
  destruct (filter is_small mix_volumes) as [|v r] eqn:E; simpl.
  - destruct mix_volumes as [|x l]; simpl; [discriminate|].
    intro H. injection H as <-. clear E.
    generalize (x :: l). intro l0.
    induction l0; constructor; [ring|assumption].
  - intro H. injection H as <-. clear E.
    induction mix_volumes; simpl; constructor; [reflexivity|assumption].
Qed.

Lemma sum_scaled (l' l : list Q) (s : Q) :
  Forall2 (fun v' v => v' == v * s)%Q l' l -> (Py.sum l' == Py.sum l * s)%Q.
Proof.
  induction 1 as [|x' x l' l Hx _ IH].
  - unfold Py.sum. simpl. ring.
  - rewrite !sum_cons, IH, Hx. ring.
Qed.

(** Line 577 gives back the total of the parsed volumes. *)
Lemma sum_unscaled_positive (l' l : list Q) (s : Q) :
  (0 < s)%Q ->
  Forall (fun v => 0 <= v)%Q l ->
  Forall2 (fun v' v => v' == v * s)%Q l' l ->
  (Py.sum (map (fun v => v / s) (filter (Py.Qlt_bool 0) l')) == Py.sum l)%Q.
Proof.
  intros Hs Hall H. induction H as [|x' x l' l Hx _ IH]; simpl.
  - reflexivity.
  - inversion Hall as [|? ? Hx0 Hl]; subst.
    rewrite (sum_cons x l).
    destruct (Py.Qlt_bool 0 x') eqn:E; simpl.
    + rewrite sum_cons, (IH Hl), Hx. field. lra.
    + rewrite (IH Hl).
      apply Qlt_bool_false_iff in E. rewrite Hx in E.
      assert (x == 0)%Q; [|lra].
      apply Qle_antisym; [|exact Hx0].
      apply Qnot_lt_le. intro Hpos.
      assert (0 < x * s)%Q by (apply Qmult_lt_0_compat; assumption). lra.
Qed.

(** A left fold over results keeps an invariant of its successful
    states. *)
Lemma fold_left_result_inv {A X} (P : A -> Prop)
  (f : Py.result A -> X -> Py.result A) :
  (forall e x, f (Py.Raise e) x = Py.Raise e) ->
  (forall a x a', P a -> f (Py.Ok a) x = Py.Ok a' -> P a') ->
  forall xs a a', P a -> fold_left f xs (Py.Ok a) = Py.Ok a' -> P a'.
Proof.
  intros Hraise Hstep xs. induction xs as [|x xs IH]; intros a a' Ha; simpl.
  - intro H. injection H as <-. exact Ha.
  - destruct (f (Py.Ok a) x) as [b|e] eqn:E.
    + apply IH. eapply Hstep; eauto.
    + intro H. exfalso. revert H. clear -Hraise.
      induction xs as [|y ys IHy]; simpl; [discriminate|].
      rewrite Hraise. exact IHy.
Qed.

(** The parser keeps no negative volume, and as many source wells as
    volumes. *)
Lemma parse_components_nonneg (p : params) (csv_data : table) (i : nat)
  (vols : list Q) (srcs : list string) :
  parse_components p csv_data i = Py.Ok (vols, srcs) ->
  Forall (fun v => 0 <= v)%Q vols /\ List.length srcs = List.length vols.
Proof.
  unfold parse_components.
  destruct (Py.index csv_data (12 + i * 15)) as [volume_row|e]; [|discriminate].
  apply (fold_left_result_inv
           (fun vs : list Q * list string =>
              Forall (fun v => 0 <= v)%Q (fst vs)
              /\ List.length (snd vs) = List.length (fst vs))).
  - reflexivity.
  - intros [vs ss] x [vs' ss'] [Hvs Hlen]. simpl in Hvs, Hlen.
    destruct (String.eqb (cell_or_empty volume_row x) "").
    { intro H. injection H as <- <-. split; assumption. }
    destruct (Py.float _) as [vol|e]; [|discriminate].
    destruct (Py.Qlt_bool vol 0) eqn:E.
    { intro H. injection H as <- <-. split; assumption. }
    destruct (Py.index csv_data _) as [source_row|e]; [|discriminate].
    destruct (Py.index source_row x) as [cell|e]; [|discriminate].
    intro H. injection H as <- <-. simpl. split.
    + apply Forall_app. split; [exact Hvs|].
      constructor; [|constructor]. apply Qlt_bool_false_iff. exact E.
    + rewrite !length_app. simpl. lia.
  - simpl. split; [constructor|reflexivity].
Qed.

(** What [parse_mix] returns, leaving its log aside. *)
Lemma parse_mix_outcome (p : params) (csv_data : table) (m : well_map)
  (i : nat) :
  outcome (parse_mix p csv_data m i) =
  match parse_components p csv_data i with
  | Py.Raise e => Py.Raise e
  | Py.Ok (vols, srcs) =>
      match parse_dest_well csv_data i with
      | Py.Raise e => Py.Raise e
      | Py.Ok dest =>
          Py.Ok (MixData (fst (rescale vols)) (snd (rescale vols)) srcs dest)
      end
  end.
Proof.
  unfold parse_mix. rewrite outcome_bind, outcome_lift.
  destruct (parse_components p csv_data i) as [[vols srcs]|e]; [|reflexivity].
  destruct (rescale vols) as [rescaled factors]. simpl fst. simpl snd.
  rewrite outcome_bind.
  assert (H : forall c : L unit,
             (c = ret tt \/ exists e, c = emit e) -> outcome c = Py.Ok tt).
  { intros c [->|[e ->]]; reflexivity. }
  rewrite H by (destruct (filter is_small vols); [left|right; eexists]; reflexivity).
  rewrite outcome_bind, outcome_lift.
  destruct (parse_dest_well csv_data i) as [dest|e]; reflexivity.
Qed.

(** C7. For every mix the parser returns, the sum of the parsed volumes
    equals the sum of the rescaled volumes divided by the scale factor of
    the mix, and the total of line 577 (the sum of [v / scale_factor]
    over the positive rescaled volumes, used for the final transfer)
    equals that same sum, in exact arithmetic. *)
Theorem rescaling_preserves_total (p : params) (csv_data : table)
  (m : well_map) (i : nat) (vols : list Q) (srcs : list string)
  (d : mix_data) (s : Q) :
  parse_components p csv_data i = Py.Ok (vols, srcs) ->
  outcome (parse_mix p csv_data m i) = Py.Ok d ->
  Py.index (scale_factors d) 0 = Py.Ok s ->
  (Py.sum vols == Py.sum (volumes d) / s)%Q
  /\ (total_volume d s == Py.sum vols)%Q.
Proof.
  intros Hc Hd Hs.
  rewrite parse_mix_outcome, Hc in Hd.
  destruct (parse_dest_well csv_data i) as [dest|e]; [|discriminate].
  injection Hd as <-. simpl in Hs |- *.
  unfold Py.index in Hs.
  destruct (nth_error (snd (rescale vols)) 0) as [s'|] eqn:E; [|discriminate].
  injection Hs as ->.
  assert (Hpos : (0 < s)%Q).
  { apply (rescale_factor_pos vols). eapply nth_error_In. exact E. }
  pose proof (rescale_volumes vols s E) as Hv.
  split.
  - rewrite (sum_scaled _ _ _ Hv). field. lra.
  - unfold total_volume. simpl.
    apply sum_unscaled_positive; [exact Hpos| |exact Hv].
    apply (parse_components_nonneg p csv_data i vols srcs Hc).
Qed.

Lemma rescaling_preserves_total_witness :
  exists d,
    outcome (parse_mix Examples.one_mix Examples.single_small [] 0) = Py.Ok d
    /\ (Py.sum [0.5; 5; 10] == Py.sum (volumes d) / 1.6)%Q
    /\ (total_volume d (0.8 / Py.min_from 0.5 []) == Py.sum [0.5; 5; 10])%Q.
Proof.
  eexists. split; [reflexivity|].
  pose proof (rescaling_preserves_total Examples.one_mix Examples.single_small
                [] 0 [0.5; 5; 10]%Q ["A1"; "A2"; "A6"] _
                (0.8 / Py.min_from 0.5 [])%Q
                eq_refl eq_refl eq_refl) as [H1 H2].
  split; [|exact H2].
  rewrite H1. reflexivity.
Defined.

(** C1, as the code has it. The small volumes [S] of a mix are taken
    among all its parsed components, the NaCl (the last one) included.
    When [S] is empty the volumes are kept and every recorded factor is
    1; when [S] has one element [x] the factor is [0.8 / x]; when it has
    more the factor is [0.8 / sum(S)]; the factor multiplies every
    volume of the mix, the NaCl volume included. *)
Theorem rescale_counts_every_component (plasmids : list Q) (nacl : Q) :
  let mix_volumes := plasmids ++ [nacl] in
  let S := filter is_small plasmids ++ (if is_small nacl then [nacl] else []) in
  match S with
  | [] =>
      rescale mix_volumes = (mix_volumes, repeat 1%Q (List.length mix_volumes))
  | [x] =>
      rescale mix_volumes =
      (map (fun v => v * (0.8 / x))%Q mix_volumes, [(0.8 / x)%Q])
  | _ =>
      rescale mix_volumes =
      (map (fun v => v * (0.8 / Py.sum S))%Q mix_volumes, [(0.8 / Py.sum S)%Q])
  end.
Proof.
  intros mix_volumes S.
  assert (HS : filter is_small mix_volumes = S).
  { unfold mix_volumes, S. rewrite filter_app. simpl.
    destruct (is_small nacl); reflexivity. }
  unfold rescale. rewrite HS.
  destruct S as [|x [|y r]]; reflexivity.
Qed.

(** C1 as stated fails: with one plasmid of 1 µL and 0.5 µL of NaCl no
    plasmid volume is below 0.8 µL, and the scale factor of the mix is
    [0.8 / 0.5], which is not 1. *)
Lemma rescale_small_nacl_counterexample :
  parse_components Examples.one_mix (clean Examples.small_nacl) 0
  = Py.Ok ([1; 0.5]%Q, ["A1"; "A6"])
  /\ filter is_small [1%Q] = []
  /\ exists d,
       outcome (parse_mix Examples.one_mix (clean Examples.small_nacl) [] 0)
       = Py.Ok d
       /\ scale_factors d = [(0.8 / 0.5)%Q]
       /\ ~ (0.8 / 0.5 == 1)%Q.
Proof.
  split; [reflexivity|]. split; [reflexivity|].
  eexists. split; [reflexivity|]. split; [reflexivity|].
  intro H. discriminate H.
Qed.

(** ** NaCl dispense groups *)

Section PackingFacts.
Context {D : Type}.
Variable max_vol : Q.

Let cap : Q := (max_vol - buffer)%Q.

Lemma group_total_app (g1 g2 : list (D * Q)) :
  (group_total (g1 ++ g2) == group_total g1 + group_total g2)%Q.
Proof. unfold group_total. rewrite map_app. apply sum_app. Qed.

Lemma group_total_single (d : D) (v : Q) : (group_total [(d, v)] == v)%Q.
Proof. unfold group_total, Py.sum. simpl. ring. Qed.

(** The groups closed so far and the open group hold the destinations
    seen so far, in order. *)
Lemma pack_loop_concat_from (l : list (D * Q)) (st : packing) :
  let st' := fold_left (pack_step max_vol) l st in
  List.concat (grouped st') ++ group st' = List.concat (grouped st) ++ group st ++ l.
Proof.
  revert st. induction l as [|[d v] l IH]; intro st; simpl.
  - now rewrite app_nil_r.
  - rewrite IH. unfold pack_step.
    destruct (Qle_bool (current_sum st + v) (max_vol - buffer)); simpl.
    + now rewrite <- app_assoc.
    + rewrite List.concat_app. simpl. now rewrite app_nil_r, <- app_assoc.
Qed.

Lemma pack_step_group (st : packing) (dv : D * Q) :
  group (pack_step max_vol st dv) <> [].
Proof.
  destruct dv as [d v]. unfold pack_step.
  destruct (Qle_bool _ _); simpl; [|discriminate].
  destruct (group st); discriminate.
Qed.

Lemma pack_loop_group (l : list (D * Q)) :
  group (pack_loop max_vol l) = [] -> l = [].
Proof.
  unfold pack_loop.
  destruct l as [|x l'] using rev_ind; [reflexivity|].
  rewrite fold_left_app. simpl. intro H.
  exfalso. exact (pack_step_group _ _ H).
Qed.

Lemma dispense_groups_concat (l : list (D * Q)) :
  List.concat (dispense_groups max_vol l) = l.
Proof.
  unfold dispense_groups.
  pose proof (pack_loop_concat_from l (Packing [] 0%Q [])) as H.
  simpl in H. fold (pack_loop max_vol l) in H.
  destruct (group (pack_loop max_vol l)) as [|x g] eqn:E.
  - symmetry. apply pack_loop_group. exact E.
  - rewrite List.concat_app. simpl. rewrite app_nil_r. exact H.
Qed.

Lemma sum_group_totals (gs : list (list (D * Q))) :
  (Py.sum (map group_total gs) == Py.sum (map snd (List.concat gs)))%Q.
Proof.
  induction gs as [|g gs IH]; simpl.
  - reflexivity.
  - rewrite sum_cons, IH, map_app, sum_app. reflexivity.
Qed.

Lemma pack_step_inv (st : packing) (dv : D * Q) :
  packing_inv max_vol st -> packing_inv max_vol (pack_step max_vol st dv).
Proof.
  destruct dv as [d v]. intros (Hsum & Hopen & Hclosed).
  unfold pack_step.
  destruct (Qle_bool (current_sum st + v) (max_vol - buffer)) eqn:E; simpl.
  - apply Qle_bool_iff in E.
    assert (Ht : (group_total (group st ++ [(d, v)]) == current_sum st + v)%Q).
    { rewrite group_total_app, group_total_single, Hsum. reflexivity. }
    repeat split.
    + symmetry. exact Ht.
    + left. unfold cap. rewrite Ht. exact E.
    + exact Hclosed.
  - repeat split.
    + symmetry. apply group_total_single.
    + destruct (Qlt_le_dec cap v) as [Hv|Hv].
      * right. exists d, v. split; [reflexivity|exact Hv].
      * left. unfold cap in Hv. unfold group_total, Py.sum. simpl. lra.
    + apply Forall_app. split; [exact Hclosed|].
      constructor; [exact Hopen|constructor].
Qed.

Lemma pack_loop_inv (l : list (D * Q)) (st : packing) :
  packing_inv max_vol st -> packing_inv max_vol (fold_left (pack_step max_vol) l st).
Proof.
  revert st. induction l as [|dv l IH]; intros st H; simpl; [exact H|].
  apply IH, pack_step_inv, H.
Qed.

Lemma dispense_groups_fit (l : list (D * Q)) :
  (0 <= cap)%Q -> Forall (fits_or_single max_vol) (dispense_groups max_vol l).
Proof.
  intro Hcap. unfold dispense_groups.
  assert (H : packing_inv max_vol (pack_loop max_vol l)).
  { apply pack_loop_inv. unfold packing_inv. simpl.
    split; [reflexivity|]. split; [left; exact Hcap|constructor]. }
  destruct H as (_ & Hopen & Hclosed).
  destruct (group (pack_loop max_vol l)) as [|x g]; [constructor|].
  apply Forall_app. split; [exact Hclosed|].
  constructor; [exact Hopen|constructor].
Qed.

End PackingFacts.

Lemma select_max_vol_cap (total_vol : Q) :
  (0 <= select_max_vol total_vol - buffer)%Q.
Proof.
  unfold select_max_vol, buffer.
  destruct (Qle_bool (total_vol + 2) 50); discriminate.
Qed.

(** When no single destination asks for more than the tip can hold, no
    group does. *)
Lemma dispense_groups_fit_when_each_fits {D : Type} (max_vol : Q)
  (dest_list : list (D * Q)) :
  (0 <= max_vol - buffer)%Q ->
  Forall (fun dv => snd dv <= max_vol - buffer)%Q dest_list ->
  Forall (fun g => group_total g <= max_vol - buffer)%Q
         (dispense_groups max_vol dest_list).
Proof.
  intros Hcap Hall.
  pose proof (dispense_groups_concat max_vol dest_list) as Hc.
  pose proof (dispense_groups_fit max_vol dest_list Hcap) as Hf.
  rewrite Forall_forall in Hf, Hall |- *.
  intros g Hg. destruct (Hf g Hg) as [H|(d & v & -> & Hv)]; [exact H|].
  exfalso.
  assert (Hin : In (d, v) dest_list).
  { rewrite <- Hc. apply in_concat. exists [(d, v)]. split; [exact Hg|now left]. }
  specialize (Hall _ Hin). simpl in Hall. lra.
Qed.

(** C4, as the code has it. For every NaCl source well, with the tip
    size chosen from its total volume, the dispense groups hold the
    requested destinations once each and in order, so the group totals
    sum to the requested volumes; and when no single requested volume
    exceeds the capacity minus the 2 µL buffer, no group's total does. *)
Theorem nacl_groups_partition_and_fit {D : Type} (total_vol : Q)
  (dest_list : list (D * Q)) :
  let max_vol := select_max_vol total_vol in
  let groups := dispense_groups max_vol dest_list in
  List.concat groups = dest_list
  /\ (Py.sum (map group_total groups) == Py.sum (map snd dest_list))%Q
  /\ (Forall (fun dv => snd dv <= max_vol - buffer)%Q dest_list ->
      Forall (fun g => group_total g <= max_vol - buffer)%Q groups).
Proof.
  intros max_vol groups. unfold groups.
  split; [apply dispense_groups_concat|].
  split.
  - rewrite sum_group_totals, dispense_groups_concat. reflexivity.
  - apply dispense_groups_fit_when_each_fits, select_max_vol_cap.
Qed.

Lemma nacl_groups_partition_and_fit_witness :
  let dest_list := [("D1", 100%Q); ("D2", 90%Q); ("A3", 20%Q)] in
  let groups := dispense_groups (select_max_vol 210) dest_list in
  groups = [[("D1", 100%Q); ("D2", 90%Q)]; [("A3", 20%Q)]]
  /\ List.concat groups = dest_list
  /\ Forall (fun g => group_total g <= 200 - buffer)%Q groups.
Proof.
  intros dest_list groups.
  destruct (nacl_groups_partition_and_fit 210
              [("D1", 100%Q); ("D2", 90%Q); ("A3", 20%Q)]) as (Hc & _ & Hf).
  split; [reflexivity|]. split; [exact Hc|].
  apply Hf. repeat constructor; discriminate.
Defined.

(** C4 as stated fails: 0.01 µL of plasmid beside 10 µL of NaCl is
    rescaled by 80, the 800 µL of NaCl form one group, and 800 exceeds
    the 200 µL capacity minus the buffer. *)
Lemma nacl_group_exceeds_capacity_counterexample :
  exists all_mix_data c plan w v,
    outcome (parse_csv Examples.one_mix (clean Examples.tiny_plasmid) [])
    = Py.Ok (Some all_mix_data)
    /\ outcome (assign_wells all_mix_data initial_vessels) = Py.Ok c
    /\ plan_nacl all_mix_data (control_state c) = Py.Ok plan
    /\ Py.get (nacl_totals plan) "A6" = Some v
    /\ Py.get (nacl_dests plan) "A6" = Some [(w, v)]
    /\ (v == 800)%Q
    /\ select_max_vol v = 200%Q
    /\ dispense_groups (select_max_vol v) [(w, v)] = [[]; [(w, v)]]
    /\ ~ (group_total [(w, v)] <= select_max_vol v - buffer)%Q.
Proof.
  do 5 eexists.
  split; [reflexivity|]. split; [reflexivity|]. split; [reflexivity|].
  split; [reflexivity|]. split; [reflexivity|]. split; [reflexivity|].
  split; [reflexivity|]. split; [reflexivity|].
  intro H. apply H. reflexivity.
Qed.

(** ** The allocator *)

Lemma getwell_known (w : string) :
  Py.mem w (well_names plasmid_plate) = true ->
  getwell plasmid_plate w = Py.Ok (Well plasmid_plate w).
Proof. intro H. unfold getwell. rewrite H. reflexivity. Qed.

Lemma initial_vessels_wf : vessels_wf initial_vessels.
Proof.
  unfold vessels_wf, known_wells. rewrite !Forall_forall.
  repeat split; intros w Hw; simpl in Hw;
    repeat (destruct Hw as [<-|Hw]; [reflexivity|]); contradiction.
Qed.

Lemma allocation_policy_wf (n : nat) (dest : string) (s : vessels) :
  vessels_wf s -> vessels_wf (control_state (allocation_policy n dest s)).
Proof.
  intros Hwf. pose proof Hwf as (Hsmall & Hfinal & Hpool).
  destruct n as [|[|n]]; simpl.
  - exact Hwf.
  - destruct (intermediate_pool s) as [|w rest] eqn:E; simpl; [exact Hwf|].
    inversion Hpool; subst. repeat split; assumption.
  - destruct (intermediate_small_pool s) as [|sw sr] eqn:Es; [exact Hwf|].
    destruct (intermediate_final_pool s) as [|fw fr] eqn:Ef; [exact Hwf|].
    inversion Hsmall; inversion Hfinal; subst. repeat split; assumption.
Qed.


(** C3 on the code. A mix with one small volume (destination A1)
    followed by a mix with two (destination A2): the first takes C1 from
    [intermediate_pool] as its final vessel, the second takes C1 from
    the small pool as its small vessel, so the two mixes are assigned
    the same tube, which the run then fills for both. *)
Theorem two_mixes_share_vessel :
  exists all_mix_data c,
    outcome (parse_csv Examples.two_mixes (clean Examples.one_then_two) [])
    = Py.Ok (Some all_mix_data)
    /\ outcome (assign_wells all_mix_data initial_vessels) = Py.Ok (Next c)
    /\ map dest_well all_mix_data = ["A1"; "A2"]
    /\ Py.get (assigned_final_wells c) "A1" = Some "C1"
    /\ Py.get (assigned_small_wells c) "A2" = Some "C1"
    /\ List.length
         (filter (fun e => match e with
                           | dispense _ _ (at_well (Well plasmid_plate "C1")) => true
                           | _ => false
                           end)
                 (log (run Examples.two_mixes Examples.one_then_two)))
       = 3.
Proof.
  do 2 eexists.
  split; [vm_compute; reflexivity|].
  split; [vm_compute; reflexivity|].
  repeat split; vm_compute; reflexivity.
Qed.

(** C2 on the code. A mix with one plasmid of 0.5 µL, one of 5 µL and
    10 µL of NaCl has a small volume and is assigned the final vessel
    C1, yet its NaCl is planned for, and dispensed into, the destination
    well A1 of the PCR plate: after rescaling the small volume is
    exactly 0.8 µL, and line 345 tests the rescaled volumes. *)
Theorem nacl_bypasses_final_vessel :
  exists all_mix_data c plan v,
    parse_components Examples.one_mix (clean Examples.single_small) 0
    = Py.Ok ([0.5; 5; 10]%Q, ["A1"; "A2"; "A6"])
    /\ outcome (parse_csv Examples.one_mix (clean Examples.single_small) [])
       = Py.Ok (Some all_mix_data)
    /\ outcome (assign_wells all_mix_data initial_vessels) = Py.Ok (Next c)
    /\ Py.get (assigned_final_wells c) "A1" = Some "C1"
    /\ mix_has_small_volumes all_mix_data = [("A1", false)]
    /\ plan_nacl all_mix_data c = Py.Ok plan
    /\ nacl_dests plan = [("A6", [(Well pcr_plate "A1", v)])]
    /\ existsb (fun e => match e with
                         | dispense _ vol (at_well (Well pcr_plate "A1")) =>
                             Qeq_bool vol v
                         | _ => false
                         end)
               (log (run Examples.one_mix Examples.single_small)) = true
    /\ existsb (fun e => match e with
                         | dispense _ vol (at_well (Well plasmid_plate "C1")) =>
                             Qeq_bool vol v
                         | _ => false
                         end)
               (log (run Examples.one_mix Examples.single_small)) = false.
Proof.
  do 4 eexists.
  split; [reflexivity|].
  split; [vm_compute; reflexivity|].
  split; [vm_compute; reflexivity|].
  repeat split; vm_compute; reflexivity.
Qed.

(** ** Logs without physical calls *)

Lemma no_physical_app (l1 l2 : list event) :
  no_physical l1 -> no_physical l2 -> no_physical (l1 ++ l2).
Proof. intros H1 H2. apply Forall_app. split; assumption. Qed.

Lemma no_physical_bind {A B} (c : L A) (f : A -> L B) :
  no_physical (log c) ->
  (forall a, outcome c = Py.Ok a -> no_physical (log (f a))) ->
  no_physical (log (bind c f)).
Proof.
  intros Hc Hf. rewrite log_bind.
  destruct (outcome c) as [a|e] eqn:E; [|exact Hc].
  apply no_physical_app; [exact Hc|apply Hf; reflexivity].
Qed.

Lemma no_physical_lift {A} (r : Py.result A) : no_physical (log (lift r)).
Proof. constructor. Qed.

Lemma no_physical_ret {A} (a : A) : no_physical (log (ret a)).
Proof. constructor. Qed.

Lemma no_physical_emit (e : event) :
  is_physical e = false -> no_physical (log (emit e)).
Proof. intro H. constructor; [exact H|constructor]. Qed.

Lemma no_physical_for_each {X S} (xs : list X) (body : X -> S -> L S) (s : S) :
  (forall x s, no_physical (log (body x s))) ->
  no_physical (log (for_each xs body s)).
Proof.
  intro H. revert s. induction xs as [|x xs IH]; intro s; simpl.
  - constructor.
  - apply no_physical_bind; [apply H|]. intros a _. apply IH.
Qed.

(** Solves goals on logs built from [bind], [lift], [ret], [emit] and
    [for_each]. *)
Ltac quiet :=
  repeat first
    [ apply no_physical_lift
    | apply no_physical_ret
    | apply no_physical_emit; reflexivity
    | apply no_physical_for_each; intros
    | apply no_physical_bind; [|intros]
    | match goal with
      | |- no_physical (log (match ?x with _ => _ end)) => destruct x
      | |- no_physical (log (let (_, _) := ?x in _)) => destruct x
      | |- no_physical (log (if ?x then _ else _)) => destruct x
      end ].

Lemma init_tips_quiet (p : params) : no_physical (log (init_tips p)).
Proof. unfold init_tips. quiet. Qed.

Lemma register_plasmids_quiet (csv_data : table) :
  no_physical (log (register_plasmids csv_data)).
Proof. unfold register_plasmids. quiet. Qed.

Lemma register_nacl_quiet (p : params) (csv_data : table) (m : well_map) :
  no_physical (log (register_nacl p csv_data m)).
Proof. unfold register_nacl. quiet. Qed.

Lemma parse_mix_quiet (p : params) (csv_data : table) (m : well_map) (i : nat) :
  no_physical (log (parse_mix p csv_data m i)).
Proof. unfold parse_mix. quiet. Qed.

Lemma parse_all_quiet (p : params) (csv_data : table) (m : well_map) :
  no_physical (log (parse_all p csv_data m)).
Proof.
  unfold parse_all. apply no_physical_for_each. intros.
  apply no_physical_bind; [apply parse_mix_quiet|]. intros. quiet.
Qed.

Lemma assign_step_quiet (d : mix_data) (s : vessels) :
  no_physical (log (assign_step d s)).
Proof. unfold assign_step. quiet. Qed.

Lemma assign_wells_quiet (all_mix_data : list mix_data) (s : vessels) :
  no_physical (log (assign_wells all_mix_data s)).
Proof.
  revert s. induction all_mix_data as [|d r IH]; intro s; simpl.
  - constructor.
  - apply no_physical_bind; [apply assign_step_quiet|].
    intros [s'|s'] _; [apply IH|constructor].
Qed.

(** ** Parse failures *)

(** A loop whose body always raises at [i] raises, at [i] or before. *)
Lemma for_each_raise_at {X S} (pre post : list X) (i : X)
  (body : X -> S -> L S) (s : S) (e0 : Py.exn) :
  (forall s', outcome (body i s') = Py.Raise e0) ->
  exists e,
    outcome (for_each (pre ++ i :: post) body s) = Py.Raise e
    /\ (e = e0 \/ exists j s', In j pre /\ outcome (body j s') = Py.Raise e).
Proof.
  intro Hi. revert s. induction pre as [|x pre IH]; intro s; simpl.
  - exists e0. rewrite outcome_bind, Hi. split; [reflexivity|now left].
  - rewrite outcome_bind.
    destruct (outcome (body x s)) as [s'|e] eqn:E.
    + destruct (IH s') as (e & He & [->|(j & s'' & Hj & Hr)]).
      * exists e0. split; [exact He|now left].
      * exists e. split; [exact He|]. right. exists j, s''. split; [now right|exact Hr].
    + exists e. split; [reflexivity|]. right. exists x, s. split; [now left|exact E].
Qed.

Lemma range_split (i n : nat) :
  i < n -> Py.range 0 n = seq 0 i ++ i :: seq (S i) (n - S i).
Proof.
  intro H. unfold Py.range.
  replace (n - 0) with (i + S (n - S i)) by lia.
  rewrite seq_app. reflexivity.
Qed.

Lemma parse_mix_missing_row (p : params) (csv_data : table) (m : well_map)
  (i : nat) :
  List.length csv_data <= 12 + i * 15 ->
  outcome (parse_mix p csv_data m i) = Py.Raise Py.list_index_out_of_range.
Proof.
  intro H. rewrite parse_mix_outcome. unfold parse_components, Py.index.
  assert (E : nth_error csv_data (12 + i * 15) = None)
    by (apply nth_error_None; exact H).
  rewrite E. reflexivity.
Qed.

(** With the volume row of mix [i] missing the parser fails, on that row
    or on an earlier mix. *)
Lemma parse_all_missing_row (p : params) (csv_data : table) (m : well_map)
  (i : nat) :
  i < mix_count p ->
  List.length csv_data <= 12 + i * 15 ->
  exists e,
    outcome (parse_all p csv_data m) = Py.Raise e
    /\ (e = Py.list_index_out_of_range
        \/ exists j, j < i /\ outcome (parse_mix p csv_data m j) = Py.Raise e).
Proof.
  intros Hi Hlen. unfold parse_all. rewrite (range_split i _ Hi).
  destruct (for_each_raise_at (seq 0 i) (seq (S i) (mix_count p - S i)) i
              (fun mix_index all_mix_data =>
                 bind (parse_mix p csv_data m mix_index)
                      (fun d => ret (all_mix_data ++ [d])))
              [] Py.list_index_out_of_range) as (e & He & Hor).
  - intro s'. rewrite outcome_bind, (parse_mix_missing_row p csv_data m i Hlen).
    reflexivity.
  - exists e. split; [exact He|].
    destruct Hor as [->|(j & s' & Hj & Hr)]; [now left|right].
    exists j. split; [apply in_seq in Hj; lia|].
    rewrite outcome_bind in Hr.
    destruct (outcome (parse_mix p csv_data m j)) as [d|e'];
      [discriminate|]. injection Hr as ->. reflexivity.
Qed.

Lemma parse_csv_quiet (p : params) (csv_data : table) (m : well_map) :
  no_physical (log (parse_csv p csv_data m)).
Proof.
  unfold parse_csv.
  pose proof (parse_all_quiet p csv_data m) as H.
  destruct (parse_all p csv_data m) as [l [a|e]]; simpl in *; [exact H|].
  apply no_physical_app; [exact H|]. constructor; [reflexivity|constructor].
Qed.

Lemma parse_csv_raise (p : params) (csv_data : table) (m : well_map)
  (e : Py.exn) :
  outcome (parse_all p csv_data m) = Py.Raise e ->
  parse_csv p csv_data m
  = (log (parse_all p csv_data m)
       ++ [pause ("Error parsing CSV: " ++ Py.str_exn e)%string],
     Py.Ok None).
Proof.
  unfold parse_csv. destruct (parse_all p csv_data m) as [l [a|e']]; simpl.
  - discriminate.
  - intro H. injection H as ->. reflexivity.
Qed.

Lemma clean_length (csv_file : table) :
  List.length (clean csv_file) = List.length csv_file.
Proof. unfold clean. apply length_map. Qed.

(** C8, as the code has it. When the volume row of some mix below
    [mix_count] is absent from the table, no physical call is issued by
    the run, for any mix; and when the run reaches the parser, the
    parser fails, with the error of the missing row or with the error of
    an earlier mix, the run pauses with the message
    ["Error parsing CSV: "] followed by the text of that error, and
    returns right after it. *)
Theorem missing_row_aborts_before_any_action (p : params) (csv_file : table)
  (i : nat) :
  i < mix_count p ->
  List.length csv_file <= 12 + i * 15 ->
  no_physical (log (run p csv_file))
  /\ forall t m0 m,
       outcome (init_tips p) = Py.Ok t ->
       outcome (register_plasmids (clean csv_file)) = Py.Ok m0 ->
       outcome (register_nacl p (clean csv_file) m0) = Py.Ok m ->
       exists e before,
         outcome (parse_all p (clean csv_file) m) = Py.Raise e
         /\ (e = Py.list_index_out_of_range
             \/ exists j, j < i
                  /\ outcome (parse_mix p (clean csv_file) m j) = Py.Raise e)
         /\ log (run p csv_file)
            = before ++ [pause ("Error parsing CSV: " ++ Py.str_exn e)%string]
         /\ outcome (run p csv_file) = Py.Ok tt.
Proof.
  intros Hi Hlen. rewrite <- clean_length in Hlen.
  split.
  - unfold run.
    apply no_physical_bind; [apply init_tips_quiet|]. intros t _.
    apply no_physical_bind; [apply register_plasmids_quiet|]. intros m0 _.
    apply no_physical_bind; [apply register_nacl_quiet|]. intros m _.
    apply no_physical_bind; [apply parse_csv_quiet|]. intros parsed Hp.
    destruct (parse_all_missing_row p (clean csv_file) m i Hi Hlen)
      as (e & He & _).
    rewrite (parse_csv_raise _ _ _ _ He) in Hp. simpl in Hp.
    injection Hp as <-. constructor.
  - intros t m0 m Ht Hm0 Hm.
    destruct (parse_all_missing_row p (clean csv_file) m i Hi Hlen)
      as (e & He & Hor).
    exists e.
    exists (log (init_tips p) ++ log (register_plasmids (clean csv_file))
            ++ log (register_nacl p (clean csv_file) m0)
            ++ log (parse_all p (clean csv_file) m)).
    split; [exact He|]. split; [exact Hor|].
    unfold run.
    rewrite !log_bind, !outcome_bind, Ht.
    rewrite !log_bind, !outcome_bind, Hm0.
    rewrite !log_bind, !outcome_bind, Hm.
    rewrite (parse_csv_raise _ _ _ _ He). simpl.
    rewrite app_nil_r, <- !app_assoc. split; reflexivity.
Qed.

Lemma missing_row_aborts_before_any_action_witness :
  no_physical (log (run Examples.two_mixes Examples.single_small))
  /\ exists e before,
       outcome (parse_all Examples.two_mixes (clean Examples.single_small)
                  [("A1", "P1"); ("A2", "P2"); ("A6", nacl_name)])
       = Py.Raise e
       /\ log (run Examples.two_mixes Examples.single_small)
          = before ++ [pause ("Error parsing CSV: " ++ Py.str_exn e)%string]
       /\ outcome (run Examples.two_mixes Examples.single_small) = Py.Ok tt.
Proof.
  destruct (missing_row_aborts_before_any_action
              Examples.two_mixes Examples.single_small 1)
    as [Hq Hrun].
  - simpl. lia.
  - simpl. lia.
  - split; [exact Hq|].
    destruct (Hrun _ [("A1", "P1"); ("A2", "P2"); ("A6", "NaCl")]
                [("A1", "P1"); ("A2", "P2"); ("A6", nacl_name)]
                eq_refl eq_refl eq_refl)
      as (e & before & He & _ & Hlog & Hout).
    exists e, before. repeat split; assumption.
Defined.

(** C8 as stated fails: with two mixes asked for and the rows of one,
    the message the operator sees is
    ["Error parsing CSV: list index out of range"]; it holds no digit,
    hence no mix index. *)
Lemma parse_error_message_counterexample :
  exists before msg,
    List.length Examples.single_small = 15
    /\ mix_count Examples.two_mixes = 2
    /\ log (run Examples.two_mixes Examples.single_small)
       = before ++ [pause msg]
    /\ msg = "Error parsing CSV: list index out of range"
    /\ Py.has_digit msg = false.
Proof.
  eexists (removelast (log (run Examples.two_mixes Examples.single_small))).
  eexists.
  split; [reflexivity|]. split; [reflexivity|].
  split; [vm_compute; reflexivity|].
  split; reflexivity.
Qed.

(** The source-well row is read only for a volume that is kept: when it
    is the only row missing and every volume cell is blank, the parser
    does not fail; the empty mix stops the run later, by an uncaught
    index error in the allocator, with no pause and no physical call. *)
Lemma absent_source_row_is_not_a_parse_failure :
  List.length Examples.no_source_row = 13
  /\ outcome (parse_csv Examples.one_mix (clean Examples.no_source_row) [])
     = Py.Ok (Some [MixData [] [] [] "A1"])
  /\ outcome (run Examples.one_mix Examples.no_source_row)
     = Py.Raise Py.list_index_out_of_range
  /\ existsb (fun e => match e with pause _ => true | _ => is_physical e end)
             (log (run Examples.one_mix Examples.no_source_row)) = false.
Proof. repeat split; vm_compute; reflexivity. Qed.

(** ** Exhaustion of the vessel pools *)

Lemma assign_step_break (d : mix_data) (s c : vessels) :
  outcome (assign_step d s) = Py.Ok (Break c) ->
  log (assign_step d s) = [pause not_enough_wells].
Proof.
  unfold assign_step.
  rewrite outcome_bind, log_bind, outcome_lift, log_lift.
  destruct (Py.index (scale_factors d) 0) as [scale|e]; [|discriminate].
  cbv beta iota. rewrite app_nil_l.
  destruct (Nat.ltb 1 (small_volumes_count d scale)).
  - destruct (intermediate_small_pool s) as [|sw sr]; [reflexivity|].
    destruct (intermediate_final_pool s) as [|fw fr]; [reflexivity|].
    destruct (getwell plasmid_plate sw); [|discriminate].
    destruct (getwell plasmid_plate fw); discriminate.
  - destruct (Nat.eqb (small_volumes_count d scale) 1); [|discriminate].
    destruct (intermediate_pool s) as [|fw rest]; [reflexivity|].
    destruct (getwell plasmid_plate fw); discriminate.
Qed.

Lemma assign_wells_break (all_mix_data : list mix_data) (s c : vessels) :
  outcome (assign_wells all_mix_data s) = Py.Ok (Break c) ->
  exists before,
    log (assign_wells all_mix_data s) = before ++ [pause not_enough_wells]
    /\ no_physical before.
Proof.
  revert s. induction all_mix_data as [|d r IH]; intro s; simpl.
  - discriminate.
  - rewrite outcome_bind, log_bind.
    destruct (outcome (assign_step d s)) as [[s'|s']|e] eqn:E.
    + intro H. destruct (IH s' H) as (before & Hlog & Hq).
      exists (log (assign_step d s) ++ before).
      rewrite Hlog, app_assoc. split; [reflexivity|].
      apply no_physical_app; [apply assign_step_quiet|exact Hq].
    + intros _. exists []. rewrite (assign_step_break d s s' E).
      split; [reflexivity|constructor].
    + discriminate.
Qed.

(** Whenever the allocator leaves its loop by [break], its log ends with
    the pause and holds no physical call, and [run_mixes] goes on with
    the latch and with [dispatch_and_transfer] on the vessels assigned
    so far. *)
Lemma run_mixes_after_break (p : params) (m : well_map)
  (all_mix_data : list mix_data) (t : tips) (c : vessels) :
  outcome (assign_wells all_mix_data initial_vessels) = Py.Ok (Break c) ->
  exists before,
    log (assign_wells all_mix_data initial_vessels)
    = before ++ [pause not_enough_wells]
    /\ no_physical before
    /\ log (run_mixes p m all_mix_data t)
       = before ++ pause not_enough_wells :: close_labware_latch
                :: log (dispatch_and_transfer p m all_mix_data c t)
    /\ outcome (run_mixes p m all_mix_data t)
       = outcome (dispatch_and_transfer p m all_mix_data c t).
Proof.
  intro H.
  destruct (assign_wells_break all_mix_data initial_vessels c H)
    as (before & Hlog & Hq).
  exists before. split; [exact Hlog|]. split; [exact Hq|].
  unfold run_mixes.
  rewrite log_bind, outcome_bind, H, Hlog. simpl control_state.
  rewrite log_bind, outcome_bind, outcome_emit, <- app_assoc.
  split; reflexivity.
Qed.

(** C5 on the code. Seven mixes with two small volumes each: at the
    seventh both pools are empty, the allocator pauses with its message
    and leaves its loop. The run does not halt there: after the pause it
    dispenses the NaCl of all seven mixes and carries out the plasmid
    transfers of the first six (56 aspirate and dispense calls with 25
    tips), and it ends at the seventh mix, by the uncaught [KeyError] of
    the missing entry of [assigned_small_wells]. The parser's error path
    does stop the run at its pause: with the rows of one mix and two
    mixes asked for, nothing follows the pause and the run returns. *)
Theorem run_goes_on_after_exhaustion :
  exists all_mix_data c after,
    outcome (parse_csv Examples.seven_mixes (clean Examples.seven_two_stage) [])
    = Py.Ok (Some all_mix_data)
    /\ outcome (assign_wells all_mix_data initial_vessels) = Py.Ok (Break c)
    /\ after_pause not_enough_wells
         (log (run Examples.seven_mixes Examples.seven_two_stage)) = Some after
    /\ List.length (filter is_transfer after) = 56
    /\ List.length (filter is_pick_up_tip after) = 25
    /\ outcome (run Examples.seven_mixes Examples.seven_two_stage)
       = Py.Raise (Py.KeyError "A7")
    /\ after_pause "Error parsing CSV: list index out of range"
         (log (run Examples.two_mixes Examples.single_small)) = Some []
    /\ outcome (run Examples.two_mixes Examples.single_small) = Py.Ok tt.
Proof.
  do 3 eexists.
  split; [vm_compute; reflexivity|].
  split; [vm_compute; reflexivity|].
  split; [vm_compute; reflexivity|].
  repeat split; vm_compute; reflexivity.
Qed.

(** ** The aliquoting protocol *)

Lemma no_physical_no_pick_up (l : list event) :
  no_physical l -> existsb is_pick_up_tip l = false.
Proof.
  induction 1 as [|e l He _ IH]; simpl; [reflexivity|].
  rewrite IH. destruct e; try reflexivity; discriminate.
Qed.

Lemma filter_firstn_length {A} (f : A -> bool) (n : nat) (l : list A) :
  List.length (filter f (firstn n l)) <= List.length (filter f l).
Proof.
  revert n. induction l as [|x l IH]; intro n.
  - rewrite firstn_nil. simpl. lia.
  - destruct n as [|n]; simpl; [lia|].
    specialize (IH n). destruct (f x); simpl; lia.
Qed.

Lemma filter_short_has_false {A} (f : A -> bool) (l : list A) :
  List.length (filter f l) < List.length l ->
  exists x, In x l /\ f x = false.
Proof.
  induction l as [|x l IH]; simpl; [lia|].
  destruct (f x) eqn:E; simpl; intro H.
  - destruct IH as (y & Hy & Hf); [lia|]. exists y. split; [now right|exact Hf].
  - exists x. split; [now left|exact E].
Qed.

Section Aliquoting.
Import DNAmix_aliquoting_final.

Lemma destination_wells_short (p : params) :
  available_wells p < mix_count p \/ wells_on_plate p < mix_count p ->
  exists e,
    outcome (destination_wells p) = Py.Raise e
    /\ existsb is_pick_up_tip (log (destination_wells p)) = false.
Proof.
  unfold available_wells, wells_on_plate, destination_wells.
  intro H.
  rewrite outcome_bind, log_bind, outcome_lift, log_lift.
  destruct (parse_position (mix_position p)) as [g|e];
    [|exists e; split; reflexivity].
  cbv beta iota zeta. rewrite app_nil_l.
  destruct (Nat.ltb _ (_ + _)); [eexists; split; reflexivity|].
  destruct (Nat.ltb (List.length (all_wells p g)) (mix_count p)) eqn:E;
    [eexists; split; reflexivity|].
  apply Nat.ltb_ge in E.
  destruct H as [H|H]; [lia|].
  assert (Hx : exists x, In x (firstn (mix_count p) (all_wells p g))
                         /\ Py.mem x (well_names pcr_plate) = false).
  { apply filter_short_has_false.
    rewrite length_firstn, Nat.min_l by exact E.
    eapply Nat.le_lt_trans; [apply filter_firstn_length|exact H]. }
  destruct Hx as (x & Hin & Hmem).
  destruct (in_split _ _ Hin) as (pre & post & Hsplit).
  rewrite Hsplit.
  match goal with
  | |- context [for_each _ ?body _] =>
      destruct (for_each_raise_at pre post x body [] (Py.KeyError x))
        as (e & He & _)
  end.
  - intro s'. rewrite outcome_bind, outcome_lift.
    unfold getwell. rewrite Hmem. reflexivity.
  - exists e. split; [exact He|].
    apply no_physical_no_pick_up, no_physical_for_each.
    intros name acc. quiet.
Qed.

End Aliquoting.

(** C9. In the aliquoting protocol, whenever [mix_count] exceeds the
    number of destination wells that the starting position and the rows
    and columns asked for determine (counted as the code counts them, or
    counted on the plate), the run ends with an error and its log holds
    no [pick_up_tip]. *)
Theorem too_many_mixes_raise_before_any_tip
  (p : DNAmix_aliquoting_final.params) :
  DNAmix_aliquoting_final.available_wells p < DNAmix_aliquoting_final.mix_count p
  \/ DNAmix_aliquoting_final.wells_on_plate p < DNAmix_aliquoting_final.mix_count p ->
  exists e,
    outcome (DNAmix_aliquoting_final.run p) = Py.Raise e
    /\ existsb is_pick_up_tip (log (DNAmix_aliquoting_final.run p)) = false.
Proof.
  intro H. destruct (destination_wells_short p H) as (e & He & Hlog).
  unfold DNAmix_aliquoting_final.run.
  destruct (DNAmix_aliquoting_final.find_tip_index (tips_by_row tiprack_200) _)
    as [i200|e1]; [|exists e1; split; reflexivity].
  destruct (DNAmix_aliquoting_final.find_tip_index (tips_by_row tiprack_1000) _)
    as [i1000|e2]; [|exists e2; split; reflexivity].
  destruct (getwell reagent_plate _) as [source|e3];
    [|exists e3; split; reflexivity].
  exists e.
  repeat (rewrite ?outcome_bind, ?log_bind, ?outcome_lift, ?log_lift,
            ?outcome_emit; cbv beta iota zeta).
  rewrite He. split; [reflexivity|exact Hlog].
Qed.

Lemma too_many_mixes_raise_before_any_tip_witness :
  (exists e,
     outcome (DNAmix_aliquoting_final.run Examples.thirteen_on_twelve)
     = Py.Raise e
     /\ existsb is_pick_up_tip
          (log (DNAmix_aliquoting_final.run Examples.thirteen_on_twelve))
        = false)
  /\ (exists e,
        outcome (DNAmix_aliquoting_final.run Examples.five_from_A10)
        = Py.Raise e
        /\ existsb is_pick_up_tip
             (log (DNAmix_aliquoting_final.run Examples.five_from_A10))
           = false).
Proof.
  split.
  - apply (too_many_mixes_raise_before_any_tip Examples.thirteen_on_twelve).
    left. vm_compute. lia.
  - apply (too_many_mixes_raise_before_any_tip Examples.five_from_A10).
    right. vm_compute. lia.
Defined.

(** ** The NaCl flag of a mix with one small volume *)

(** In exact arithmetic a mix with exactly one parsed volume in
    (0, 0.8) has no rescaled volume in (0, 0.8): the small one becomes
    0.8 and the others grow or stay at most 0. The test of line 345,
    made on the rescaled volumes, is therefore false for every such mix,
    whatever vessel the allocator gave it. *)
Lemma single_small_mix_not_flagged (vols : list Q) (x : Q) :
  filter is_small vols = [x] ->
  existsb is_small (fst (rescale vols)) = false.
Proof.
  intro HS.
  assert (Hx : (0 < x /\ x < 0.8)%Q).
  { apply is_small_iff.
    assert (Hin : In x (filter is_small vols)) by (rewrite HS; now left).
    apply filter_In in Hin. tauto. }
  unfold rescale. rewrite HS. simpl fst.
  change (Py.min_from x []) with x.
  assert (Hk : (1 < 0.8 / x)%Q).
  { apply Qlt_shift_div_l; lra. }
  assert (Hxk : (x * (0.8 / x) == 0.8)%Q) by (field; lra).
  generalize dependent (0.8 / x)%Q. intros k Hk Hxk.
  assert (Hall : forall v, In v vols -> is_small (v * k) = false).
  { intros v Hv.
    destruct (is_small v) eqn:E.
    - assert (Hin : In v (filter is_small vols))
        by (apply filter_In; split; assumption).
      rewrite HS in Hin. destruct Hin as [<-|[]].
      apply not_true_iff_false. rewrite is_small_iff, Hxk. lra.
    - apply not_true_iff_false. rewrite is_small_iff.
      apply not_true_iff_false in E. rewrite is_small_iff in E.
      intros [H1 H2]. apply E.
      destruct (Qlt_le_dec 0 v) as [Hpos|Hneg].
      + split; [exact Hpos|].
        apply Qnot_le_lt. intro Hge.
        assert (0.8 * k <= v * k)%Q by (apply Qmult_le_compat_r; lra).
        assert (0.8 * 1 < 0.8 * k)%Q by (apply Qmult_lt_l; lra).
        lra.
      + exfalso.
        assert (v * k <= 0 * k)%Q by (apply Qmult_le_compat_r; lra).
        lra. }
  clear HS. induction vols as [|v vols IH]; simpl; [reflexivity|].
  rewrite (Hall v) by now left. apply IH.
  intros w Hw. apply Hall. now right.
Qed.

(** So the NaCl of such a mix is planned for the destination well, also
    when a final vessel is assigned to it. *)
Lemma single_small_mix_nacl_destination (vols : list Q) (srcs : list string)
  (dest : string) (x : Q) (s : vessels) :
  filter is_small vols = [x] ->
  nacl_destination (mix_has_small_volumes [parsed_mix vols srcs dest]) s dest
  = getwell pcr_plate dest.
Proof.
  intro HS. unfold mix_has_small_volumes, parsed_mix, nacl_destination.
  simpl. rewrite (single_small_mix_not_flagged vols x HS).
  unfold Py.getitem. simpl. rewrite String.eqb_refl. reflexivity.
Qed.

(** * Further properties of the code *)

Import Derived.

(** ** Tips *)

Lemma find_tip_index_from_spec (tip_list : list well) (name : string) (k : nat) :
  match find_tip_index_from k tip_list name with
  | Py.Ok i =>
      k <= i
      /\ (exists tip, nth_error tip_list (i - k) = Some tip
                      /\ well_name tip = name)
      /\ forall j tip, j < i - k -> nth_error tip_list j = Some tip ->
                       well_name tip <> name
  | Py.Raise e =>
      e = Py.ValueError ("Starting tip " ++ name ++ " not found in tip list.")%string
      /\ forall tip, In tip tip_list -> well_name tip <> name
  end.
Proof.
  revert k. induction tip_list as [|tip r IH]; intro k; simpl.
  - split; [reflexivity|]. intros tip [].
  - destruct (String.eqb (well_name tip) name) eqn:E.
    + apply String.eqb_eq in E. split; [lia|]. rewrite Nat.sub_diag. split.
      * exists tip. split; [reflexivity|exact E].
      * intros j t Hj. lia.
    + apply String.eqb_neq in E. specialize (IH (S k)).
      destruct (find_tip_index_from (S k) r name) as [i|e].
      * destruct IH as (Hle & (t & Hn & Hname) & Hfirst).
        split; [lia|]. replace (i - k) with (S (i - S k)) by lia. split.
        -- exists t. split; [exact Hn|exact Hname].
        -- intros [|j] t' Hj Hnth; simpl in Hnth.
           ++ injection Hnth as <-. exact E.
           ++ apply (Hfirst j t'); [lia|exact Hnth].
      * destruct IH as [-> Hall]. split; [reflexivity|].
        intros t [<-|Hin]; [exact E|apply Hall; exact Hin].
Qed.

(** X1. [find_tip_index] returns the position of the first tip with the
    given well name, and raises [ValueError] exactly when no tip has
    it; the function is the same in both protocols. *)
Theorem find_tip_index_first (tip_list : list well) (name : string) :
  DNAmix_aliquoting_final.find_tip_index tip_list name
  = find_tip_index tip_list name
  /\ match find_tip_index tip_list name with
     | Py.Ok i =>
         (exists tip, nth_error tip_list i = Some tip /\ well_name tip = name)
         /\ forall j tip, j < i -> nth_error tip_list j = Some tip ->
                          well_name tip <> name
     | Py.Raise e =>
         e = Py.ValueError
               ("Starting tip " ++ name ++ " not found in tip list.")%string
         /\ forall tip, In tip tip_list -> well_name tip <> name
     end.
Proof.
  split; [reflexivity|].
  unfold find_tip_index.
  pose proof (find_tip_index_from_spec tip_list name 0) as H.
  destruct (find_tip_index_from 0 tip_list name) as [i|e]; [|exact H].
  rewrite Nat.sub_0_r in H. tauto.
Qed.

Lemma find_tip_index_first_witness :
  find_tip_index (tips_by_row tiprack_200) "B3" = Py.Ok 14
  /\ forall j tip, j < 14 -> nth_error (tips_by_row tiprack_200) j = Some tip ->
                   well_name tip <> "B3".
Proof.
  pose proof (find_tip_index_first (tips_by_row tiprack_200) "B3") as [_ H].
  change (find_tip_index (tips_by_row tiprack_200) "B3") with (@Py.Ok nat 14) in H.
  split; [reflexivity|]. exact (proj2 H).
Defined.

Lemma choice_found (rack : labware) (name : string) :
  rack = tiprack_50 \/ rack = tiprack_200 ->
  In name well_choices ->
  exists i r,
    find_tip_index (tips_by_row rack) name = Py.Ok i
    /\ skipn i (tips_by_row rack) = Well rack name :: r
    /\ List.length r < 96.
Proof.
  intros Hrack Hin.
  assert (H : forallb
                (fun name =>
                   match find_tip_index (tips_by_row rack) name with
                   | Py.Ok i =>
                       match skipn i (tips_by_row rack) with
                       | w :: r => String.eqb (well_name w) name
                                   && Nat.ltb (List.length r) 96
                       | [] => false
                       end
                   | Py.Raise _ => false
                   end)
                well_choices = true)
    by (destruct Hrack as [->| ->]; vm_compute; reflexivity).
  rewrite forallb_forall in H. specialize (H name Hin).
  destruct (find_tip_index (tips_by_row rack) name) as [i|e]; [|discriminate].
  destruct (skipn i (tips_by_row rack)) as [|w r] eqn:E; [discriminate|].
  apply andb_true_iff in H. destruct H as [Hn Hl].
  apply String.eqb_eq in Hn. apply Nat.ltb_lt in Hl.
  exists i, r. split; [reflexivity|]. split; [|exact Hl].
  assert (Hw : In w (tips_by_row rack)).
  { rewrite <- (firstn_skipn i (tips_by_row rack)), E.
    apply in_or_app. right. now left. }
  unfold tips_by_row in Hw. apply in_map_iff in Hw.
  destruct Hw as (x & <- & _). simpl in Hn. subst x. exact E.
Qed.

(** X2. For every starting tip that [add_parameters] offers, the two tip
    queues are built without error and each starts at the chosen tip of
    its rack; the [ValueError] of [find_tip_index] cannot be reached from
    the offered choices. *)
Theorem init_tips_starts_at_choice (p : params) :
  In (starting_tip_50 p) well_choices ->
  In (starting_tip_200 p) well_choices ->
  exists r50 r200,
    init_tips p
    = ([], Py.Ok (Tips (Well tiprack_50 (starting_tip_50 p) :: r50)
                       (Well tiprack_200 (starting_tip_200 p) :: r200)
                       tiprack_50 tiprack_50_reserve 0 0 0))
    /\ List.length r50 < 96 /\ List.length r200 < 96.
Proof.
  intros H50 H200.
  destruct (choice_found tiprack_50 _ (or_introl eq_refl) H50)
    as (i50 & r50 & E50 & S50 & L50).
  destruct (choice_found tiprack_200 _ (or_intror eq_refl) H200)
    as (i200 & r200 & E200 & S200 & L200).
  exists r50, r200. unfold init_tips. rewrite E50, E200. simpl.
  rewrite S50, S200. repeat split; assumption.
Qed.

Lemma init_tips_starts_at_choice_witness :
  exists r50 r200,
    init_tips (Params 6 3 "C7" "H12" true)
    = ([], Py.Ok (Tips (Well tiprack_50 "C7" :: r50)
                       (Well tiprack_200 "H12" :: r200)
                       tiprack_50 tiprack_50_reserve 0 0 0))
    /\ List.length r50 < 96 /\ List.length r200 < 96.
Proof.
  apply (init_tips_starts_at_choice (Params 6 3 "C7" "H12" true)).
  - vm_compute. do 30 right. left. reflexivity.
  - vm_compute. do 95 right. left. reflexivity.
Defined.

Lemma for_each_seq_start {St} (f : St -> L St) (a b n : nat) (s : St) :
  for_each (seq a n) (fun _ => f) s = for_each (seq b n) (fun _ => f) s.
Proof.
  revert a b s. induction n as [|n IH]; intros a b s; simpl; [reflexivity|].
  destruct (f s) as [l [s'|e]]; simpl; [|reflexivity].
  rewrite (IH (S a) (S b)). reflexivity.
Qed.

Lemma take_tips_S (pip : pipette) (n : nat) (t : tips) :
  take_tips pip (S n) t = bind (take_tip pip t) (take_tips pip n).
Proof.
  unfold take_tips. simpl.
  destruct (take_tip pip t) as [l [t'|e]]; simpl; [|reflexivity].
  rewrite (for_each_seq_start (take_tip pip) 1 0). reflexivity.
Qed.

Lemma bind_assoc {A B C} (c : L A) (f : A -> L B) (g : B -> L C) :
  bind (bind c f) g = bind c (fun a => bind (f a) g).
Proof.
  destruct c as [l [a|e]]; simpl; [|reflexivity].
  destruct (f a) as [l1 [b|e]]; simpl; [|reflexivity].
  destruct (g b) as [l2 r]. rewrite app_assoc. reflexivity.
Qed.

Lemma take_tips_add (pip : pipette) (n m : nat) (t : tips) :
  take_tips pip (n + m) t = bind (take_tips pip n t) (take_tips pip m).
Proof.
  revert t. induction n as [|n IH]; intro t.
  - change (0 + m) with m.
    change (take_tips pip 0 t) with (@ret tips t). unfold bind, ret.
    destruct (take_tips pip m t) as [l r]. reflexivity.
  - change (S n + m) with (S (n + m)).
    rewrite !take_tips_S, bind_assoc.
    destruct (take_tip pip t) as [l [t'|e]]; simpl; [|reflexivity].
    rewrite IH. reflexivity.
Qed.

Lemma take_tip_200_cons (t : tips) (tip : well) (rest : list well) :
  tips200_by_row t = tip :: rest ->
  take_tip_200 t
  = ([pick_up_tip p1000 tip],
     Py.Ok (Tips (tips50_by_row t) rest (rack_50 t) (rack_50_reserve t)
                 (S (counter_200 t)) (counter_50 t) (counter_50_f t))).
Proof. intro H. unfold take_tip_200. rewrite H. reflexivity. Qed.

Lemma take_tip_200_nil (t : tips) :
  tips200_by_row t = [] ->
  take_tip_200 t = ([], Py.Raise Py.pop_from_empty_list).
Proof. intro H. unfold take_tip_200. rewrite H. reflexivity. Qed.

(** X5. The 200 µL class has no reserve: as many tips can be taken as
    the queue holds, in queue order, each counted once; one more raises
    [IndexError] ("pop from empty list") after the last tip of the queue
    was picked up. *)
Theorem take_tips_200_bound (n : nat) (t : tips) :
  (n <= List.length (tips200_by_row t) ->
   exists t',
     take_tips p1000 n t
     = (map (pick_up_tip p1000) (firstn n (tips200_by_row t)), Py.Ok t')
     /\ tips200_by_row t' = skipn n (tips200_by_row t)
     /\ counter_200 t' = counter_200 t + n
     /\ tips50_by_row t' = tips50_by_row t)
  /\ (List.length (tips200_by_row t) < n ->
      take_tips p1000 n t
      = (map (pick_up_tip p1000) (tips200_by_row t),
         Py.Raise Py.pop_from_empty_list)).
Proof.
  revert t. induction n as [|n IH]; intro t.
  - split; [|lia]. intros _. exists t. repeat split. simpl. lia.
  - rewrite take_tips_S. simpl take_tip.
    destruct (tips200_by_row t) as [|tip rest] eqn:E.
    + split; [simpl; lia|]. intros _.
      rewrite (take_tip_200_nil t E). reflexivity.
    + rewrite (take_tip_200_cons t tip rest E).
      set (t1 := Tips _ rest _ _ _ _ _).
      destruct (IH t1) as [Hok Hfail]. split; intro H; simpl in H.
      * destruct Hok as (t' & Hrun & Hq & Hc & H50); [simpl; lia|].
        exists t'. simpl. rewrite Hrun. simpl.
        repeat split; [exact Hq|rewrite Hc; simpl; lia|exact H50].
      * simpl. rewrite Hfail by (simpl; lia). reflexivity.
Qed.

Lemma take_tips_200_bound_witness :
  let t := Tips [] [Well tiprack_200 "H11"; Well tiprack_200 "H12"]
                tiprack_50 tiprack_50_reserve 0 0 0 in
  (exists t', outcome (take_tips p1000 2 t) = Py.Ok t'
              /\ tips200_by_row t' = [] /\ counter_200 t' = 2)
  /\ outcome (take_tips p1000 3 t) = Py.Raise Py.pop_from_empty_list.
Proof.
  intro t. destruct (take_tips_200_bound 2 t) as [Hok _].
  destruct (take_tips_200_bound 3 t) as [_ Hfail].
  split.
  - destruct Hok as (t' & Hrun & Hq & Hc & _); [simpl; lia|].
    exists t'. rewrite Hrun. repeat split; assumption.
  - rewrite Hfail by (simpl; lia). reflexivity.
Defined.

Lemma tips_by_row_head (rack : labware) :
  tips_by_row rack = Well rack "A1" :: tl (tips_by_row rack).
Proof. destruct rack; reflexivity. Qed.

Lemma take_tip_50_cons (t : tips) (tip : well) (rest : list well) :
  tips50_by_row t = tip :: rest ->
  take_tip_50 t
  = ([pick_up_tip p50 tip],
     Py.Ok (Tips rest (tips200_by_row t) (rack_50 t) (rack_50_reserve t)
                 (counter_200 t) (S (counter_50 t)) (S (counter_50_f t)))).
Proof. intro H. unfold take_tip_50. rewrite H. simpl. rewrite H. reflexivity. Qed.

Lemma take_tip_50_nil (t : tips) :
  tips50_by_row t = [] ->
  take_tip_50 t
  = (log (swap_rack50 t) ++ [pick_up_tip p50 (Well (rack_50_reserve t) "A1")],
     Py.Ok (Tips (tl (tips_by_row (rack_50_reserve t))) (tips200_by_row t)
                 (rack_50_reserve t) (rack_50 t)
                 (counter_200 t) (S (counter_50 t)) (S (counter_50_f t)))).
Proof.
  intro H. unfold take_tip_50. rewrite H. unfold swap_rack50. simpl.
  rewrite (tips_by_row_head (rack_50_reserve t)). reflexivity.
Qed.

Lemma picked_app (p : pipette) (l1 l2 : list event) :
  picked p (l1 ++ l2) = picked p l1 ++ picked p l2.
Proof. unfold picked. apply flat_map_app. Qed.

Lemma picked_picks (p : pipette) (l : list well) :
  picked p (map (pick_up_tip p) l) = l.
Proof.
  induction l as [|w l IH]; simpl; [reflexivity|].
  destruct p; simpl; rewrite IH; reflexivity.
Qed.

Lemma count_app (f : event -> bool) (l1 l2 : list event) :
  count f (l1 ++ l2) = count f l1 + count f l2.
Proof. unfold count. rewrite filter_app, length_app. reflexivity. Qed.

(** One tip of 50 µL is always there to take. *)
Lemma take_tip_50_ok (t : tips) :
  exists l t',
    take_tip_50 t = (l, Py.Ok t')
    /\ counter_50 t' = S (counter_50 t)
    /\ counter_50_f t' = S (counter_50_f t)
    /\ counter_200 t' = counter_200 t
    /\ tips200_by_row t' = tips200_by_row t
    /\ List.length (picked p50 l) = 1
    /\ count is_move_labware l
       = match tips50_by_row t with [] => 2 | _ => 0 end.
Proof.
  destruct (tips50_by_row t) as [|tip rest] eqn:E.
  - rewrite (take_tip_50_nil t E). do 2 eexists. repeat split.
  - rewrite (take_tip_50_cons t tip rest E). do 2 eexists. repeat split.
Qed.

(** X3. The 50 µL class never runs out: any number of tips can be taken
    one after the other, each take picks up exactly one tip and adds one
    to both 50 µL counters, and leaves the 200 µL queue and counter
    alone; a take moves the racks (two [move_labware] calls) exactly
    when it finds the queue empty. *)
Theorem take_tips_50_never_fail (n : nat) (t : tips) :
  (exists t',
     outcome (take_tips p50 n t) = Py.Ok t'
     /\ counter_50 t' = counter_50 t + n
     /\ counter_50_f t' = counter_50_f t + n
     /\ counter_200 t' = counter_200 t
     /\ tips200_by_row t' = tips200_by_row t
     /\ List.length (picked p50 (log (take_tips p50 n t))) = n)
  /\ count is_move_labware (log (take_tip_50 t))
     = match tips50_by_row t with [] => 2 | _ => 0 end.
Proof.
  split.
  - revert t. induction n as [|n IH]; intro t.
    + exists t. repeat split; simpl; lia.
    + rewrite take_tips_S. simpl take_tip.
      destruct (take_tip_50_ok t) as (l & t1 & E & H1 & H2 & H3 & H4 & H5 & _).
      destruct (IH t1) as (t' & Hrun & G1 & G2 & G3 & G4 & G5).
      exists t'. rewrite outcome_bind, log_bind, E.
      change (outcome (l, @Py.Ok tips t1)) with (Py.Ok t1).
      change (log (l, @Py.Ok tips t1)) with l. cbv beta iota.
      rewrite Hrun, picked_app, length_app, H5, G5.
      repeat split; try lia; congruence.
  - destruct (take_tip_50_ok t) as (l & t1 & E & _ & _ & _ & _ & _ & H).
    rewrite E. exact H.
Qed.

Lemma take_tips_50_from_queue (k : nat) (t : tips) :
  k <= List.length (tips50_by_row t) ->
  exists t',
    take_tips p50 k t
    = (map (pick_up_tip p50) (firstn k (tips50_by_row t)), Py.Ok t')
    /\ tips50_by_row t' = skipn k (tips50_by_row t)
    /\ rack_50 t' = rack_50 t
    /\ rack_50_reserve t' = rack_50_reserve t.
Proof.
  revert t. induction k as [|k IH]; intros t H.
  - exists t. repeat split.
  - rewrite take_tips_S. simpl take_tip.
    destruct (tips50_by_row t) as [|tip rest] eqn:E; [simpl in H; lia|].
    rewrite (take_tip_50_cons t tip rest E).
    set (t1 := Tips rest _ _ _ _ _ _).
    destruct (IH t1) as (t' & Hrun & Hq & Hr & Hv); [simpl in *; lia|].
    exists t'. simpl. rewrite Hrun. simpl. repeat split; assumption.
Qed.

(** From an empty queue, as many takes as the reserve rack has tips use
    up that rack after one swap. *)
Lemma take_whole_reserve (t : tips) :
  tips50_by_row t = [] ->
  exists l t',
    take_tips p50 (List.length (tips_by_row (rack_50_reserve t))) t
    = (l, Py.Ok t')
    /\ picked p50 l = tips_by_row (rack_50_reserve t)
    /\ count is_move_labware l = 2
    /\ tips50_by_row t' = []
    /\ rack_50 t' = rack_50_reserve t
    /\ rack_50_reserve t' = rack_50 t.
Proof.
  intro E.
  rewrite (tips_by_row_head (rack_50_reserve t)).
  set (r := tl (tips_by_row (rack_50_reserve t))).
  change (List.length (_ :: r)) with (S (List.length r)).
  rewrite take_tips_S. simpl take_tip. rewrite (take_tip_50_nil t E).
  fold r. set (t1 := Tips r _ _ _ _ _ _).
  destruct (take_tips_50_from_queue (List.length r) t1) as (t' & Hrun & Hq & Hr & Hv);
    [simpl; lia|].
  simpl in Hrun, Hq, Hr, Hv. rewrite firstn_all in Hrun. rewrite skipn_all in Hq.
  exists (log (swap_rack50 t)
          ++ [pick_up_tip p50 (Well (rack_50_reserve t) "A1")]
          ++ map (pick_up_tip p50) r), t'.
  split.
  - unfold bind. rewrite Hrun, <- app_assoc. reflexivity.
  - rewrite !picked_app, picked_picks, !count_app.
    repeat split; try assumption.
    unfold count. simpl. clear. induction r; simpl; auto.
Qed.

(** X4. No rack is ever marked as used. Starting from an empty 50 µL
    queue, the next tips picked up are all the positions of the reserve
    rack, and after them all the positions of the rack that had just
    been moved out as used, which is back in the operating slot; the
    queue is then empty again and four [move_labware] calls were made. *)
Theorem used_rack_comes_back (t : tips) :
  tips50_by_row t = [] ->
  let a := tips_by_row (rack_50_reserve t) in
  let b := tips_by_row (rack_50 t) in
  exists l t',
    take_tips p50 (List.length a + List.length b) t = (l, Py.Ok t')
    /\ picked p50 l = a ++ b
    /\ count is_move_labware l = 4
    /\ tips50_by_row t' = []
    /\ rack_50 t' = rack_50 t
    /\ rack_50_reserve t' = rack_50_reserve t.
Proof.
  intros E a b. unfold a, b.
  destruct (take_whole_reserve t E) as (l1 & t1 & R1 & P1 & M1 & Q1 & A1 & B1).
  destruct (take_whole_reserve t1 Q1) as (l2 & t2 & R2 & P2 & M2 & Q2 & A2 & B2).
  rewrite B1 in R2, P2.
  rewrite take_tips_add, R1. simpl. rewrite R2.
  exists (l1 ++ l2), t2. split; [reflexivity|].
  rewrite picked_app, count_app, P1, P2, M1, M2.
  repeat split; [exact Q2|congruence|congruence].
Qed.

Lemma used_rack_comes_back_witness :
  let t := Tips [] [] tiprack_50 tiprack_50_reserve 0 96 96 in
  exists l t',
    take_tips p50 192 t = (l, Py.Ok t')
    /\ picked p50 l = tips_by_row tiprack_50_reserve ++ tips_by_row tiprack_50
    /\ rack_50 t' = tiprack_50.
Proof.
  intro t.
  destruct (used_rack_comes_back t eq_refl) as (l & t' & R & P & _ & _ & A & _).
  exists l, t'. repeat split; assumption.
Defined.

(** ** The parser *)

Lemma fold_left_result_size {A X} (size : A -> nat)
  (f : Py.result A -> X -> Py.result A) :
  (forall e x, f (Py.Raise e) x = Py.Raise e) ->
  (forall a x a', f (Py.Ok a) x = Py.Ok a' -> size a' <= S (size a)) ->
  forall xs a a',
    fold_left f xs (Py.Ok a) = Py.Ok a' -> size a' <= size a + List.length xs.
Proof.
  intros Hraise Hstep xs. induction xs as [|x xs IH]; intros a a'; simpl.
  - intro H. injection H as <-. lia.
  - destruct (f (Py.Ok a) x) as [b|e] eqn:E.
    + intro H. apply IH in H. apply Hstep in E. lia.
    + intro H. exfalso. revert H. clear -Hraise.
      induction xs as [|y ys IHy]; simpl; [discriminate|].
      rewrite Hraise. exact IHy.
Qed.

Lemma parse_components_count (p : params) (csv_data : table) (i : nat)
  (vols : list Q) (srcs : list string) :
  parse_components p csv_data i = Py.Ok (vols, srcs) ->
  List.length vols <= max_plasmid_count p.
Proof.
  unfold parse_components.
  destruct (Py.index csv_data (12 + i * 15)) as [volume_row|e]; [|discriminate].
  intro H.
  apply (fold_left_result_size (fun vs : list Q * list string => List.length (fst vs)))
    in H.
  - simpl in H. unfold Py.range in H. rewrite length_seq in H. lia.
  - reflexivity.
  - intros [vs ss] x [vs' ss'].
    destruct (String.eqb (cell_or_empty volume_row x) "").
    { intro G. injection G as <- <-. simpl. lia. }
    destruct (Py.float _) as [vol|e]; [|discriminate].
    destruct (Py.Qlt_bool vol 0).
    { intro G. injection G as <- <-. simpl. lia. }
    destruct (Py.index csv_data _) as [source_row|e]; [|discriminate].
    destruct (Py.index source_row x) as [cell|e]; [|discriminate].
    intro G. injection G as <- <-. simpl. rewrite length_app. simpl. lia.
Qed.

Lemma parse_components_sources (p : params) (csv_data : table) (i : nat)
  (vols : list Q) (srcs : list string) :
  parse_components p csv_data i = Py.Ok (vols, srcs) ->
  Forall (fun s => s <> "") srcs.
Proof.
  unfold parse_components.
  destruct (Py.index csv_data (12 + i * 15)) as [volume_row|e]; [|discriminate].
  apply (fold_left_result_inv
           (fun vs : list Q * list string => Forall (fun s => s <> "") (snd vs))).
  - reflexivity.
  - intros [vs ss] x [vs' ss'] Hss. simpl in Hss.
    destruct (String.eqb (cell_or_empty volume_row x) "").
    { intro G. injection G as <- <-. exact Hss. }
    destruct (Py.float _) as [vol|e]; [|discriminate].
    destruct (Py.Qlt_bool vol 0).
    { intro G. injection G as <- <-. exact Hss. }
    destruct (Py.index csv_data _) as [source_row|e]; [|discriminate].
    destruct (Py.index source_row x) as [cell|e]; [|discriminate].
    intro G. injection G as <- <-. simpl.
    apply Forall_app. split; [exact Hss|]. constructor; [|constructor].
    destruct (String.eqb (Py.strip cell) "") eqn:E.
    + discriminate.
    + apply String.eqb_neq. exact E.
  - constructor.
Qed.

(** X6. Whatever the table holds, the components the parser keeps for a
    mix are at most [max_plasmid_count], none of their volumes is
    negative, each has its source well, and no source well is the empty
    string (a blank cell is replaced by "A" and the column number plus
    one). *)
Theorem parsed_components_bounded (p : params) (csv_data : table) (i : nat)
  (vols : list Q) (srcs : list string) :
  parse_components p csv_data i = Py.Ok (vols, srcs) ->
  List.length vols <= max_plasmid_count p
  /\ List.length srcs = List.length vols
  /\ Forall (fun v => 0 <= v)%Q vols
  /\ Forall (fun s => s <> "") srcs.
Proof.
  intro H.
  destruct (parse_components_nonneg p csv_data i vols srcs H) as [Hn Hl].
  split; [exact (parse_components_count p csv_data i vols srcs H)|].
  split; [exact Hl|]. split; [exact Hn|].
  exact (parse_components_sources p csv_data i vols srcs H).
Qed.

Lemma parsed_components_bounded_witness :
  parse_components (Params 2 1 "A1" "A1" true)
    (Examples.block "A1" ["P1"; "P2"; "P3"] ["-1"; ""; "7"] [""; ""; ""]) 0
  = Py.Ok ([], [])
  /\ parse_components (Params 3 1 "A1" "A1" true)
       (Examples.block "A1" ["P1"; "P2"; "P3"] ["-1"; ""; "7"] [""; ""; ""]) 0
     = Py.Ok ([7%Q], ["A4"])
  /\ 1 <= 3.
Proof.
  split; [reflexivity|]. split; [reflexivity|].
  exact (proj1 (parsed_components_bounded (Params 3 1 "A1" "A1" true)
                  (Examples.block "A1" ["P1"; "P2"; "P3"] ["-1"; ""; "7"]
                     [""; ""; ""]) 0 [7%Q] ["A4"] eq_refl)).
Defined.

Lemma for_each_collect {X D} (g : X -> L D) (xs : list X) (acc all : list D) :
  outcome (for_each xs (fun x acc => bind (g x) (fun d => ret (acc ++ [d]))) acc)
  = Py.Ok all ->
  exists ds, all = acc ++ ds /\ Forall2 (fun x d => outcome (g x) = Py.Ok d) xs ds.
Proof.
  revert acc. induction xs as [|x xs IH]; intro acc; simpl.
  - intro H. injection H as <-. exists []. rewrite app_nil_r. split; constructor.
  - rewrite !outcome_bind.
    destruct (outcome (g x)) as [d|e] eqn:E; [|discriminate].
    simpl. intro H. destruct (IH _ H) as (ds & -> & Hds).
    exists (d :: ds). rewrite <- app_assoc. split; [reflexivity|].
    constructor; assumption.
Qed.

Lemma Forall2_seq_nth {D} (P : nat -> D -> Prop) (a n : nat) (ds : list D) :
  Forall2 P (seq a n) ds ->
  List.length ds = n
  /\ forall i, i < n -> exists d, nth_error ds i = Some d /\ P (a + i) d.
Proof.
  revert a ds. induction n as [|n IH]; intros a ds H; simpl in H.
  - inversion H. split; [reflexivity|]. intros i Hi. lia.
  - inversion H as [|x d xs ds' Hd Hrest]; subst.
    destruct (IH _ _ Hrest) as [Hlen Hnth]. split; [simpl; lia|].
    intros [|i] Hi.
    + exists d. rewrite Nat.add_0_r. split; [reflexivity|exact Hd].
    + destruct (Hnth i) as (d' & Hn & Hp); [lia|].
      exists d'. split; [exact Hn|].
      replace (a + S i) with (S a + i) by lia. exact Hp.
Qed.

(** X7. When the parser succeeds it returns exactly [mix_count] mixes,
    and the mix at position [i] is what parsing the block of mix [i]
    gives: mixes are neither dropped nor reordered. *)
Theorem parse_all_gives_every_mix (p : params) (csv_data : table)
  (m : well_map) (all_mix_data : list mix_data) :
  outcome (parse_all p csv_data m) = Py.Ok all_mix_data ->
  List.length all_mix_data = mix_count p
  /\ forall i, i < mix_count p ->
       exists d, nth_error all_mix_data i = Some d
                 /\ outcome (parse_mix p csv_data m i) = Py.Ok d.
Proof.
  unfold parse_all. intro H.
  destruct (for_each_collect (parse_mix p csv_data m) _ [] _ H) as (ds & -> & Hds).
  unfold Py.range in Hds. rewrite Nat.sub_0_r in Hds.
  apply Forall2_seq_nth in Hds. exact Hds.
Qed.

Lemma parse_all_gives_every_mix_witness :
  exists all_mix_data,
    outcome (parse_all Examples.two_mixes (clean Examples.one_then_two) [])
    = Py.Ok all_mix_data
    /\ List.length all_mix_data = 2
    /\ exists d, nth_error all_mix_data 1 = Some d
                 /\ outcome (parse_mix Examples.two_mixes
                               (clean Examples.one_then_two) [] 1) = Py.Ok d.
Proof.
  eexists. split; [vm_compute; reflexivity|].
  destruct (parse_all_gives_every_mix Examples.two_mixes
              (clean Examples.one_then_two) [] _ eq_refl) as [Hl Hn].
  split; [exact Hl|]. apply Hn. simpl. lia.
Defined.

(** ** Sums and the capacity of the pools *)

Lemma sum_le_of_member (l : list Q) (v : Q) :
  Forall (fun w => 0 < w)%Q l -> In v l -> (v <= Py.sum l)%Q.
Proof.
  induction l as [|w l IH]; intros Hall Hin; [contradiction|].
  inversion Hall as [|? ? Hw Hl]; subst. rewrite sum_cons.
  assert (0 <= Py.sum l)%Q.
  { destruct l as [|y l']; [unfold Py.sum; simpl; lra|].
    apply Qlt_le_weak, sum_pos; [discriminate|exact Hl]. }
  destruct Hin as [->|Hin]; [lra|].
  specialize (IH Hl Hin). lra.
Qed.

(** The policy goes through a list of mixes exactly when the three
    pools are long enough for it. *)
Lemma allocate_in_order_capacity (ms : list (nat * string)) (s : vessels) :
  (exists s', allocate_in_order ms s = Next s')
  <-> (List.length (filter (fun m => Nat.ltb 1 (fst m)) ms)
       <= Nat.min (List.length (intermediate_small_pool s))
                  (List.length (intermediate_final_pool s))
       /\ List.length (filter (fun m => Nat.eqb (fst m) 1) ms)
          <= List.length (intermediate_pool s)).
Proof.
  revert s. induction ms as [|[n dest] ms IH]; intro s.
  - simpl. split; [intros _; lia|intros _; eexists; reflexivity].
  - simpl allocate_in_order. simpl filter.
    destruct n as [|[|n]]; simpl allocation_policy; simpl fst;
      cbv beta iota; simpl Nat.ltb; simpl Nat.eqb; cbv iota.
    + apply IH.
    + destruct (intermediate_pool s) as [|w rest] eqn:E.
      * split; [intros [s' H]; discriminate|]. simpl. lia.
      * rewrite IH. simpl. lia.
    + destruct (intermediate_small_pool s) as [|sw sr] eqn:Es.
      * split; [intros [s' H]; discriminate|]. simpl. lia.
      * destruct (intermediate_final_pool s) as [|fw fr] eqn:Ef.
        -- split; [intros [s' H]; discriminate|]. simpl. lia.
        -- rewrite IH. simpl. lia.
Qed.

(** ** Loops and dictionaries *)

Lemma get_set_same {V} (d : list (string * V)) (k : string) (v : V) :
  Py.get (Py.set d k v) k = Some v.
Proof.
  induction d as [|[k' v'] d IH]; simpl.
  - now rewrite String.eqb_refl.
  - destruct (String.eqb k k') eqn:E; simpl.
    + now rewrite String.eqb_refl.
    + rewrite E. exact IH.
Qed.

Lemma get_set_other {V} (d : list (string * V)) (k k' : string) (v : V) :
  k' <> k -> Py.get (Py.set d k v) k' = Py.get d k'.
Proof.
  intro Hne. induction d as [|[k0 v0] d IH]; simpl.
  - apply String.eqb_neq in Hne. now rewrite Hne.
  - destruct (String.eqb k k0) eqn:E; simpl.
    + apply String.eqb_eq in E. subst k0.
      apply String.eqb_neq in Hne. now rewrite Hne.
    + destruct (String.eqb k' k0); [reflexivity|exact IH].
Qed.

Lemma for_each_inv {X St} (P : St -> Prop) (xs : list X) (body : X -> St -> L St) :
  (forall x s s', In x xs -> P s -> outcome (body x s) = Py.Ok s' -> P s') ->
  forall s s', P s -> outcome (for_each xs body s) = Py.Ok s' -> P s'.
Proof.
  induction xs as [|x xs IH]; intros Hstep s s' Hs; simpl.
  - intro H. injection H as <-. exact Hs.
  - rewrite outcome_bind.
    destruct (outcome (body x s)) as [s1|e] eqn:E; [|discriminate].
    apply IH.
    + intros y a b Hy. apply Hstep. now right.
    + apply (Hstep x s s1); [now left|exact Hs|exact E].
Qed.

Lemma for_each_app_ok {X St} (xs ys : list X) (body : X -> St -> L St) (s s' : St) :
  outcome (for_each (xs ++ ys) body s) = Py.Ok s' ->
  exists s1, outcome (for_each xs body s) = Py.Ok s1
             /\ outcome (for_each ys body s1) = Py.Ok s'.
Proof.
  revert s. induction xs as [|x xs IH]; intro s; simpl.
  - intro H. exists s. split; [reflexivity|exact H].
  - rewrite !outcome_bind.
    destruct (outcome (body x s)) as [s1|e]; [|discriminate].
    apply IH.
Qed.

Lemma for_each_cons {X St} (x : X) (r : list X) (body : X -> St -> L St) (s : St) :
  for_each (x :: r) body s = bind (body x s) (for_each r body).
Proof. reflexivity. Qed.

(** ** The liquid registry *)

(** X11. After the NaCl tubes are registered, the last non-empty cell of
    the source-well row of every mix below [mix_count] is known as NaCl:
    the transfer stage, which tells NaCl from plasmids by the name
    registered for the source well, leaves out every component drawn
    from such a well, a plasmid placed in it included. *)
Theorem nacl_wells_recognised (p : params) (csv_data : table)
  (m0 m : well_map) (i : nat) (cells : list string) (last_well : string)
  (others : list string) :
  outcome (register_nacl p csv_data m0) = Py.Ok m ->
  i < mix_count p ->
  nth_error csv_data (13 + 15 * i) = Some cells ->
  rev (filter (fun c => negb (String.eqb c "")) (map Py.strip cells))
  = last_well :: others ->
  is_nacl m last_well = true.
Proof.
  unfold register_nacl. intros H Hi Hrow Hlast.
  rewrite outcome_bind in H.
  match type of H with
  | context [for_each _ ?b _] => set (body := b) in H
  end.
  destruct (outcome (for_each (Py.range 0 (mix_count p)) body (m0, [])))
    as [[m1 wells]|e] eqn:E; [|discriminate].
  simpl in H. injection H as <-.
  rewrite (range_split i _ Hi) in E.
  apply for_each_app_ok in E. destruct E as ([ma wa] & _ & E).
  rewrite for_each_cons, outcome_bind in E.
  destruct (outcome (body i (ma, wa))) as [[mb wb]|e] eqn:Ei;
    [|discriminate E].
  assert (Hb : Py.get mb last_well = Some nacl_name).
  { unfold body in Ei. rewrite Hrow, Hlast in Ei.
    rewrite outcome_bind, outcome_lift in Ei.
    destruct (getwell plasmid_plate last_well) as [w|e]; [|discriminate].
    simpl in Ei. inversion Ei; subst. apply get_set_same. }
  assert (Hm : Py.get (fst (m1, wells)) last_well = Some nacl_name).
  { apply (for_each_inv (fun st : well_map * list string =>
                           Py.get (fst st) last_well = Some nacl_name)
             (seq (S i) (mix_count p - S i)) body) with (s := (mb, wb));
      [|exact Hb|exact E].
    intros x [mx wx] [my wy] _ Hx Hstep. simpl in Hx. unfold body in Hstep.
    destruct (nth_error csv_data (13 + 15 * x)) as [row|].
    2: { unfold ret, outcome in Hstep. simpl in Hstep.
         inversion Hstep; subst. exact Hx. }
    destruct (rev (filter _ (map Py.strip row))) as [|lw rest];
      [unfold ret, outcome in Hstep; simpl in Hstep;
       inversion Hstep; subst; exact Hx|].
    rewrite outcome_bind, outcome_lift in Hstep.
    destruct (getwell plasmid_plate lw) as [w|e]; [|discriminate].
    simpl in Hstep. inversion Hstep; subst. simpl.
    destruct (String.eqb last_well lw) eqn:El.
    - apply String.eqb_eq in El. subst lw. apply get_set_same.
    - apply String.eqb_neq in El. rewrite get_set_other by exact El. exact Hx. }
  unfold is_nacl, liquid_name. simpl in Hm. rewrite Hm. reflexivity.
Qed.

Lemma nacl_wells_recognised_witness :
  exists m,
    outcome (register_nacl Examples.one_mix (clean Examples.single_small)
               [("A1", "P1"); ("A2", "P2"); ("A6", "NaCl")]) = Py.Ok m
    /\ is_nacl m "A6" = true.
Proof.
  eexists. split; [vm_compute; reflexivity|].
  apply (nacl_wells_recognised Examples.one_mix (clean Examples.single_small)
           [("A1", "P1"); ("A2", "P2"); ("A6", "NaCl")] _ 0
           ["Well"; "A1"; "A2"; "A6"] "A6" ["A2"; "A1"; "Well"]);
    [reflexivity|simpl; lia|reflexivity|reflexivity].
Defined.

(** ** The NaCl plan *)

Lemma plan_entry_update (ts : list (string * Q))
  (ds : list (string * list (well * Q))) (src : string) (dest : well) (v : Q) :
  (0 < v)%Q ->
  Forall2 plan_entry_ok ts ds ->
  Forall2 plan_entry_ok
    (Py.set ts src (match Py.get ts src with Some t => t | None => 0%Q end + v)%Q)
    (Py.set ds src (match Py.get ds src with Some l => l | None => [] end
                    ++ [(dest, v)])).
Proof.
  intros Hv H.
  induction H as [|[k t] [k' l] ts ds (Hk & Ht & Hne & Hpos) Hrest IH].
  - cbn [Py.get Py.set]. constructor; [|constructor].
    unfold plan_entry_ok. cbn [fst snd app].
    split; [reflexivity|]. split.
    + unfold group_total, Py.sum. cbn [map snd fold_left]. ring.
    + split; [discriminate|]. constructor; [exact Hv|constructor].
  - cbn [fst snd] in Hk, Ht, Hne, Hpos. subst k'. cbn [Py.get Py.set].
    destruct (String.eqb src k) eqn:E.
    + constructor; [|exact Hrest].
      unfold plan_entry_ok. cbn [fst snd].
      split; [reflexivity|]. split.
      * rewrite group_total_app, group_total_single, Ht. reflexivity.
      * split; [destruct l; discriminate|].
        apply Forall_app. split; [exact Hpos|]. constructor; [exact Hv|constructor].
    + constructor; [|exact IH]. repeat split; assumption.
Qed.

Lemma plan_step_ok (flags : list (string * bool)) (s : vessels) (d : mix_data)
  (plan plan' : nacl_plan) :
  Forall2 plan_entry_ok (nacl_totals plan) (nacl_dests plan) ->
  plan_step flags s d plan = Py.Ok plan' ->
  Forall2 plan_entry_ok (nacl_totals plan') (nacl_dests plan').
Proof.
  intro H. unfold plan_step.
  destruct (Py.index_last (volumes d)) as [nacl_vol|e]; [|discriminate].
  destruct (Qle_bool nacl_vol 0) eqn:E.
  { intro G. injection G as <-. exact H. }
  destruct (Py.index_last (source_wells d)) as [src|e]; [|discriminate].
  destruct (nacl_destination flags s (dest_well d)) as [dest|e]; [|discriminate].
  intro G. injection G as <-. simpl.
  apply plan_entry_update; [|exact H].
  apply Qnot_le_lt. intro Hle. apply Qle_bool_iff in Hle. congruence.
Qed.

Lemma plan_nacl_ok (all_mix_data : list mix_data) (s : vessels) (plan : nacl_plan) :
  plan_nacl all_mix_data s = Py.Ok plan ->
  Forall2 plan_entry_ok (nacl_totals plan) (nacl_dests plan).
Proof.
  unfold plan_nacl.
  apply (fold_left_result_inv
           (fun pl => Forall2 plan_entry_ok (nacl_totals pl) (nacl_dests pl))).
  - reflexivity.
  - intros pl d pl' Hpl. apply plan_step_ok. exact Hpl.
  - constructor.
Qed.

Lemma plan_entry_lookup (ts : list (string * Q))
  (ds : list (string * list (well * Q))) (src : string) :
  Forall2 plan_entry_ok ts ds ->
  match Py.get ts src, Py.get ds src with
  | Some t, Some l => plan_entry_ok (src, t) (src, l)
  | None, None => True
  | _, _ => False
  end.
Proof.
  induction 1 as [|[k t] [k' l] ts ds (Hk & Ht & Hne & Hpos) _ IH]; simpl in *.
  - exact I.
  - subst k'. destruct (String.eqb src k); [|exact IH].
    repeat split; assumption.
Qed.

(** X12. In the NaCl plan built from the mixes, the totals and the
    destination lists have the same source wells in the same order; for
    every source the total is the sum of the volumes listed for it, the
    list is not empty and every listed volume is positive (a mix whose
    NaCl volume is zero or less adds nothing). *)
Theorem nacl_plan_totals (all_mix_data : list mix_data) (s : vessels)
  (plan : nacl_plan) :
  plan_nacl all_mix_data s = Py.Ok plan ->
  Forall2 plan_entry_ok (nacl_totals plan) (nacl_dests plan).
Proof. apply plan_nacl_ok. Qed.

Lemma nacl_plan_totals_witness :
  exists plan t l,
    plan_nacl [parsed_mix [5; 10]%Q ["A1"; "A6"] "A1";
               parsed_mix [5; 0]%Q ["A1"; "A6"] "A2";
               parsed_mix [5; 12]%Q ["A1"; "A6"] "A3"] initial_vessels
    = Py.Ok plan
    /\ nacl_totals plan = [("A6", t)]
    /\ nacl_dests plan = [("A6", l)]
    /\ (t == group_total l)%Q
    /\ List.length l = 2.
Proof.
  do 3 eexists. split; [reflexivity|]. split; [reflexivity|].
  split; [reflexivity|].
  pose proof (nacl_plan_totals
                [parsed_mix [5; 10]%Q ["A1"; "A6"] "A1";
                 parsed_mix [5; 0]%Q ["A1"; "A6"] "A2";
                 parsed_mix [5; 12]%Q ["A1"; "A6"] "A3"] initial_vessels
                _ eq_refl) as H.
  inversion H as [|? ? ? ? (_ & Ht & _) _]; subst.
  split; [exact Ht|reflexivity].
Defined.

Lemma sum_nonneg (l : list Q) :
  Forall (fun v => 0 <= v)%Q l -> (0 <= Py.sum l)%Q.
Proof.
  induction 1 as [|x l Hx _ IH]; [unfold Py.sum; simpl; lra|].
  rewrite sum_cons. lra.
Qed.

(** While everything still to come fits beside what is in the open
    group, the packing loop closes no group. *)
Lemma pack_loop_no_close {D} (max_vol : Q) (l : list (D * Q)) (st : packing) :
  Forall (fun dv => 0 <= snd dv)%Q l ->
  (current_sum st + Py.sum (map snd l) <= max_vol - buffer)%Q ->
  exists cs,
    fold_left (pack_step max_vol) l st = Packing (group st ++ l) cs (grouped st).
Proof.
  revert st. induction l as [|[d v] l IH]; intros st Hall Hfit.
  - exists (current_sum st). simpl. rewrite app_nil_r. destruct st; reflexivity.
  - inversion Hall as [|? ? Hv Hl]; subst. simpl in Hv.
    simpl map in Hfit. rewrite sum_cons in Hfit.
    assert (Hrest : (0 <= Py.sum (map snd l))%Q).
    { apply sum_nonneg. rewrite Forall_map. exact Hl. }
    assert (E : Qle_bool (current_sum st + v) (max_vol - buffer) = true)
      by (apply Qle_bool_iff; lra).
    assert (Estep : pack_step max_vol st (d, v)
                    = Packing (group st ++ [(d, v)]) (current_sum st + v)%Q
                              (grouped st))
      by (unfold pack_step; rewrite E; reflexivity).
    cbn [fold_left]. rewrite Estep.
    destruct (IH (Packing (group st ++ [(d, v)]) (current_sum st + v)%Q (grouped st)))
      as [cs Hcs]; [exact Hl|simpl; lra|].
    exists cs. rewrite Hcs. simpl. rewrite <- app_assoc. reflexivity.
Qed.

(** X13. When the 50 µL pipette is chosen for a source of the NaCl plan
    (total plus the 2 µL buffer at most 50), all destinations of that
    source form one group: the NaCl for all of them is drawn in a single
    aspirate, of at most 50 µL. *)
Theorem low_volume_source_is_one_group (all_mix_data : list mix_data)
  (s : vessels) (plan : nacl_plan) (src : string) (total : Q)
  (dest_list : list (well * Q)) :
  plan_nacl all_mix_data s = Py.Ok plan ->
  Py.get (nacl_totals plan) src = Some total ->
  Py.get (nacl_dests plan) src = Some dest_list ->
  (total + buffer <= 50)%Q ->
  select_max_vol total = 50%Q
  /\ dispense_groups (select_max_vol total) dest_list = [dest_list]
  /\ (group_total dest_list + buffer <= 50)%Q.
Proof.
  intros Hplan Ht Hl Hfit.
  pose proof (plan_entry_lookup _ _ src (plan_nacl_ok _ _ _ Hplan)) as H.
  rewrite Ht, Hl in H. destruct H as (_ & Hsum & Hne & Hpos).
  cbn [fst snd] in Hsum, Hne, Hpos.
  assert (E : select_max_vol total = 50%Q).
  { unfold select_max_vol.
    apply Qle_bool_iff in Hfit. rewrite Hfit. reflexivity. }
  split; [exact E|]. rewrite E. split; [|rewrite <- Hsum; exact Hfit].
  unfold dispense_groups, pack_loop.
  destruct (pack_loop_no_close 50 dest_list (Packing [] 0%Q [])) as [cs Hcs].
  - apply Forall_forall. intros dv Hdv. rewrite Forall_forall in Hpos.
    apply Qlt_le_weak, Hpos, Hdv.
  - simpl. fold (group_total dest_list). rewrite <- Hsum.
    unfold buffer in *. lra.
  - rewrite Hcs. simpl. destruct dest_list; [congruence|reflexivity].
Qed.

Lemma low_volume_source_is_one_group_witness :
  exists plan l,
    plan_nacl [parsed_mix [5; 10]%Q ["A1"; "A6"] "A1";
               parsed_mix [5; 12]%Q ["A1"; "A6"] "A3"] initial_vessels
    = Py.Ok plan
    /\ Py.get (nacl_dests plan) "A6" = Some l
    /\ dispense_groups 50 l = [l].
Proof.
  do 2 eexists. split; [reflexivity|]. split; [reflexivity|].
  destruct (low_volume_source_is_one_group
              [parsed_mix [5; 10]%Q ["A1"; "A6"] "A1";
               parsed_mix [5; 12]%Q ["A1"; "A6"] "A3"] initial_vessels
              _ "A6" _ _ eq_refl eq_refl eq_refl) as (E & H & _).
  - discriminate.
  - rewrite E in H. exact H.
Defined.

(** ** Properties of every call of a log *)

Lemma log_Forall_bind {A B} (Q : event -> Prop) (c : L A) (f : A -> L B) :
  Forall Q (log c) ->
  (forall a, outcome c = Py.Ok a -> Forall Q (log (f a))) ->
  Forall Q (log (bind c f)).
Proof.
  intros Hc Hf. rewrite log_bind.
  destruct (outcome c) as [a|e] eqn:E; [|exact Hc].
  apply Forall_app. split; [exact Hc|apply Hf; reflexivity].
Qed.

Lemma log_Forall_for_each {X St} (Q : event -> Prop) (xs : list X)
  (body : X -> St -> L St) (s : St) :
  (forall x s, In x xs -> Forall Q (log (body x s))) ->
  Forall Q (log (for_each xs body s)).
Proof.
  revert s. induction xs as [|x xs IH]; intros s H; simpl.
  - constructor.
  - apply log_Forall_bind; [apply H; now left|].
    intros a _. apply IH. intros y s' Hy. apply H. now right.
Qed.

Lemma log_Forall_emit (Q : event -> Prop) (e : event) :
  Q e -> Forall Q (log (emit e)).
Proof. intro H. constructor; [exact H|constructor]. Qed.

Lemma log_Forall_lift {A} (Q : event -> Prop) (r : Py.result A) :
  Forall Q (log (lift r)).
Proof. constructor. Qed.

Lemma take_tip_no_aspirate (cap : Q) (pip : pipette) (t : tips) :
  Forall (aspirate_at_most cap) (log (take_tip pip t)).
Proof.
  destruct pip; simpl take_tip.
  - destruct (tips50_by_row t) as [|tip rest] eqn:E.
    + rewrite (take_tip_50_nil t E). repeat constructor.
    + rewrite (take_tip_50_cons t tip rest E). repeat constructor.
  - destruct (tips200_by_row t) as [|tip rest] eqn:E.
    + rewrite (take_tip_200_nil t E). constructor.
    + rewrite (take_tip_200_cons t tip rest E). repeat constructor.
Qed.

Lemma set_keys {V} (d : list (string * V)) (k : string) (v : V) :
  map fst (Py.set d k v)
  = if Py.mem k (map fst d) then map fst d else map fst d ++ [k].
Proof.
  induction d as [|[k' v'] d IH]; simpl; [reflexivity|].
  destruct (String.eqb k k') eqn:E; simpl.
  - apply String.eqb_eq in E. subst. reflexivity.
  - rewrite IH. unfold Py.mem. destruct (existsb _ _); reflexivity.
Qed.

Lemma mem_In (k : string) (l : list string) :
  Py.mem k l = true <-> In k l.
Proof.
  unfold Py.mem. rewrite existsb_exists. split.
  - intros (x & Hx & E). apply String.eqb_eq in E. subst. exact Hx.
  - intro H. exists k. split; [exact H|apply String.eqb_refl].
Qed.

Lemma set_keys_NoDup {V} (d : list (string * V)) (k : string) (v : V) :
  NoDup (map fst d) -> NoDup (map fst (Py.set d k v)).
Proof.
  intro H. rewrite set_keys.
  destruct (Py.mem k (map fst d)) eqn:E; [exact H|].
  apply NoDup_app; [exact H|repeat constructor; intros []|].
  intros x Hx [<-|[]]. apply mem_In in Hx. congruence.
Qed.

Lemma get_of_In {V} (d : list (string * V)) (k : string) (v : V) :
  NoDup (map fst d) -> In (k, v) d -> Py.get d k = Some v.
Proof.
  induction d as [|[k' v'] d IH]; intros Hnd Hin; [contradiction|].
  simpl in *. inversion Hnd as [|? ? Hk Hrest]; subst.
  destruct Hin as [E|Hin].
  - injection E as -> ->. now rewrite String.eqb_refl.
  - destruct (String.eqb k k') eqn:E.
    + apply String.eqb_eq in E. subst k'. exfalso. apply Hk.
      apply in_map_iff. exists (k, v). split; [reflexivity|exact Hin].
    + apply IH; assumption.
Qed.

Lemma plan_nacl_keys (all_mix_data : list mix_data) (s : vessels)
  (plan : nacl_plan) :
  plan_nacl all_mix_data s = Py.Ok plan ->
  NoDup (map fst (nacl_totals plan)) /\ NoDup (map fst (nacl_dests plan)).
Proof.
  unfold plan_nacl.
  apply (fold_left_result_inv
           (fun pl => NoDup (map fst (nacl_totals pl))
                      /\ NoDup (map fst (nacl_dests pl)))).
  - reflexivity.
  - intros pl d pl' [H1 H2]. unfold plan_step.
    destruct (Py.index_last (volumes d)) as [nacl_vol|e]; [|discriminate].
    destruct (Qle_bool nacl_vol 0).
    { intro G. injection G as <-. split; assumption. }
    destruct (Py.index_last (source_wells d)) as [src|e]; [|discriminate].
    destruct (nacl_destination _ s (dest_well d)) as [dest|e]; [|discriminate].
    intro G. injection G as <-. simpl. split; apply set_keys_NoDup; assumption.
  - split; constructor.
Qed.

Lemma dispense_group_aspirates (pip : pipette) (source : well)
  (g : list (well * Q)) (cap : Q) :
  (group_total g + buffer <= cap)%Q ->
  Forall (aspirate_at_most cap) (log (dispense_group pip source g)).
Proof.
  intro H. unfold dispense_group.
  apply log_Forall_bind; [apply log_Forall_emit; exact H|]. intros _ _.
  apply log_Forall_bind.
  - apply log_Forall_for_each. intros dv u _. apply log_Forall_emit. exact I.
  - intros _ _. apply log_Forall_emit. exact I.
Qed.

Lemma distribute_nacl_aspirates (plan : nacl_plan) (src : string) (total : Q)
  (t : tips) :
  Forall (fun dv => snd dv <= select_max_vol total - buffer)%Q
         (match Py.get (nacl_dests plan) src with Some l => l | None => [] end) ->
  Forall (aspirate_at_most (select_max_vol total))
         (log (distribute_nacl plan (src, total) t)).
Proof.
  intro Hfit. unfold distribute_nacl.
  set (dest_list := match Py.get (nacl_dests plan) src with
                    | Some l => l | None => [] end) in *.
  apply log_Forall_bind; [apply log_Forall_lift|]. intros source _.
  apply log_Forall_bind; [apply take_tip_no_aspirate|]. intros t' _.
  apply log_Forall_bind.
  - pose proof (dispense_groups_fit_when_each_fits (select_max_vol total)
                  dest_list (select_max_vol_cap total) Hfit) as Hg.
    destruct (dispense_groups (select_max_vol total) dest_list) as [|g gs];
      [constructor|].
    apply log_Forall_bind.
    + apply log_Forall_for_each. intros g' u Hin.
      apply dispense_group_aspirates.
      rewrite Forall_forall in Hg. specialize (Hg g' Hin). lra.
    + intros _ _. apply log_Forall_emit. exact I.
  - intros _ _. apply log_Forall_bind; [apply log_Forall_emit; exact I|].
    intros _ _. constructor.
Qed.

(** X14. If no single NaCl volume of the plan exceeds 198 µL, no
    aspirate of the NaCl dispensing takes more than 200 µL, the size of
    the larger tips: every group is drawn with its 2 µL of buffer within
    the tip chosen for its source. *)
Theorem nacl_aspirates_fit_the_tip (all_mix_data : list mix_data)
  (s : vessels) (plan : nacl_plan) (t : tips) :
  plan_nacl all_mix_data s = Py.Ok plan ->
  (forall src l dv, Py.get (nacl_dests plan) src = Some l -> In dv l ->
                    (snd dv <= 198)%Q) ->
  Forall (aspirate_at_most 200) (log (execute_nacl plan t)).
Proof.
  intros Hplan Hmax. unfold execute_nacl.
  pose proof (plan_nacl_ok _ _ _ Hplan) as Hok.
  destruct (plan_nacl_keys _ _ _ Hplan) as [Hkeys _].
  apply log_Forall_for_each. intros [src total] t' Hin.
  pose proof (plan_entry_lookup _ _ src Hok) as Hentry.
  rewrite (get_of_In _ _ _ Hkeys Hin) in Hentry.
  destruct (Py.get (nacl_dests plan) src) as [l|] eqn:El; [|contradiction].
  destruct Hentry as (_ & Hsum & Hne & Hpos). cbn [fst snd] in Hsum, Hne, Hpos.
  assert (Hcap : (select_max_vol total <= 200)%Q).
  { unfold select_max_vol. destruct (Qle_bool _ _); discriminate. }
  eapply Forall_impl; [|apply distribute_nacl_aspirates].
  - intros e He. destruct e; try exact I. simpl in He |- *. lra.
  - rewrite El. apply Forall_forall. intros dv Hdv.
    unfold select_max_vol, buffer.
    destruct (Qle_bool (total + 2) 50) eqn:E.
    + apply Qle_bool_iff in E.
      assert (snd dv <= Py.sum (map snd l))%Q.
      { apply sum_le_of_member.
        - rewrite Forall_map. exact Hpos.
        - apply in_map. exact Hdv. }
      unfold group_total in Hsum. lra.
    + specialize (Hmax src l dv El Hdv). lra.
Qed.

Lemma nacl_aspirates_fit_the_tip_witness :
  exists plan,
    plan_nacl [parsed_mix [5; 100]%Q ["A1"; "A6"] "A1";
               parsed_mix [5; 120]%Q ["A1"; "A6"] "A3"] initial_vessels
    = Py.Ok plan
    /\ forall t, Forall (aspirate_at_most 200) (log (execute_nacl plan t)).
Proof.
  eexists. split; [reflexivity|]. intro t.
  apply (nacl_aspirates_fit_the_tip
           [parsed_mix [5; 100]%Q ["A1"; "A6"] "A1";
            parsed_mix [5; 120]%Q ["A1"; "A6"] "A3"] initial_vessels _ t eq_refl).
  intros src l dv Hget Hin. simpl in Hget.
  destruct (String.eqb src "A6"); [|discriminate].
  injection Hget as <-.
  destruct Hin as [<-|[<-|[]]]; simpl; discriminate.
Defined.

(** ** Batches *)

Lemma firstn_plus {A} (a b : nat) (l : list A) :
  firstn (a + b) l = firstn a l ++ firstn b (skipn a l).
Proof.
  revert l. induction a as [|a IH]; intro l; [reflexivity|].
  destruct l as [|x l]; simpl.
  - now rewrite firstn_nil.
  - now rewrite IH.
Qed.

Lemma batch_slice (p : params) (all_mix_data : list mix_data) (k : nat) :
  List.length all_mix_data = mix_count p ->
  batch_mix_data p all_mix_data (batch_size * k)
  = firstn batch_size (skipn (batch_size * k) all_mix_data).
Proof.
  intro Hlen. unfold batch_mix_data.
  set (start := batch_size * k).
  destruct (Nat.le_gt_cases (start + batch_size) (mix_count p)) as [H|H].
  - rewrite Nat.min_l by exact H. f_equal. lia.
  - rewrite Nat.min_r by lia.
    rewrite !firstn_all2; [reflexivity| |]; rewrite length_skipn; lia.
Qed.

(** X15. When there are [mix_count] mixes, the batches of the transfer
    stage are consecutive slices of at most twelve mixes that together
    give every mix exactly once and in order: batching only restarts
    the set of premixed sources. *)
Theorem batches_cover_every_mix_once (p : params) (m : well_map) (s : vessels)
  (all_mix_data : list mix_data) (t : tips) :
  List.length all_mix_data = mix_count p ->
  List.concat (map (batch_mix_data p all_mix_data) (batch_starts p))
  = all_mix_data
  /\ Forall (fun b => List.length b <= batch_size)
            (map (batch_mix_data p all_mix_data) (batch_starts p))
  /\ execute_transfers p m s all_mix_data t
     = for_each (batch_starts p)
         (fun batch_start t =>
            bind (emit (comment [lit "Processing batch mixes ";
                                 fint (batch_start + 1); lit " to ";
                                 fint (Nat.min (batch_start + batch_size)
                                               (mix_count p))]))
              (fun _ =>
                 bind (for_each (batch_mix_data p all_mix_data batch_start)
                         (process_mix p m s) ([], t))
                      (fun '(_, t) => ret t)))
         t.
Proof.
  intro Hlen.
  split; [|split; [|reflexivity]]; unfold batch_starts; rewrite map_map.
  - set (c := (mix_count p + batch_size - 1) / batch_size).
    assert (Hc : mix_count p <= batch_size * c).
    { unfold c, batch_size.
      pose proof (Nat.div_mod_eq (mix_count p + 12 - 1) 12).
      pose proof (Nat.mod_upper_bound (mix_count p + 12 - 1) 12). lia. }
    assert (G : forall c,
               List.concat (map (fun k => batch_mix_data p all_mix_data (batch_size * k))
                                (seq 0 c))
               = firstn (batch_size * c) all_mix_data).
    { clear c Hc. induction c as [|c IH]; [reflexivity|].
      rewrite seq_S, map_app, List.concat_app, IH, Nat.add_0_l.
      cbn [map List.concat].
      rewrite app_nil_r, (batch_slice p all_mix_data c Hlen).
      replace (batch_size * S c) with (batch_size * c + batch_size) by lia.
      rewrite firstn_plus. reflexivity. }
    rewrite G. apply firstn_all2. lia.
  - apply Forall_forall. intros b Hb. apply in_map_iff in Hb.
    destruct Hb as (k & <- & _). rewrite (batch_slice p all_mix_data k Hlen).
    apply firstn_le_length.
Qed.

Lemma batches_cover_every_mix_once_witness :
  let p := Params 6 13 "A1" "A1" true in
  let all_mix_data :=
    map (fun i => parsed_mix [5; 10]%Q ["A1"; "A6"] (Py.str_nat i)) (seq 0 13) in
  map (@List.length mix_data) (map (batch_mix_data p all_mix_data) (batch_starts p))
  = [12; 1]
  /\ List.concat (map (batch_mix_data p all_mix_data) (batch_starts p))
     = all_mix_data.
Proof.
  intros p all_mix_data. split; [reflexivity|].
  exact (proj1 (batches_cover_every_mix_once p [] initial_vessels all_mix_data
                  (Tips [] [] tiprack_50 tiprack_50_reserve 0 0 0) eq_refl)).
Defined.

(** ** The aliquoting protocol: destination wells *)

Section AliquotingWells.
Import DNAmix_aliquoting_final.

(** X16. Every starting position that [add_parameters] offers for the
    mixes is read without error: its letter gives a row index below 8
    and its digits a column between 1 and 12, and row and column give
    the position back. *)
Theorem parse_position_reads_every_choice (position : string) :
  In position well_choices ->
  exists g,
    parse_position position = Py.Ok g
    /\ row_index g < 8
    /\ 1 <= start_col g <= 12
    /\ position = String (nth (row_index g) rows "A"%char)
                         (Py.str_nat (start_col g)).
Proof.
  intro Hin.
  assert (H : forallb
                (fun position =>
                   match parse_position position with
                   | Py.Ok g =>
                       Nat.ltb (row_index g) 8
                       && Nat.leb 1 (start_col g) && Nat.leb (start_col g) 12
                       && String.eqb position
                            (String (nth (row_index g) rows "A"%char)
                                    (Py.str_nat (start_col g)))
                   | Py.Raise _ => false
                   end)
                well_choices = true) by (vm_compute; reflexivity).
  rewrite forallb_forall in H. specialize (H position Hin).
  destruct (parse_position position) as [g|e]; [|discriminate].
  exists g. rewrite !andb_true_iff in H. destruct H as [[[H1 H2] H3] H4].
  apply Nat.ltb_lt in H1. apply Nat.leb_le in H2, H3. apply String.eqb_eq in H4.
  repeat split; assumption.
Qed.

Lemma parse_position_reads_every_choice_witness :
  exists g,
    parse_position "H12" = Py.Ok g /\ row_index g = 7 /\ start_col g = 12.
Proof.
  destruct (parse_position_reads_every_choice "H12") as (g & Hg & _).
  - vm_compute. do 95 right. left. reflexivity.
  - exists g. split; [exact Hg|].
    change (parse_position "H12") with (Py.Ok (Geometry 12 7)) in Hg.
    injection Hg as <-. split; reflexivity.
Defined.

End AliquotingWells.

Section AliquotingGeometry.
Import DNAmix_aliquoting_final.

Lemma flat_map_length_const {A B} (f : A -> list B) (c : nat) (l : list A) :
  (forall x, In x l -> List.length (f x) = c) ->
  List.length (flat_map f l) = List.length l * c.
Proof.
  induction l as [|x l IH]; intro H; simpl; [reflexivity|].
  rewrite length_app, H by now left. rewrite IH; [lia|].
  intros y Hy. apply H. now right.
Qed.

Lemma all_wells_length (p : params) (g : geometry) :
  row_index g + mix_rows_count p <= 8 ->
  List.length (all_wells p g) = mix_rows_count p * mix_columns_per_row p.
Proof.
  intro H. unfold all_wells.
  rewrite (flat_map_length_const _ (mix_columns_per_row p)).
  - rewrite length_firstn, length_skipn. simpl List.length.
    rewrite Nat.min_l by lia. reflexivity.
  - intros r _. rewrite length_map. unfold Py.range. rewrite length_seq. lia.
Qed.

Lemma plate_has_well (r : ascii) (c : nat) :
  In r rows -> 1 <= c <= 12 ->
  Py.mem (String r (Py.str_nat c)) (well_names pcr_plate) = true.
Proof.
  intros Hr Hc.
  assert (H : forallb
                (fun r => forallb
                            (fun c => Py.mem (String r (Py.str_nat c))
                                             (well_names pcr_plate))
                            (seq 1 12))
                rows = true) by (vm_compute; reflexivity).
  rewrite forallb_forall in H. specialize (H r Hr).
  rewrite forallb_forall in H. apply H. apply in_seq. lia.
Qed.

Lemma all_wells_on_plate (p : params) (g : geometry) (name : string) :
  1 <= start_col g ->
  start_col g + mix_columns_per_row p <= 13 ->
  In name (all_wells p g) ->
  Py.mem name (well_names pcr_plate) = true.
Proof.
  intros H1 H2 Hin. unfold all_wells in Hin.
  apply in_flat_map in Hin. destruct Hin as (r & Hr & Hname).
  apply in_map_iff in Hname. destruct Hname as (c & <- & Hc).
  unfold Py.range in Hc. apply in_seq in Hc.
  apply plate_has_well; [|lia].
  set (l := skipn (row_index g) rows) in Hr.
  assert (Hl : In r l).
  { rewrite <- (firstn_skipn (mix_rows_count p) l). apply in_or_app. now left. }
  unfold l in Hl.
  rewrite <- (firstn_skipn (row_index g) rows). apply in_or_app. now right.
Qed.

Lemma collect_wells_on_plate (names : list string) (acc : list well) :
  Forall (fun name => Py.mem name (well_names pcr_plate) = true) names ->
  for_each names
    (fun name acc => bind (lift (getwell pcr_plate name))
                          (fun w => ret (acc ++ [w])))
    acc
  = ([], Py.Ok (acc ++ map (Well pcr_plate) names)).
Proof.
  intro H. revert acc. induction H as [|name names Hname _ IH]; intro acc.
  - simpl. rewrite app_nil_r. reflexivity.
  - simpl. unfold getwell at 1. rewrite Hname. simpl.
    rewrite IH, <- app_assoc. reflexivity.
Qed.

(** X17. When the rows asked for fit below the starting row, the columns
    asked for fit on the plate and [mix_count] is at most rows times
    columns, the destination wells are found without error or pause:
    they are the first [mix_count] wells of the rectangle, row by row,
    which has exactly rows times columns wells. *)
Theorem destination_wells_when_geometry_fits (p : params) (g : geometry) :
  parse_position (mix_position p) = Py.Ok g ->
  row_index g + mix_rows_count p <= 8 ->
  1 <= start_col g ->
  start_col g + mix_columns_per_row p <= 13 ->
  mix_count p <= mix_rows_count p * mix_columns_per_row p ->
  List.length (all_wells p g) = mix_rows_count p * mix_columns_per_row p
  /\ destination_wells p
     = ([], Py.Ok (map (Well pcr_plate) (firstn (mix_count p) (all_wells p g))))
  /\ List.length (firstn (mix_count p) (all_wells p g)) = mix_count p.
Proof.
  intros Hg Hrows Hc1 Hc2 Hcount.
  pose proof (all_wells_length p g Hrows) as Hlen.
  split; [exact Hlen|]. split.
  - unfold destination_wells. rewrite Hg.
    cbv beta iota delta [bind lift].
    assert (E1 : Nat.ltb (List.length rows) (row_index g + mix_rows_count p) = false)
      by (apply Nat.ltb_ge; simpl; lia).
    assert (E2 : Nat.ltb (List.length (all_wells p g)) (mix_count p) = false)
      by (apply Nat.ltb_ge; lia).
    rewrite E1, E2, collect_wells_on_plate; [reflexivity|].
    apply Forall_forall. intros name Hin.
    apply (all_wells_on_plate p g name Hc1 Hc2).
    rewrite <- (firstn_skipn (mix_count p) (all_wells p g)).
    apply in_or_app. now left.
  - rewrite length_firstn. lia.
Qed.

Lemma destination_wells_when_geometry_fits_witness :
  outcome (destination_wells
             (Params 3 88 20 "D6" "G11" 2 2 15 "A1" "A1" false 2))
  = Py.Ok [Well pcr_plate "G11"; Well pcr_plate "G12"; Well pcr_plate "H11"].
Proof.
  destruct (destination_wells_when_geometry_fits
              (Params 3 88 20 "D6" "G11" 2 2 15 "A1" "A1" false 2)
              (Geometry 11 6) eq_refl) as (_ & H & _);
    try (simpl; lia).
  rewrite H. reflexivity.
Defined.

End AliquotingGeometry.

(** ** The aliquoting protocol: reagent distribution *)

Section AliquotingDistribution.
Import DNAmix_aliquoting_final.

Lemma distribute_unfold (p : params) (source : well) (dests : list well) :
  distribute p source dests
  = bind (for_each (Py.range 0 (mix_count p)) (distribute_body p source dests) 0%Q)
         (fun _ => ret tt).
Proof. reflexivity. Qed.

Lemma vol_le (a b : nat) : a <= b -> (vol a <= vol b)%Q.
Proof. intro H. unfold vol. rewrite <- Zle_Qle. lia. Qed.

Lemma vol_lt (a b : nat) : a < b -> (vol a < vol b)%Q.
Proof. intro H. unfold vol. rewrite <- Zlt_Qlt. lia. Qed.

Lemma vol_900 : (1000 * 0.9 == vol 900)%Q.
Proof. reflexivity. Qed.

(** What one turn of the loop does at a destination in range. *)
Lemma distribute_body_step (p : params) (source : well) (dests : list well)
  (i : nat) (v : Q) (w : well) :
  nth_error dests i = Some w ->
  let give := [dispense p1000 (vol (reagent_vol p)) (top w 0); air_gap p1000 5] in
  let t := if Py.Qlt_bool (vol ((mix_count p - i) * reagent_vol p)) (1000 * 0.9)%Q
           then vol ((mix_count p - i) * reagent_vol p) else (1000 * 0.9)%Q in
  distribute_body p source dests i v
  = if Py.Qlt_bool v (vol (reagent_vol p))
    then ((if premix p
           then [flow_rate_aspirate p1000 716; flow_rate_dispense p1000 716;
                 mix p1000 3 (vol (premixvol p)) (at_well source);
                 flow_rate_aspirate p1000 35; flow_rate_dispense p1000 57]
           else []) ++ aspirate p1000 t (at_well source) :: give,
          Py.Ok (t - vol (reagent_vol p))%Q)
    else (give, Py.Ok (v - vol (reagent_vol p))%Q).
Proof.
  intros H give t. unfold distribute_body, Py.index. rewrite H.
  destruct (Py.Qlt_bool v (vol (reagent_vol p))); [|reflexivity].
  destruct (premix p); reflexivity.
Qed.

Lemma skipn_nth_cons {A} (l : list A) (a : nat) (w : A) :
  nth_error l a = Some w -> skipn a l = w :: skipn (S a) l.
Proof.
  revert a. induction l as [|x l IH]; intros [|a] H; try discriminate.
  - injection H as ->. reflexivity.
  - simpl in H. change (skipn (S a) (x :: l)) with (skipn a l).
    apply IH. exact H.
Qed.

Lemma nth_error_in_range {A} (l : list A) (a : nat) :
  a < List.length l -> exists w, nth_error l a = Some w.
Proof.
  intro H. destruct (nth_error l a) as [w|] eqn:E; [now exists w|].
  apply nth_error_None in E. lia.
Qed.

Lemma refill_at_most (n r : nat) :
  ((if Py.Qlt_bool (vol (n * r)) (1000 * 0.9) then vol (n * r) else 1000 * 0.9)
   <= 900)%Q.
Proof.
  destruct (Py.Qlt_bool (vol (n * r)) (1000 * 0.9)) eqn:E.
  - apply Qlt_bool_iff in E. apply Qlt_le_weak.
    eapply Qlt_le_trans; [exact E|]. rewrite vol_900. apply Qle_refl.
  - rewrite vol_900. apply Qle_refl.
Qed.

Lemma refill_at_least (n r : nat) :
  1 <= n -> r <= 900 ->
  (vol r <=
   (if Py.Qlt_bool (vol (n * r)) (1000 * 0.9) then vol (n * r) else 1000 * 0.9))%Q.
Proof.
  intros Hn Hr.
  destruct (Py.Qlt_bool (vol (n * r)) (1000 * 0.9)).
  - apply vol_le. nia.
  - rewrite vol_900. apply vol_le. exact Hr.
Qed.

Lemma distribute_loop (p : params) (source : well) (dests : list well) :
  forall n a v,
    a + n <= List.length dests ->
    exists v',
      outcome (for_each (seq a n) (distribute_body p source dests) v) = Py.Ok v'
      /\ dispenses (log (for_each (seq a n) (distribute_body p source dests) v))
         = map (fun w => dispense p1000 (vol (reagent_vol p)) (top w 0))
               (firstn n (skipn a dests))
      /\ Forall (aspirate_at_most 900)
                (log (for_each (seq a n) (distribute_body p source dests) v)).
Proof.
  induction n as [|n IH]; intros a v Ha.
  - exists v. repeat split. constructor.
  - destruct (nth_error_in_range dests a) as (w & Hw); [lia|].
    cbn [seq]. rewrite for_each_cons, outcome_bind, log_bind.
    rewrite (distribute_body_step p source dests a v w Hw).
    rewrite (skipn_nth_cons dests a w Hw). cbn [firstn map].
    destruct (Py.Qlt_bool v (vol (reagent_vol p)));
      cbv beta iota; cbn [outcome log snd fst];
      match goal with
      | |- context [for_each (seq (S a) n) _ ?v1] =>
          destruct (IH (S a) v1) as (v' & Ho & Hd & Hf); [lia|]
      end;
      exists v'; (split; [exact Ho|]).
    + split.
      * unfold dispenses in *. rewrite !filter_app, Hd.
        destruct (premix p); reflexivity.
      * apply Forall_app. split; [|exact Hf].
        apply Forall_app. split.
        -- destruct (premix p); repeat constructor.
        -- constructor; [apply refill_at_most|]. repeat constructor.
    + split.
      * unfold dispenses in *. rewrite filter_app, Hd. reflexivity.
      * apply Forall_app. split; [|exact Hf]. repeat constructor.
Qed.

(** X18. When there are as many destination wells as mixes, the
    distribution ends without an exception, its dispenses are one of
    [reagent_vol] at the top of every destination well, in the order of
    the wells, and no aspirate takes more than 900 µL. *)
Theorem distribution_serves_every_well (p : params) (source : well)
  (dests : list well) :
  List.length dests = mix_count p ->
  outcome (distribute p source dests) = Py.Ok tt
  /\ dispenses (log (distribute p source dests))
     = map (fun w => dispense p1000 (vol (reagent_vol p)) (top w 0)) dests
  /\ Forall (aspirate_at_most 900) (log (distribute p source dests)).
Proof.
  intro Hlen. rewrite distribute_unfold, outcome_bind, log_bind.
  unfold Py.range.
  destruct (distribute_loop p source dests (mix_count p - 0) 0 0%Q)
    as (v' & Ho & Hd & Hf); [lia|].
  rewrite Ho. cbn [log ret fst]. rewrite app_nil_r.
  split; [reflexivity|]. split; [|exact Hf].
  rewrite Hd. cbn [skipn]. rewrite firstn_all2 by lia. reflexivity.
Qed.

Lemma distribution_serves_every_well_witness :
  let p := Params 3 88 20 "D6" "G11" 2 2 15 "A1" "A1" true 2 in
  let dests := map (Well pcr_plate) ["G11"; "G12"; "H11"] in
  dispenses (log (distribute p (Well reagent_plate "A1") dests))
  = map (fun w => dispense p1000 (vol 88) (top w 0)) dests.
Proof.
  intros p dests.
  exact (proj1 (proj2 (distribution_serves_every_well p (Well reagent_plate "A1")
                         dests eq_refl))).
Defined.

Lemma distribute_loop_tip (p : params) (source : well) (dests : list well) :
  reagent_vol p <= 900 ->
  forall n a v c,
    a + n <= List.length dests ->
    a + n <= mix_count p ->
    (0 <= c)%Q -> (v <= c)%Q ->
    tip_never_overdrawn c
      (log (for_each (seq a n) (distribute_body p source dests) v)).
Proof.
  intro Hr. induction n as [|n IH]; intros a v c Ha Hm Hc Hv.
  - exact I.
  - destruct (nth_error_in_range dests a) as (w & Hw); [lia|].
    cbn [seq]. rewrite for_each_cons, log_bind.
    rewrite (distribute_body_step p source dests a v w Hw).
    pose proof (refill_at_least (mix_count p - a) (reagent_vol p)
                  ltac:(lia) Hr) as Ht.
    destruct (Py.Qlt_bool v (vol (reagent_vol p))) eqn:E;
      cbv beta iota; cbn [outcome log snd fst].
    + set (t := if Py.Qlt_bool _ _ then _ else _) in *.
      assert (tip_never_overdrawn (c + t)
                (dispense p1000 (vol (reagent_vol p)) (top w 0)
                 :: air_gap p1000 5
                 :: log (for_each (seq (S a) n) (distribute_body p source dests)
                           (t - vol (reagent_vol p))%Q))) as H.
      { split; [lra|]. apply IH; try lia; lra. }
      destruct (premix p); exact H.
    + apply Qlt_bool_false_iff in E.
      split; [lra|]. apply IH; try lia; lra.
Qed.

(** X19. With one destination per mix and at least one mix, the tip
    never has to give out more than it holds exactly when [reagent_vol]
    is at most 900 µL: an aspirate is capped at 900 µL, so a larger
    [reagent_vol] makes the first dispense ask for more than the tip
    took. *)
Theorem tip_overdrawn_above_900 (p : params) (source : well)
  (dests : list well) :
  List.length dests = mix_count p ->
  1 <= mix_count p ->
  tip_never_overdrawn 0 (log (distribute p source dests))
  <-> reagent_vol p <= 900.
Proof.
  intros Hlen Hm. rewrite distribute_unfold, log_bind.
  destruct (distribute_loop p source dests (mix_count p - 0) 0 0%Q)
    as (v' & Ho & _ & _); [lia|].
  unfold Py.range. rewrite Ho. cbn [log ret fst]. rewrite app_nil_r.
  split.
  - intro H. destruct (Nat.le_gt_cases (reagent_vol p) 900) as [L|G]; [exact L|].
    exfalso.
    destruct (nth_error_in_range dests 0) as (w & Hw); [lia|].
    replace (mix_count p - 0) with (S (mix_count p - 1)) in H by lia.
    cbn [seq] in H. rewrite for_each_cons, log_bind in H.
    rewrite (distribute_body_step p source dests 0 0%Q w Hw) in H.
    assert (Py.Qlt_bool 0 (vol (reagent_vol p)) = true) as E0.
    { apply Qlt_bool_iff. apply (vol_lt 0). lia. }
    assert (Py.Qlt_bool (vol ((mix_count p - 0) * reagent_vol p)) (1000 * 0.9)
            = false) as E1.
    { apply Qlt_bool_false_iff. rewrite vol_900. apply vol_le. nia. }
    rewrite E0, E1 in H. cbv beta iota in H. cbn [outcome log snd fst] in H.
    assert (vol (reagent_vol p) <= 0 + 1000 * 0.9)%Q as Hle.
    { destruct (premix p); exact (proj1 H). }
    pose proof (vol_lt 900 (reagent_vol p) G) as Hgt.
    rewrite <- vol_900 in Hgt. lra.
  - intro Hr. apply distribute_loop_tip; try lia; try exact Hr; lra.
Qed.

Lemma tip_overdrawn_above_900_witness :
  let p := Params 3 950 20 "D6" "G11" 2 2 15 "A1" "A1" false 2 in
  ~ tip_never_overdrawn 0
      (log (distribute p (Well reagent_plate "A1")
              (map (Well pcr_plate) ["G11"; "G12"; "H11"]))).
Proof.
  intros p H.
  apply (tip_overdrawn_above_900 p (Well reagent_plate "A1")
           (map (Well pcr_plate) ["G11"; "G12"; "H11"]) eq_refl) in H;
    simpl in *; lia.
Defined.

End AliquotingDistribution.

(** ** The aliquoting protocol: aliquots on the cell plate *)

Section AliquotingCellPlate.
Import DNAmix_aliquoting_final.

Lemma aliquot_unfold (p : params) (tips200_by_row tips1000_by_row : list well)
  (dests : list well) (k : counters) :
  aliquot p tips200_by_row tips1000_by_row dests k
  = for_each (combine (seq 0 (List.length dests)) dests)
      (aliquot_body p tips200_by_row tips1000_by_row) k.
Proof. reflexivity. Qed.

Lemma aliquot_targets_period (i : nat) :
  aliquot_targets i = aliquot_targets (i mod 24).
Proof.
  unfold aliquot_targets.
  assert ((i / 6) mod 4 = (i mod 24 / 6) mod 4) as ->.
  { rewrite (Nat.div_mod_eq i 24) at 1.
    replace (24 * (i / 24) + i mod 24) with ((i / 24 * 4) * 6 + i mod 24) by lia.
    rewrite Nat.div_add_l by lia.
    rewrite Nat.add_comm, Nat.Div0.mod_add. reflexivity. }
  assert (i mod 6 = (i mod 24) mod 6) as ->.
  { rewrite (Nat.div_mod_eq i 24) at 1.
    replace (24 * (i / 24) + i mod 24) with (i mod 24 + (i / 24 * 4) * 6) by lia.
    apply Nat.Div0.mod_add. }
  reflexivity.
Qed.

Lemma aliquot_targets_found (i : nat) :
  aliquot_targets i = ([], Py.Ok (cell_wells i)).
Proof.
  assert (forall j, j < 24 -> aliquot_targets j = ([], Py.Ok (cell_wells j))) as H.
  { assert (forallb (fun j => match aliquot_targets j with
                              | ([], Py.Ok _) => true
                              | _ => false
                              end) (seq 0 24) = true) as F
        by (vm_compute; reflexivity).
    intros j Hj. rewrite forallb_forall in F.
    specialize (F j ltac:(apply in_seq; lia)).
    unfold cell_wells.
    destruct (aliquot_targets j) as [[|e l] [ws|e']]; try discriminate.
    reflexivity. }
  unfold cell_wells. rewrite aliquot_targets_period.
  rewrite (H (i mod 24)) by (apply Nat.mod_upper_bound; lia).
  unfold cell_wells. rewrite (H (i mod 24)) by (apply Nat.mod_upper_bound; lia).
  reflexivity.
Qed.

Lemma cell_wells_period (i : nat) : cell_wells i = cell_wells (i mod 24).
Proof. unfold cell_wells. rewrite aliquot_targets_period. reflexivity. Qed.

Lemma dispensed_wells_app (l1 l2 : list event) :
  dispensed_wells (l1 ++ l2) = dispensed_wells l1 ++ dispensed_wells l2.
Proof. apply flat_map_app. Qed.

Lemma dispensed_wells_loop (v : Q) (ws : list well) :
  for_each ws (fun loc _ => emit (dispense p1000 v (at_well loc))) tt
  = (map (fun w => dispense p1000 v (at_well w)) ws, Py.Ok tt).
Proof.
  induction ws as [|w ws IH]; [reflexivity|].
  rewrite for_each_cons. cbn [emit bind]. rewrite IH. reflexivity.
Qed.

(** One turn of the loop that ends without an exception: the tip it took,
    the counters it leaves and the calls it made. *)
Lemma aliquot_body_ok (p : params) (tips200_by_row tips1000_by_row : list well)
  (i : nat) (src : well) (k k' : counters) :
  outcome (aliquot_body p tips200_by_row tips1000_by_row (i, src) k) = Py.Ok k' ->
  exists tip,
    (if Nat.leb (aliquot_vol p * 4) 200
     then nth_error tips200_by_row (counter_200 k) = Some tip
          /\ k' = Counters (counter_1000 k) (S (counter_200 k))
     else nth_error tips1000_by_row (counter_1000 k) = Some tip
          /\ k' = Counters (S (counter_1000 k)) (counter_200 k))
    /\ log (aliquot_body p tips200_by_row tips1000_by_row (i, src) k)
       = [pick_up_tip p1000 tip;
          flow_rate_aspirate p1000 716; flow_rate_dispense p1000 716;
          mix p1000 5 (vol (reagent_vol p)) (at_well src);
          flow_rate_aspirate p1000 35; flow_rate_dispense p1000 57;
          aspirate p1000 (vol (aliquot_vol p * 4)) (at_well src)]
         ++ map (fun w => dispense p1000 (vol (aliquot_vol p)) (at_well w))
                (cell_wells i)
         ++ [drop_tip p1000].
Proof.
  unfold aliquot_body. rewrite aliquot_targets_found.
  cbn [bind]. cbv beta iota.
  destruct (Nat.leb (aliquot_vol p * 4) 200); unfold Py.index.
  - destruct (nth_error tips200_by_row (counter_200 k)) as [tip|];
      [|discriminate].
    cbn [lift bind ret emit app]. rewrite dispensed_wells_loop.
    cbn [bind ret emit app outcome snd log fst].
    intro H. injection H as <-. exists tip. split; [now split|].
    reflexivity.
  - destruct (nth_error tips1000_by_row (counter_1000 k)) as [tip|];
      [|discriminate].
    cbn [lift bind ret emit app]. rewrite dispensed_wells_loop.
    cbn [bind ret emit app outcome snd log fst].
    intro H. injection H as <-. exists tip. split; [now split|].
    reflexivity.
Qed.

Lemma dispensed_wells_map (v : Q) (ws : list well) :
  dispensed_wells (map (fun w => dispense p1000 v (at_well w)) ws) = ws.
Proof.
  induction ws as [|w ws IH]; [reflexivity|].
  cbn [map]. change (dispensed_wells (?e :: ?l)) with (w :: dispensed_wells l).
  now rewrite IH.
Qed.

Lemma picked_map_dispense (v : Q) (ws : list well) :
  picked p1000 (map (fun w => dispense p1000 v (at_well w)) ws) = [].
Proof. induction ws as [|w ws IH]; [reflexivity|exact IH]. Qed.

Lemma aliquot_loop (p : params) (tips200_by_row tips1000_by_row : list well) :
  forall (dests : list well) (a : nat) (k k' : counters),
    outcome (for_each (combine (seq a (List.length dests)) dests)
               (aliquot_body p tips200_by_row tips1000_by_row) k) = Py.Ok k' ->
    let l := log (for_each (combine (seq a (List.length dests)) dests)
                    (aliquot_body p tips200_by_row tips1000_by_row) k) in
    dispensed_wells l = flat_map cell_wells (seq a (List.length dests))
    /\ picked p1000 l
       = firstn (List.length dests)
                (used_tips p tips200_by_row tips1000_by_row k)
    /\ List.length (picked p1000 l) = List.length dests
    /\ k' = if Nat.leb (aliquot_vol p * 4) 200
            then Counters (counter_1000 k) (counter_200 k + List.length dests)
            else Counters (counter_1000 k + List.length dests) (counter_200 k).
Proof.
  induction dests as [|d dests IH]; intros a k k' H.
  - cbn in H. injection H as <-. cbn. rewrite !Nat.add_0_r.
    repeat split. destruct k; now destruct (Nat.leb _ _).
  - cbn [List.length seq combine] in *.
    rewrite for_each_cons in *. rewrite outcome_bind in H. rewrite log_bind.
    destruct (outcome (aliquot_body p tips200_by_row tips1000_by_row (a, d) k))
      as [k1|e] eqn:E; [|discriminate].
    destruct (aliquot_body_ok _ _ _ _ _ _ _ E) as (tip & Htip & Hlog).
    destruct (IH (S a) k1 k' H) as (Hd & Hp & Hn & Hc).
    cbv zeta. rewrite Hlog.
    rewrite dispensed_wells_app, Hd, picked_app, Hp.
    rewrite !dispensed_wells_app, dispensed_wells_map.
    cbn [flat_map]. change (dispensed_wells [_; _; _; _; _; _; _]) with (@nil well).
    change (dispensed_wells [drop_tip p1000]) with (@nil well).
    rewrite app_nil_r.
    split; [reflexivity|].
    rewrite !picked_app, picked_map_dispense.
    change (picked p1000 [drop_tip p1000]) with (@nil well).
    change (picked p1000 [pick_up_tip p1000 tip; _; _; _; _; _; _]) with [tip].
    cbn [app].
    unfold used_tips in *.
    destruct (Nat.leb (aliquot_vol p * 4) 200); destruct Htip as (Hnth & ->);
      cbn [counter_200 counter_1000] in *.
    + rewrite (skipn_nth_cons _ _ _ Hnth). cbn [firstn].
      split; [reflexivity|]. split; [|rewrite Hc; f_equal; lia].
      rewrite <- Hn at 2. rewrite Hp. reflexivity.
    + rewrite (skipn_nth_cons _ _ _ Hnth). cbn [firstn].
      split; [reflexivity|]. split; [|rewrite Hc; f_equal; lia].
      rewrite <- Hn at 2. rewrite Hp. reflexivity.
Qed.

Lemma well_eq_dec (x y : well) : {x = y} + {x <> y}.
Proof.
  decide equality; [apply string_dec|decide equality].
Defined.

Lemma NoDup_by_nodup {A} (dec : forall x y : A, {x = y} + {x <> y}) (l : list A) :
  nodup dec l = l -> NoDup l.
Proof. intro H. rewrite <- H. apply NoDup_nodup. Qed.

Lemma NoDup_firstn {A} (n : nat) (l : list A) : NoDup l -> NoDup (firstn n l).
Proof.
  intro H. rewrite <- (firstn_skipn n l) in H.
  exact (NoDup_app_remove_r _ _ H).
Qed.

Lemma NoDup_skipn {A} (n : nat) (l : list A) : NoDup l -> NoDup (skipn n l).
Proof.
  intro H. rewrite <- (firstn_skipn n l) in H.
  exact (NoDup_app_remove_l _ _ H).
Qed.

Lemma cell_wells_first_24 : NoDup (flat_map cell_wells (seq 0 24)).
Proof. apply (NoDup_by_nodup well_eq_dec). vm_compute. reflexivity. Qed.

Lemma flat_map_seq_prefix {A} (f : nat -> list A) (n m : nat) :
  n <= m ->
  flat_map f (seq 0 m) = flat_map f (seq 0 n) ++ flat_map f (seq n (m - n)).
Proof.
  intro H. replace m with (n + (m - n)) at 1 by lia.
  rewrite seq_app, flat_map_app. reflexivity.
Qed.

Lemma NoDup_app_disjoint {A} (l1 l2 : list A) (x : A) :
  NoDup (l1 ++ l2) -> In x l1 -> ~ In x l2.
Proof.
  induction l1 as [|a l1 IH]; intros N H1 H2; [contradiction|].
  cbn [app] in N. apply NoDup_cons_iff in N. destruct N as (Na & N).
  destruct H1 as [->|H1].
  - apply Na. apply in_or_app. now right.
  - exact (IH N H1 H2).
Qed.

(** X20. When the aliquoting loop ends without an exception, no well of
    the cell plate is dispensed into twice exactly when there are at most
    24 mixes: the mix of index 24 goes into the four wells of the mix of
    index 0. *)
Theorem cell_wells_used_once_up_to_24 (p : params)
  (tips200_by_row tips1000_by_row dests : list well) (k k' : counters) :
  outcome (aliquot p tips200_by_row tips1000_by_row dests k) = Py.Ok k' ->
  NoDup (dispensed_wells (log (aliquot p tips200_by_row tips1000_by_row dests k)))
  <-> List.length dests <= 24.
Proof.
  rewrite aliquot_unfold. intro H.
  destruct (aliquot_loop _ _ _ _ _ _ _ H) as (-> & _).
  split.
  - intro N. destruct (Nat.le_gt_cases (List.length dests) 24) as [L|G]; [exact L|].
    exfalso. rewrite (flat_map_seq_prefix _ 24) in N by lia.
    replace (List.length dests - 24) with (S (List.length dests - 25)) in N by lia.
    cbn [seq flat_map] in N.
    apply (NoDup_app_disjoint _ _ (Well cell_plate "A1") N).
    + apply in_or_app. left. now left.
    + apply in_or_app. left. rewrite cell_wells_period. now left.
  - intro L. pose proof cell_wells_first_24 as N.
    rewrite (flat_map_seq_prefix _ (List.length dests)) in N by exact L.
    exact (NoDup_app_remove_r _ _ N).
Qed.

Lemma picked_none (pip : pipette) (l : list event) :
  Forall (fun e => is_pick_up_tip e = false) l -> picked pip l = [].
Proof.
  induction 1 as [|e l He _ IH]; [reflexivity|].
  unfold picked in *. cbn [flat_map]. rewrite IH.
  destruct e; try reflexivity; discriminate.
Qed.

Lemma destination_wells_no_pick (p : params) :
  Forall (fun e => is_pick_up_tip e = false) (log (destination_wells p)).
Proof.
  unfold destination_wells.
  apply log_Forall_bind; [apply log_Forall_lift|]. intros g _.
  destruct (Nat.ltb _ _).
  - apply log_Forall_bind; [now apply log_Forall_emit|]. intros; constructor.
  - destruct (Nat.ltb _ _).
    + apply log_Forall_bind; [now apply log_Forall_emit|]. intros; constructor.
    + apply log_Forall_for_each. intros x s _.
      apply log_Forall_bind; [apply log_Forall_lift|]. intros; constructor.
Qed.

Lemma distribute_body_no_pick (p : params) (source : well) (dests : list well)
  (i : nat) (v : Q) :
  Forall (fun e => is_pick_up_tip e = false)
         (log (distribute_body p source dests i v)).
Proof.
  unfold distribute_body.
  apply log_Forall_bind.
  - destruct (Py.Qlt_bool _ _); [|constructor].
    apply log_Forall_bind.
    + destruct (premix p); [|constructor].
      repeat (apply log_Forall_bind; [now apply log_Forall_emit|intros _ _]).
      now apply log_Forall_emit.
    + intros _ _.
      apply log_Forall_bind; [now apply log_Forall_emit|]. intros; constructor.
  - intros v' _.
    apply log_Forall_bind; [apply log_Forall_lift|]. intros w _.
    repeat (apply log_Forall_bind; [now apply log_Forall_emit|intros _ _]).
    constructor.
Qed.

Lemma distribute_no_pick (p : params) (source : well) (dests : list well) :
  Forall (fun e => is_pick_up_tip e = false) (log (distribute p source dests)).
Proof.
  rewrite distribute_unfold.
  apply log_Forall_bind; [|intros; constructor].
  apply log_Forall_for_each. intros. apply distribute_body_no_pick.
Qed.

Lemma tips_by_row_NoDup (rack : labware) : NoDup (tips_by_row rack).
Proof.
  apply (NoDup_by_nodup well_eq_dec). destruct rack; vm_compute; reflexivity.
Qed.

Lemma tips_by_row_rack (rack : labware) (w : well) :
  In w (tips_by_row rack) -> well_labware w = rack.
Proof.
  unfold tips_by_row. intro H. apply in_map_iff in H.
  destruct H as (n & <- & _). reflexivity.
Qed.

Lemma filter_all {A} (f : A -> bool) (l : list A) :
  (forall x, In x l -> f x = true) -> filter f l = l.
Proof.
  induction l as [|a l IH]; intro H; [reflexivity|].
  cbn [filter]. rewrite (H a) by now left.
  rewrite IH; [reflexivity|]. intros x Hx. apply H. now right.
Qed.

Lemma filter_none {A} (f : A -> bool) (l : list A) :
  (forall x, In x l -> f x = false) -> filter f l = [].
Proof.
  induction l as [|a l IH]; intro H; [reflexivity|].
  cbn [filter]. rewrite (H a) by now left.
  apply IH. intros x Hx. apply H. now right.
Qed.

Lemma In_firstn_skipn {A} (n m : nat) (l : list A) (x : A) :
  In x (firstn n (skipn m l)) -> In x l.
Proof.
  intro H. rewrite <- (firstn_skipn m l). apply in_or_app. right.
  rewrite <- (firstn_skipn n (skipn m l)). apply in_or_app. now left.
Qed.

Lemma cell_wells_used_once_up_to_24_witness :
  let p := Params 3 88 20 "D6" "G11" 2 2 15 "A1" "A1" false 2 in
  let dests := map (Well pcr_plate) ["G11"; "G12"; "H11"] in
  NoDup (dispensed_wells
           (log (aliquot p (tips_by_row tiprack_200) (tips_by_row tiprack_1000)
                   dests (Counters 1 0)))).
Proof.
  intros p dests.
  apply (proj2 (cell_wells_used_once_up_to_24 p (tips_by_row tiprack_200)
                  (tips_by_row tiprack_1000) dests (Counters 1 0) (Counters 1 3)
                  ltac:(vm_compute; reflexivity))).
  simpl. lia.
Defined.

Lemma bind_lift_ok {A B} (a : A) (f : A -> L B) :
  bind (lift (Py.Ok a)) f = f a.
Proof. unfold bind, lift. destruct (f a). reflexivity. Qed.

(** X21. In a run of the aliquoting protocol that ends without an
    exception no tip is picked up twice, and the two numbers printed at
    the end are the numbers of tips taken from the 1000 µL rack and from
    the 200 µL rack. *)
Theorem tips_used_once_and_counted (p : params) :
  outcome (run p) = Py.Ok tt ->
  NoDup (picked p1000 (log (run p)))
  /\ exists l k,
       log (run p)
       = l ++ [print [lit "Tips used — 1000 µL:"; fint (counter_1000 k)];
               print [lit "Tips used — 200 µL:"; fint (counter_200 k)]]
       /\ counter_1000 k = List.length (picked_from tiprack_1000 p1000 (log (run p)))
       /\ counter_200 k = List.length (picked_from tiprack_200 p1000 (log (run p))).
Proof.
  intro H. unfold run in *. cbv zeta in *.
  destruct (find_tip_index (tips_by_row tiprack_200) _) as [i200|e];
    [|discriminate H].
  rewrite bind_lift_ok in *.
  destruct (find_tip_index (tips_by_row tiprack_1000) _) as [i1000|e];
    [|discriminate H].
  rewrite bind_lift_ok in *.
  destruct (getwell reagent_plate _) as [source|e]; [|discriminate H].
  pose proof (destination_wells_no_pick p) as Pd.
  destruct (destination_wells p) as [ld [dests|e]]; [|discriminate H].
  cbn [bind lift emit ret outcome log fst snd app] in H |- *.
  destruct (Py.index (skipn i1000 (tips_by_row tiprack_1000)) 0)
    as [tip|e] eqn:Etip; [|discriminate H].
  pose proof (distribute_no_pick p source dests) as Pdist.
  destruct (distribute p source dests) as [ldist [[]|e]]; [|discriminate H].
  pose proof (aliquot_loop p (skipn i200 (tips_by_row tiprack_200))
                (skipn i1000 (tips_by_row tiprack_1000)) dests 0 (Counters 1 0))
    as Hal.
  rewrite <- aliquot_unfold in Hal.
  destruct (aliquot p _ _ dests (Counters 1 0)) as [la [k|e]];
    [|discriminate H].
  specialize (Hal k eq_refl). cbn [log fst] in Hal, Pd, Pdist.
  destruct Hal as (_ & Hp & Hn & Hk).
  cbn [bind lift emit ret outcome log fst snd app].
  clear H. cbn [counter_1000 counter_200] in Hk. unfold used_tips in Hp.
  cbn [counter_1000 counter_200] in Hp.
  unfold Py.index in Etip.
  destruct (nth_error (skipn i1000 (tips_by_row tiprack_1000)) 0)
    as [tip'|] eqn:Enth; [|discriminate Etip].
  injection Etip as ->.
  pose proof (skipn_nth_cons _ _ _ Enth) as Hcons. cbn [skipn] in Hcons.
  assert (well_labware tip = tiprack_1000) as Htip.
  { apply tips_by_row_rack. apply (In_firstn_skipn 1 i1000).
    rewrite Hcons. now left. }
  match goal with
  | |- NoDup (picked p1000 ?L) /\ _ =>
      assert (picked p1000 L = tip :: picked p1000 la) as HP
  end.
  { change (picked p1000
              ([flow_rate_aspirate p1000 35; flow_rate_dispense p1000 57]
               ++ ld ++ [close_labware_latch; pick_up_tip p1000 tip]
               ++ ldist ++ [drop_tip p1000; delay (delay_minutes p)]
               ++ la ++ [open_labware_latch;
                         print [lit "Tips used — 1000 µL:"; fint (counter_1000 k)];
                         print [lit "Tips used — 200 µL:"; fint (counter_200 k)]])
            = tip :: picked p1000 la).
    rewrite !picked_app, (picked_none _ ld Pd), (picked_none _ ldist Pdist).
    cbn. rewrite app_nil_r. reflexivity. }
  unfold picked_from. rewrite HP. clear HP. rewrite Hp in Hn |- *. clear Hp.
  destruct (Nat.leb (aliquot_vol p * 4) 200).
  - assert (forall w, In w (firstn (List.length dests)
                              (skipn i200 (tips_by_row tiprack_200))) ->
                      well_labware w = tiprack_200) as H200.
    { intros w Hw. apply tips_by_row_rack.
      apply (In_firstn_skipn _ _ _ _ Hw). }
    split.
    + constructor.
      * intro Hin. apply H200 in Hin. congruence.
      * apply NoDup_firstn, (NoDup_skipn i200), tips_by_row_NoDup.
    + eexists (_ :: _ :: ld ++ _ :: _ :: ldist ++ _ :: _ :: la ++ [_]), k.
      split.
      { cbn [app]. do 2 f_equal. rewrite <- app_assoc. f_equal.
        cbn [app]. do 2 f_equal. rewrite <- app_assoc. f_equal.
        cbn [app]. do 2 f_equal. rewrite <- app_assoc. reflexivity. }
      subst k. cbn [counter_1000 counter_200 filter]. rewrite Htip.
      cbn [labware_eqb]. split.
      * rewrite filter_none; [reflexivity|].
        intros w Hw. rewrite (H200 w Hw). reflexivity.
      * rewrite filter_all; [cbn [skipn] in Hn |- *; rewrite Hn; reflexivity|].
        intros w Hw. rewrite (H200 w Hw). reflexivity.
  - cbn [skipn] in Hn |- *.
    set (rest := match skipn i1000 (tips_by_row tiprack_1000) with
                 | [] => []
                 | _ :: l => l
                 end) in *.
    assert (forall w, In w (tip :: firstn (List.length dests) rest) ->
                      well_labware w = tiprack_1000) as H1000.
    { intros w Hw. apply tips_by_row_rack.
      apply (In_firstn_skipn (S (List.length dests)) i1000).
      rewrite Hcons. exact Hw. }
    split.
    + change (NoDup (firstn (S (List.length dests)) (tip :: rest))).
      rewrite <- Hcons.
      apply NoDup_firstn, (NoDup_skipn i1000), tips_by_row_NoDup.
    + eexists (_ :: _ :: ld ++ _ :: _ :: ldist ++ _ :: _ :: la ++ [_]), k.
      split.
      { cbn [app]. do 2 f_equal. rewrite <- app_assoc. f_equal.
        cbn [app]. do 2 f_equal. rewrite <- app_assoc. f_equal.
        cbn [app]. do 2 f_equal. rewrite <- app_assoc. reflexivity. }
      subst k. cbn [counter_1000 counter_200]. split.
      * rewrite filter_all.
        -- cbn [List.length]. rewrite Hn. reflexivity.
        -- intros w Hw. rewrite (H1000 w Hw). reflexivity.
      * rewrite filter_none; [reflexivity|].
        intros w Hw. rewrite (H1000 w Hw). reflexivity.
Qed.

Lemma tips_used_once_and_counted_witness :
  NoDup (picked p1000
           (log (run (Params 3 88 20 "D6" "G11" 2 2 15 "A1" "A1" false 2)))).
Proof.
  exact (proj1 (tips_used_once_and_counted
                  (Params 3 88 20 "D6" "G11" 2 2 15 "A1" "A1" false 2)
                  ltac:(vm_compute; reflexivity))).
Defined.

End AliquotingCellPlate.

(** ** From the allocator to the transfers *)

Section TransferVessels.
Import DNAmix_final.

Lemma filter_length_firstn {A} (f : A -> bool) (n : nat) (l : list A) :
  List.length (filter f (firstn n l)) <= List.length (filter f l).
Proof.
  rewrite <- (firstn_skipn n l) at 2. rewrite filter_app, length_app. lia.
Qed.

Lemma map_fst_combine {A B} (l : list A) (l' : list B) :
  map fst (combine l l') = firstn (List.length l') l.
Proof.
  revert l'. induction l as [|a l IH]; intros [|b l']; simpl; try reflexivity.
  - f_equal. apply IH.
Qed.

Lemma separate_unfold (m : well_map) (d : mix_data) :
  separate m d
  = fold_left (separate_step m d) (combine (volumes d) (source_wells d))
              (Py.Ok (Components [] [] [] [])).
Proof. reflexivity. Qed.

Lemma separate_step_raise (m : well_map) (d : mix_data) (e : Py.exn)
  (vs : Q * string) :
  separate_step m d (Py.Raise e) vs = Py.Raise e.
Proof. destruct vs. reflexivity. Qed.

Lemma fold_separate_raise (m : well_map) (d : mix_data) (e : Py.exn)
  (xs : list (Q * string)) :
  fold_left (separate_step m d) xs (Py.Raise e) = Py.Raise e.
Proof.
  induction xs as [|x xs IH]; [reflexivity|].
  cbn [fold_left]. rewrite separate_step_raise. exact IH.
Qed.

Lemma separate_small_bound (m : well_map) (d : mix_data) :
  forall (xs : list (Q * string)) (c c' : components),
    fold_left (separate_step m d) xs (Py.Ok c) = Py.Ok c' ->
    List.length (small_volumes c') = List.length (small_volumes c)
    \/ exists scale,
         Py.index (scale_factors d) 0 = Py.Ok scale
         /\ List.length (small_volumes c')
            <= List.length (small_volumes c)
               + List.length (filter (fun v => is_small (v / scale)%Q) (map fst xs)).
Proof.
  induction xs as [|[vol src] xs IH]; intros c c' H.
  - injection H as <-. now left.
  - cbn [fold_left] in H. unfold separate_step at 2 in H.
    destruct (is_nacl m src).
    + destruct (IH c c' H) as [E|(scale & Hs & Hle)]; [now left|].
      right. exists scale. split; [exact Hs|].
      cbn [map fst filter]. destruct (is_small _); cbn [List.length]; lia.
    + destruct (Py.index (scale_factors d) 0) as [scale|e] eqn:Es.
      * right. exists scale. split; [reflexivity|].
        cbn [map fst filter].
        destruct (is_small (vol / scale)%Q);
          (destruct (IH _ c' H) as [E|(scale' & Hs & Hle)];
           [|injection Hs as <-]);
          cbn [small_volumes List.length] in *;
          rewrite ?length_app in *; cbn [List.length] in *; lia.
      * rewrite fold_separate_raise in H. discriminate.
Qed.

Lemma separate_small_count (m : well_map) (d : mix_data) (c : components) :
  separate m d = Py.Ok c ->
  small_volumes c <> [] ->
  exists scale,
    Py.index (scale_factors d) 0 = Py.Ok scale
    /\ List.length (small_volumes c) <= small_volumes_count d scale.
Proof.
  rewrite separate_unfold. intros H Hne.
  destruct (separate_small_bound m d _ _ _ H) as [E|(scale & Hs & Hle)].
  - cbn in E. destruct (small_volumes c); [contradiction|discriminate].
  - exists scale. split; [exact Hs|].
    cbn [small_volumes List.length] in Hle. unfold small_volumes_count.
    rewrite map_fst_combine in Hle.
    pose proof (filter_length_firstn (fun v => is_small (v / scale)%Q)
                  (List.length (source_wells d)) (volumes d)).
    lia.
Qed.

Lemma get_set_keeps {V} (dct : list (string * V)) (k k' : string) (v w : V) :
  Py.get dct k' = Some w -> exists w', Py.get (Py.set dct k v) k' = Some w'.
Proof.
  intro H. destruct (string_dec k' k) as [->|Hne].
  - exists v. apply get_set_same.
  - exists w. rewrite get_set_other by exact Hne. exact H.
Qed.

Lemma keeps_keys_refl (s : vessels) : keeps_keys s s.
Proof. split; intros k w H; now exists w. Qed.

Lemma keeps_keys_trans (s1 s2 s3 : vessels) :
  keeps_keys s1 s2 -> keeps_keys s2 s3 -> keeps_keys s1 s3.
Proof.
  intros [F1 S1] [F2 S2]. split; intros k w H.
  - destruct (F1 k w H) as (w' & H'). exact (F2 k w' H').
  - destruct (S1 k w H) as (w' & H'). exact (S2 k w' H').
Qed.

Lemma assign_step_next (d : mix_data) (s s' : vessels) :
  outcome (assign_step d s) = Py.Ok (Next s') ->
  exists scale,
    Py.index (scale_factors d) 0 = Py.Ok scale
    /\ (1 <= small_volumes_count d scale ->
        exists w, Py.get (assigned_final_wells s') (dest_well d) = Some w)
    /\ (2 <= small_volumes_count d scale ->
        exists w, Py.get (assigned_small_wells s') (dest_well d) = Some w)
    /\ keeps_keys s s'.
Proof.
  unfold assign_step.
  destruct (Py.index (scale_factors d) 0) as [scale|e]; [|discriminate].
  rewrite bind_lift_ok. intro H. exists scale. split; [reflexivity|].
  destruct (Nat.ltb 1 (small_volumes_count d scale)) eqn:E1.
  - apply Nat.ltb_lt in E1.
    destruct (intermediate_small_pool s) as [|small_well small_rest];
      [discriminate H|].
    destruct (intermediate_final_pool s) as [|final_well final_rest];
      [discriminate H|].
    destruct (getwell plasmid_plate small_well) as [ws|e]; [|discriminate H].
    destruct (getwell plasmid_plate final_well) as [wf|e]; [|discriminate H].
    cbn in H. injection H as <-. cbn [assigned_final_wells assigned_small_wells].
    split; [intros _; eexists; apply get_set_same|].
    split; [intros _; eexists; apply get_set_same|].
    split; intros k w Hk; eapply get_set_keeps; exact Hk.
  - apply Nat.ltb_ge in E1.
    destruct (Nat.eqb (small_volumes_count d scale) 1) eqn:E2.
    + destruct (intermediate_pool s) as [|final_well rest]; [discriminate H|].
      destruct (getwell plasmid_plate final_well) as [wf|e]; [|discriminate H].
      cbn in H. injection H as <-.
      cbn [assigned_final_wells assigned_small_wells].
      split; [intros _; eexists; apply get_set_same|].
      split; [intro; lia|].
      split; intros k w Hk; [eapply get_set_keeps; exact Hk|now exists w].
    + apply Nat.eqb_neq in E2. cbn in H. injection H as <-.
      split; [intro; lia|]. split; [intro; lia|]. apply keeps_keys_refl.
Qed.

Lemma assign_wells_keeps (all_mix_data : list mix_data) :
  forall s s',
    outcome (assign_wells all_mix_data s) = Py.Ok (Next s') -> keeps_keys s s'.
Proof.
  induction all_mix_data as [|d r IH]; intros s s' H.
  - cbn in H. injection H as <-. apply keeps_keys_refl.
  - cbn [assign_wells] in H. rewrite outcome_bind in H.
    destruct (outcome (assign_step d s)) as [[s1|s1]|e] eqn:E;
      [|discriminate H|discriminate H].
    destruct (assign_step_next d s s1 E) as (_ & _ & _ & _ & K).
    exact (keeps_keys_trans _ _ _ K (IH _ _ H)).
Qed.

Lemma assign_wells_assigned (all_mix_data : list mix_data) :
  forall s s' d,
    outcome (assign_wells all_mix_data s) = Py.Ok (Next s') ->
    In d all_mix_data ->
    exists scale,
      Py.index (scale_factors d) 0 = Py.Ok scale
      /\ (1 <= small_volumes_count d scale ->
          exists w, Py.get (assigned_final_wells s') (dest_well d) = Some w)
      /\ (2 <= small_volumes_count d scale ->
          exists w, Py.get (assigned_small_wells s') (dest_well d) = Some w).
Proof.
  induction all_mix_data as [|d0 r IH]; intros s s' d H Hin; [contradiction|].
  cbn [assign_wells] in H. rewrite outcome_bind in H.
  destruct (outcome (assign_step d0 s)) as [[s1|s1]|e] eqn:E;
    [|discriminate H|discriminate H].
  destruct Hin as [->|Hin].
  - destruct (assign_step_next d s s1 E) as (scale & Hs & Hf & Hsm & _).
    destruct (assign_wells_keeps r s1 s' H) as [KF KS].
    exists scale. split; [exact Hs|]. split; intro Hn.
    + destruct (Hf Hn) as (w & Hw). exact (KF _ _ Hw).
    + destruct (Hsm Hn) as (w & Hw). exact (KS _ _ Hw).
  - exact (IH s1 s' d H Hin).
Qed.

(** X22. When the allocator has gone through all mixes without leaving
    its loop, the transfers of every one of them find the vessels they
    look up: a final vessel when the mix has a small plasmid volume, and
    a small vessel too when it has two or more. The allocator counts the
    small volumes among all components and the transfers among the
    plasmids only, so it never assigns less than the transfers need. *)
Theorem transfers_find_their_vessels (m : well_map)
  (all_mix_data : list mix_data) (s0 s : vessels) (d : mix_data)
  (c : components) :
  outcome (assign_wells all_mix_data s0) = Py.Ok (Next s) ->
  In d all_mix_data ->
  separate m d = Py.Ok c ->
  (1 <= List.length (small_volumes c) ->
   exists w, Py.getitem (assigned_final_wells s) (dest_well d) = Py.Ok w)
  /\ (2 <= List.length (small_volumes c) ->
      exists w, Py.getitem (assigned_small_wells s) (dest_well d) = Py.Ok w).
Proof.
  intros Ha Hin Hc.
  destruct (assign_wells_assigned _ _ _ _ Ha Hin) as (scale & Hs & Hf & Hsm).
  assert (1 <= List.length (small_volumes c) ->
          List.length (small_volumes c) <= small_volumes_count d scale) as Hle.
  { intro Hn. destruct (separate_small_count m d c Hc) as (scale' & Hs' & Hle).
    - intro E. rewrite E in Hn. cbn in Hn. lia.
    - rewrite Hs in Hs'. injection Hs' as <-. exact Hle. }
  unfold Py.getitem. split; intro Hn.
  - destruct Hf as (w & ->); [specialize (Hle ltac:(lia)); lia|]. now exists w.
  - destruct Hsm as (w & ->); [specialize (Hle ltac:(lia)); lia|]. now exists w.
Qed.

Lemma transfers_find_their_vessels_witness :
  let d := MixData [0.5; 0.5; 100]%Q [1%Q] ["A1"; "A2"; "A3"] "B1" in
  let s := control_state
             (match outcome (assign_wells [d] initial_vessels) with
              | Py.Ok c => c
              | Py.Raise _ => Break initial_vessels
              end) in
  exists w, Py.getitem (assigned_small_wells s) "B1" = Py.Ok w.
Proof.
  intros d s.
  refine (proj2 (transfers_find_their_vessels [] [d] initial_vessels s d
                   (match separate [] d with
                    | Py.Ok c => c
                    | Py.Raise _ => Components [] [] [] []
                    end) _ _ _) _).
  - vm_compute. reflexivity.
  - now left.
  - vm_compute. reflexivity.
  - vm_compute. lia.
Defined.

End TransferVessels.

(** ** The printed tip counts *)

Section TipAccounting.
Import DNAmix_final.

Lemma tally_app (l1 l2 : list event) :
  tally (l1 ++ l2)
  = (fst (tally l1) + fst (tally l2), snd (tally l1) + snd (tally l2)).
Proof. unfold tally. rewrite !count_app. reflexivity. Qed.

Lemma tally_none (l : list event) :
  Forall (fun e => is_pick_up_tip e = false) l -> tally l = (0, 0).
Proof.
  induction 1 as [|e l He _ IH]; [reflexivity|].
  unfold tally, count in *. cbn [filter].
  destruct e; try discriminate He; try exact IH.
  all: destruct p; exact IH.
Qed.

Lemma accounted_bind {A B} (piA : A -> nat * nat) (piB : B -> nat * nat)
  (c : L A) (f : A -> L B) (n : nat * nat) :
  accounted piA c n ->
  (forall a, accounted piB (f a) (piA a)) ->
  accounted piB (bind c f) n.
Proof.
  unfold accounted. rewrite outcome_bind, log_bind.
  destruct (outcome c) as [a|e]; [|trivial].
  intros Ha Hf. specialize (Hf a).
  destruct (outcome (f a)) as [b|e]; [|trivial].
  rewrite Hf, Ha, tally_app. cbn [fst snd]. f_equal; lia.
Qed.

Lemma accounted_after {A B} (pi : B -> nat * nat) (c : L A) (f : A -> L B)
  (n : nat * nat) :
  Forall (fun e => is_pick_up_tip e = false) (log c) ->
  (forall a, accounted pi (f a) n) ->
  accounted pi (bind c f) n.
Proof.
  intros Hq Hf. apply (accounted_bind (fun _ => n)); [|exact Hf].
  unfold accounted. destruct (outcome c); [|trivial].
  rewrite (tally_none _ Hq). cbn [fst snd]. rewrite !Nat.add_0_r.
  now destruct n.
Qed.

Lemma accounted_ret {A} (pi : A -> nat * nat) (a : A) :
  accounted pi (ret a) (pi a).
Proof.
  unfold accounted. cbn. rewrite !Nat.add_0_r. now destruct (pi a).
Qed.

Lemma accounted_quiet {A} (pi : A -> nat * nat) (c : L A) (n : nat * nat) :
  Forall (fun e => is_pick_up_tip e = false) (log c) ->
  (forall a, outcome c = Py.Ok a -> pi a = n) ->
  accounted pi c n.
Proof.
  intros Hq Hn. unfold accounted.
  destruct (outcome c) as [a|e] eqn:E; [|trivial].
  rewrite (tally_none _ Hq), (Hn a eq_refl). cbn [fst snd].
  rewrite !Nat.add_0_r. now destruct n.
Qed.

Lemma accounted_for_each {X St} (pi : St -> nat * nat) (xs : list X)
  (body : X -> St -> L St) (s : St) :
  (forall x s, accounted pi (body x s) (pi s)) ->
  accounted pi (for_each xs body s) (pi s).
Proof.
  intro H. revert s. induction xs as [|x xs IH]; intro s.
  - apply accounted_ret.
  - rewrite for_each_cons. apply (accounted_bind pi); [apply H|exact IH].
Qed.

Lemma take_tip_200_accounted (t : tips) :
  accounted tip_counters (take_tip_200 t) (tip_counters t).
Proof.
  unfold take_tip_200, accounted.
  destruct (Py.pop0 (tips200_by_row t)) as [[tip rest]|e]; [|exact I].
  cbn. unfold tip_counters. cbn. f_equal; lia.
Qed.

Lemma take_tip_50_accounted (t : tips) :
  accounted tip_counters (take_tip_50 t) (tip_counters t).
Proof.
  unfold take_tip_50.
  apply (accounted_bind tip_counters).
  - destruct (tips50_by_row t); [|apply accounted_ret].
    unfold accounted, swap_rack50. cbn. unfold tip_counters. cbn.
    f_equal; lia.
  - intro t1. unfold accounted.
    destruct (Py.pop0 (tips50_by_row t1)) as [[tip rest]|e]; [|exact I].
    cbn. unfold tip_counters. cbn. f_equal; lia.
Qed.

Lemma take_tip_accounted (pip : pipette) (t : tips) :
  accounted tip_counters (take_tip pip t) (tip_counters t).
Proof.
  destruct pip; [apply take_tip_50_accounted|apply take_tip_200_accounted].
Qed.

Lemma log_Forall_ret {A} (Q : event -> Prop) (a : A) : Forall Q (log (ret a)).
Proof. constructor. Qed.

(** Solves goals that a log holds no tip pick-up. *)
Ltac nopick :=
  repeat first
    [ apply log_Forall_lift
    | apply log_Forall_ret
    | apply log_Forall_emit; reflexivity
    | apply log_Forall_for_each; intros
    | apply log_Forall_bind; [|intros]
    | match goal with
      | |- Forall _ (log (match ?x with _ => _ end)) => destruct x
      | |- Forall _ (log (let (_, _) := ?x in _)) => destruct x
      | |- Forall _ (log (if ?x then _ else _)) => destruct x
      end ].

(** Solves accounting goals on computations built from [bind], [emit],
    [lift], [ret] and the tip functions. *)
Ltac acct :=
  repeat first
    [ apply accounted_ret
    | match goal with
      | |- accounted _ (bind (take_tip_50 _) _) _ =>
          apply (accounted_bind tip_counters);
          [apply take_tip_50_accounted|intro]
      | |- accounted _ (bind (take_tip_200 _) _) _ =>
          apply (accounted_bind tip_counters);
          [apply take_tip_200_accounted|intro]
      | |- accounted _ (bind (take_tip _ _) _) _ =>
          apply (accounted_bind tip_counters);
          [apply take_tip_accounted|intro]
      | |- accounted _ (bind _ _) _ =>
          apply accounted_after; [solve [nopick]|intro]
      | |- accounted _ (if ?x then _ else _) _ => destruct x
      | |- accounted _ (match ?x with _ => _ end) _ => destruct x
      end ].

Lemma move_plasmid_accounted (pip : pipette) (vol : Q) (src : string)
  (dst : labware * string) (blow : bool) (t : tips) :
  accounted tip_counters (move_plasmid pip vol src dst blow t) (tip_counters t).
Proof. unfold move_plasmid. acct. Qed.

Lemma premix_source_accounted (m : well_map) (src : string) (t : tips) :
  accounted tip_counters (premix_source m src t) (tip_counters t).
Proof. unfold premix_source. acct. Qed.

Lemma stage_small_accounted (c : components) (w : string) (t : tips) :
  accounted tip_counters (stage_small c w t) (tip_counters t).
Proof.
  unfold stage_small. apply accounted_for_each. intros [vol src] s.
  destruct (_ && _); [apply move_plasmid_accounted|].
  destruct (_ && _); [apply move_plasmid_accounted|apply accounted_ret].
Qed.

Lemma transfer_normal_accounted (c : components) (dst : labware * string)
  (t : tips) :
  accounted tip_counters (transfer_normal c dst t) (tip_counters t).
Proof.
  unfold transfer_normal. apply accounted_for_each. intros [vol src] s.
  destruct (Qle_bool vol 0); [apply accounted_ret|apply move_plasmid_accounted].
Qed.

Lemma pool_to_final_accounted (c : components) (d : mix_data) (ws wf : string)
  (t : tips) :
  accounted tip_counters (pool_to_final c d ws wf t) (tip_counters t).
Proof.
  unfold pool_to_final. cbv zeta.
  apply (accounted_bind tip_counters); [|intro; acct].
  destruct (Qle_bool _ 50); acct.
Qed.

Lemma final_transfer_accounted (d : mix_data) (wf : string) (t : tips) :
  accounted tip_counters (final_transfer d wf t) (tip_counters t).
Proof. unfold final_transfer. cbv zeta. acct. Qed.

Lemma transfer_mix_accounted (m : well_map) (s : vessels) (d : mix_data)
  (t : tips) :
  accounted tip_counters (transfer_mix m s d t) (tip_counters t).
Proof.
  unfold transfer_mix.
  apply accounted_after; [solve [nopick]|intros _].
  apply accounted_after; [solve [nopick]|intro c].
  destruct (small_volumes c) as [|first_small more];
    [apply transfer_normal_accounted|].
  apply (accounted_bind
           (fun r : control (string * tips) =>
              tip_counters (snd (control_state r)))).
  - destruct more as [|v more].
    + apply accounted_after; [solve [nopick]|intro wf].
      cbv zeta.
      apply accounted_after; [solve [nopick]|intro src].
      apply accounted_after; [solve [nopick]|intros _].
      destruct (Qle_bool _ 0).
      * apply (accounted_ret
                 (fun r : control (string * tips) =>
                    tip_counters (snd (control_state r)))
                 (Break (wf, t))).
      * apply (accounted_bind tip_counters); [apply move_plasmid_accounted|].
        intro t1.
        apply (accounted_ret
                 (fun r : control (string * tips) =>
                    tip_counters (snd (control_state r)))
                 (Next (wf, t1))).
    + apply accounted_after; [solve [nopick]|intro ws].
      apply accounted_after; [solve [nopick]|intros _].
      apply (accounted_bind tip_counters); [apply stage_small_accounted|].
      intro t1.
      apply accounted_after; [solve [nopick]|intro wf].
      apply accounted_after; [solve [nopick]|intros _].
      apply (accounted_bind tip_counters); [apply pool_to_final_accounted|].
      intro t2.
      apply (accounted_ret
               (fun r : control (string * tips) =>
                  tip_counters (snd (control_state r)))
               (Next (wf, t2))).
  - intros [[wf t1]|[wf t1]]; cbn [control_state snd].
    + apply (accounted_bind tip_counters); [apply transfer_normal_accounted|].
      intro t2. apply final_transfer_accounted.
    + apply accounted_ret.
Qed.

Lemma premix_mix_accounted (p : params) (m : well_map) (d : mix_data)
  (st : list string * tips) :
  accounted (fun st => tip_counters (snd st)) (premix_mix p m d st)
            (tip_counters (snd st)).
Proof.
  unfold premix_mix.
  apply (accounted_for_each (fun st : list string * tips => tip_counters (snd st))).
  intros vs [ps t]. cbv zeta. cbn [snd].
  destruct (_ && _).
  - apply (accounted_bind tip_counters); [apply premix_source_accounted|].
    intro t1.
    apply (accounted_ret (fun st : list string * tips => tip_counters (snd st))
             (ps ++ [snd vs], t1)).
  - apply (accounted_ret (fun st : list string * tips => tip_counters (snd st))
             (ps, t)).
Qed.

Lemma process_mix_accounted (p : params) (m : well_map) (s : vessels)
  (d : mix_data) (st : list string * tips) :
  accounted (fun st => tip_counters (snd st)) (process_mix p m s d st)
            (tip_counters (snd st)).
Proof.
  unfold process_mix.
  apply (accounted_bind (fun st : list string * tips => tip_counters (snd st)));
    [apply premix_mix_accounted|].
  intros [ps t]. cbn [snd].
  apply (accounted_bind tip_counters); [apply transfer_mix_accounted|].
  intro t1.
  apply (accounted_ret (fun st : list string * tips => tip_counters (snd st))
           (ps, t1)).
Qed.

Lemma process_batch_accounted (p : params) (m : well_map) (s : vessels)
  (all_mix_data : list mix_data) (batch_start : nat) (t : tips) :
  accounted tip_counters (process_batch p m s all_mix_data batch_start t)
            (tip_counters t).
Proof.
  unfold process_batch. cbv zeta.
  apply accounted_after; [solve [nopick]|intros _].
  apply (accounted_bind (fun st : list string * tips => tip_counters (snd st))).
  - apply (accounted_for_each
             (fun st : list string * tips => tip_counters (snd st))
             _ _ ([], t)).
    intros. apply process_mix_accounted.
  - intros [ps t1]. apply accounted_ret.
Qed.

Lemma execute_transfers_accounted (p : params) (m : well_map) (s : vessels)
  (all_mix_data : list mix_data) (t : tips) :
  accounted tip_counters (execute_transfers p m s all_mix_data t)
            (tip_counters t).
Proof.
  unfold execute_transfers. apply accounted_for_each. intros.
  apply process_batch_accounted.
Qed.

Lemma dispense_group_no_pick (pip : pipette) (source : well)
  (g : list (well * Q)) :
  Forall (fun e => is_pick_up_tip e = false) (log (dispense_group pip source g)).
Proof. unfold dispense_group. nopick. Qed.

Lemma distribute_nacl_accounted (plan : nacl_plan) (entry : string * Q)
  (t : tips) :
  accounted tip_counters (distribute_nacl plan entry t) (tip_counters t).
Proof.
  unfold distribute_nacl. destruct entry as [source_well_name total_vol].
  cbv zeta.
  apply accounted_after; [solve [nopick]|intro source].
  apply (accounted_bind tip_counters); [apply take_tip_accounted|]. intro t1.
  apply accounted_after.
  - destruct (dispense_groups _ _); [constructor|].
    apply log_Forall_bind; [|intros; nopick].
    apply log_Forall_for_each. intros. apply dispense_group_no_pick.
  - intros _. acct.
Qed.

Lemma execute_nacl_accounted (plan : nacl_plan) (t : tips) :
  accounted tip_counters (execute_nacl plan t) (tip_counters t).
Proof.
  unfold execute_nacl. apply accounted_for_each. intros.
  apply distribute_nacl_accounted.
Qed.

Lemma no_physical_no_pick (l : list event) :
  no_physical l -> Forall (fun e => is_pick_up_tip e = false) l.
Proof.
  unfold no_physical. apply Forall_impl. intros e He.
  destruct e; try reflexivity; discriminate He.
Qed.

Lemma tally_quiet (l : list event) : no_physical l -> tally l = (0, 0).
Proof. intro H. apply tally_none, no_physical_no_pick, H. Qed.

Lemma init_tips_counters (p : params) (t : tips) :
  outcome (init_tips p) = Py.Ok t -> tip_counters t = (0, 0).
Proof.
  unfold init_tips.
  destruct (find_tip_index (tips_by_row tiprack_50) _) as [i50|e];
    [|discriminate].
  destruct (find_tip_index (tips_by_row tiprack_200) _) as [i200|e];
    [|discriminate].
  cbn. intro H. injection H as <-. reflexivity.
Qed.

Lemma parse_csv_none (p : params) (csv_data : table) (m : well_map)
  (l : list event) :
  parse_csv p csv_data m = (l, Py.Ok None) ->
  exists l' msg, l = l' ++ [pause msg].
Proof.
  unfold parse_csv. destruct (parse_all p csv_data m) as [l0 [a|e]].
  - discriminate.
  - intro H. injection H as <-. eexists _, _. reflexivity.
Qed.

Lemma tally_cons (e : event) (l : list event) :
  tally (e :: l)
  = (fst (tally [e]) + fst (tally l), snd (tally [e]) + snd (tally l)).
Proof. exact (tally_app [e] l). Qed.

(** X24. A run that ends without an exception either stopped at the
    parser, with a pause as its last call and no physical call at all,
    or ends with the two printed lines, and the numbers on them are the
    numbers of tips picked up during the run with the 1000 µL pipette
    and with the 50 µL pipette: every pick-up is counted once, and the
    swap of the 50 µL racks does not reset the printed counter. *)
Theorem printed_tip_counts_are_right (p : params) (csv_file : table) :
  outcome (run p csv_file) = Py.Ok tt ->
  (exists l,
     log (run p csv_file)
     = l ++ [print [lit "Tips200 used:";
                    fint (count (is_pick_up_by p1000) (log (run p csv_file)))];
             print [lit "Tips50 used:";
                    fint (count (is_pick_up_by p50) (log (run p csv_file)));
                    lit "
"]])
  \/ (exists l msg,
        log (run p csv_file) = l ++ [pause msg]
        /\ no_physical (log (run p csv_file))).
Proof.
  intro H. unfold run in *. cbv zeta in *.
  pose proof (init_tips_quiet p) as Q0.
  pose proof (init_tips_counters p) as C0.
  destruct (init_tips p) as [l0 [t|e]]; [|discriminate H].
  specialize (C0 t eq_refl).
  pose proof (register_plasmids_quiet (clean csv_file)) as Q1.
  destruct (register_plasmids (clean csv_file)) as [l1 [m0|e]];
    [|discriminate H].
  cbn [bind] in H |- *.
  pose proof (register_nacl_quiet p (clean csv_file) m0) as Q2.
  destruct (register_nacl p (clean csv_file) m0) as [l2 [m|e]];
    [|discriminate H].
  cbn [bind] in H |- *.
  pose proof (parse_csv_quiet p (clean csv_file) m) as Q3.
  pose proof (parse_csv_none p (clean csv_file) m) as N3.
  destruct (parse_csv p (clean csv_file) m) as [l3 [[all_mix_data|]|e]];
    [| |discriminate H]; cbn [bind] in H |- *.
  - left. unfold run_mixes in *.
    pose proof (assign_wells_quiet all_mix_data initial_vessels) as Q4.
    destruct (assign_wells all_mix_data initial_vessels) as [l4 [c|e]];
      [|discriminate H].
    cbn [bind emit] in H |- *. unfold dispatch_and_transfer in *.
    destruct (plan_nacl all_mix_data (control_state c)) as [plan|e];
      [|discriminate H].
    cbn [bind lift] in H |- *.
    pose proof (execute_nacl_accounted plan t) as A5.
    destruct (execute_nacl plan t) as [l5 [t1|e]]; [|discriminate H].
    cbn [bind] in H |- *.
    pose proof (execute_transfers_accounted p m (control_state c)
                  all_mix_data t1) as A6.
    destruct (execute_transfers p m (control_state c) all_mix_data t1)
      as [l6 [t2|e]]; [|discriminate H].
    unfold accounted in A5, A6. cbn [outcome log fst snd] in *.
    cbn [bind lift emit ret outcome log fst snd app]. clear H N3.
    match goal with
    | |- exists l, ?L = _ => assert (tally L = tip_counters t2) as HT
    end.
    { rewrite !tally_app, (tally_quiet _ Q0), (tally_quiet _ Q1),
        (tally_quiet _ Q2), (tally_quiet _ Q3), (tally_quiet _ Q4).
      rewrite tally_cons, !tally_app.
      rewrite (tally_none [close_labware_latch]) by (repeat constructor).
      rewrite (tally_none [_; _; _; _]) by (repeat constructor).
      rewrite A6, A5, C0. cbn [fst snd]. f_equal; lia. }
    unfold tally, tip_counters in HT. injection HT as H200 H50.
    rewrite H200, H50.
    exists (l0 ++ l1 ++ l2 ++ l3 ++ l4 ++ close_labware_latch :: l5 ++ l6 ++
            [comment [lit "
Protocol complete. Created "; fint (mix_count p);
                      lit " mixes including NaCl (150mM)."];
             open_labware_latch]).
    rewrite <- !app_assoc. cbn [app]. rewrite <- !app_assoc. reflexivity.
  - right. destruct (N3 l3 eq_refl) as (l' & msg & ->).
    cbn [bind lift emit ret outcome log fst snd app]. rewrite !app_nil_r.
    exists (l0 ++ l1 ++ l2 ++ l'), msg. split.
    + rewrite <- !app_assoc. reflexivity.
    + repeat (apply no_physical_app; [assumption|]). exact Q3.
Qed.

Lemma printed_tip_counts_are_right_witness :
  exists l,
    log (run Examples.one_mix Examples.single_small)
    = l ++ [print [lit "Tips200 used:"; fint 2];
            print [lit "Tips50 used:"; fint 4; lit "
"]].
Proof.
  destruct (printed_tip_counts_are_right Examples.one_mix Examples.single_small
              ltac:(vm_compute; reflexivity)) as [(l & H)|(l & msg & H & _)].
  - exists l. rewrite H at 1. reflexivity.
  - exfalso. apply (f_equal (@rev event)) in H.
    rewrite rev_app_distr in H. vm_compute in H. discriminate H.
Defined.

End TipAccounting.

(** ** Tips on and off the pipettes *)

Lemma tips_ok_app (s : hands) (l1 l2 : list event) :
  tips_ok s (l1 ++ l2)
  = match tips_ok s l1 with
    | Some s1 => tips_ok s1 l2
    | None => None
    end.
Proof.
  revert s. induction l1 as [|e l1 IH]; intro s; [reflexivity|].
  cbn [app tips_ok].
  destruct e; try apply IH; destruct (holds s p); try apply IH; reflexivity.
Qed.

Lemma moves_bind {A B} (s s1 s2 : hands) (c : L A) (f : A -> L B) :
  moves s s1 c -> (forall a, moves s1 s2 (f a)) -> moves s s2 (bind c f).
Proof.
  unfold moves. rewrite outcome_bind, log_bind.
  destruct (outcome c) as [a|e]; [|trivial].
  intros Hc Hf. specialize (Hf a). rewrite tips_ok_app, Hc.
  exact Hf.
Qed.

Lemma moves_ret {A} (s : hands) (a : A) : moves s s (ret a).
Proof. reflexivity. Qed.

Lemma moves_lift {A} (s : hands) (r : Py.result A) : moves s s (lift r).
Proof. unfold moves. destruct r; cbn; [reflexivity|discriminate]. Qed.

Lemma moves_emit (s s' : hands) (e : event) :
  tips_ok s [e] = Some s' -> moves s s' (emit e).
Proof. intro H. exact H. Qed.

Lemma moves_for_each {X St} (s : hands) (xs : list X)
  (body : X -> St -> L St) (st : St) :
  (forall x st, In x xs -> moves s s (body x st)) ->
  moves s s (for_each xs body st).
Proof.
  revert st. induction xs as [|x xs IH]; intros st H.
  - apply moves_ret.
  - rewrite for_each_cons. apply (moves_bind s s s).
    + apply H. now left.
    + intro a. apply IH. intros y st' Hy. apply H. now right.
Qed.

Lemma tips_ok_quiet (s : hands) (l : list event) :
  no_physical l -> tips_ok s l = Some s.
Proof.
  induction 1 as [|e l He _ IH]; [reflexivity|].
  destruct e; try discriminate He; exact IH.
Qed.

Lemma moves_quiet {A} (s : hands) (c : L A) :
  no_physical (log c) -> moves s s c.
Proof.
  intro H. unfold moves. rewrite (tips_ok_quiet s _ H).
  destruct (outcome c); [reflexivity|discriminate].
Qed.

Ltac tidy_step :=
  first
    [ apply moves_ret
    | apply moves_lift
    | apply moves_emit; reflexivity
    | match goal with
      | |- moves _ _ (bind (emit _) _) =>
          eapply moves_bind; [apply moves_emit; reflexivity|intros _]
      | |- moves _ _ (bind (lift _) _) =>
          eapply moves_bind; [apply moves_lift|intro]
      end ].

Section TipDiscipline.
Import DNAmix_final.

Lemma swap_rack50_moves (s : hands) (t : tips) : moves s s (swap_rack50 t).
Proof. unfold swap_rack50. repeat tidy_step. Qed.

Lemma take_tip_200_moves (h : bool) (t : tips) :
  moves (h, false) (h, true) (take_tip_200 t).
Proof.
  unfold take_tip_200.
  eapply moves_bind; [apply moves_lift|]. intros [tip rest]. repeat tidy_step.
Qed.

Lemma take_tip_50_moves (h : bool) (t : tips) :
  moves (false, h) (true, h) (take_tip_50 t).
Proof.
  unfold take_tip_50.
  apply (moves_bind _ (false, h)).
  - destruct (tips50_by_row t); [apply swap_rack50_moves|apply moves_ret].
  - intro t1. eapply moves_bind; [apply moves_lift|]. intros [tip rest]. repeat tidy_step.
Qed.

Lemma take_tip_moves (pip : pipette) (t : tips) :
  moves empty_hands (with_tip empty_hands pip true) (take_tip pip t).
Proof.
  destruct pip; [apply take_tip_50_moves|apply take_tip_200_moves].
Qed.

(** Solves goals on the tips of computations built from [bind], [emit],
    [lift] and [ret], from a known state. *)
Ltac tidy :=
  repeat first
    [ apply moves_ret
    | apply moves_lift
    | apply moves_emit; reflexivity
    | match goal with
      | |- moves _ _ (bind (emit _) _) =>
          eapply moves_bind; [apply moves_emit; reflexivity|intros _]
      | |- moves _ _ (bind (lift _) _) =>
          eapply moves_bind; [apply moves_lift|intro]
      | |- moves (false, _) _ (bind (take_tip_50 _) _) =>
          eapply moves_bind; [apply take_tip_50_moves|intro]
      | |- moves (_, false) _ (bind (take_tip_200 _) _) =>
          eapply moves_bind; [apply take_tip_200_moves|intro]
      | |- moves _ _ (bind (bind _ _) _) => rewrite bind_assoc
      | |- moves _ _ (bind (if ?x then _ else _) _) => destruct x
      | |- moves _ _ (if ?x then _ else _) => destruct x
      end ].

Lemma move_plasmid_moves (pip : pipette) (vol : Q) (src : string)
  (dst : labware * string) (blow : bool) (t : tips) :
  moves empty_hands empty_hands (move_plasmid pip vol src dst blow t).
Proof.
  unfold empty_hands, move_plasmid. destruct pip; cbn [take_tip]; tidy.
Qed.

Lemma premix_source_moves (m : well_map) (src : string) (t : tips) :
  moves empty_hands empty_hands (premix_source m src t).
Proof.
  unfold empty_hands, premix_source. tidy.
  eapply moves_bind; [apply moves_for_each; intros; tidy|intros _; tidy].
Qed.

Lemma stage_small_moves (c : components) (w : string) (t : tips) :
  moves empty_hands empty_hands (stage_small c w t).
Proof.
  unfold stage_small. apply moves_for_each. intros [vol src] s _.
  destruct (_ && _); [apply move_plasmid_moves|].
  destruct (_ && _); [apply move_plasmid_moves|apply moves_ret].
Qed.

Lemma transfer_normal_moves (c : components) (dst : labware * string)
  (t : tips) :
  moves empty_hands empty_hands (transfer_normal c dst t).
Proof.
  unfold transfer_normal. apply moves_for_each. intros [vol src] s _.
  destruct (Qle_bool vol 0); [apply moves_ret|apply move_plasmid_moves].
Qed.

Lemma pool_to_final_moves (c : components) (d : mix_data) (ws wf : string)
  (t : tips) :
  moves empty_hands empty_hands (pool_to_final c d ws wf t).
Proof. unfold empty_hands, pool_to_final. cbv zeta. tidy. Qed.

Lemma final_transfer_moves (d : mix_data) (wf : string) (t : tips) :
  moves empty_hands empty_hands (final_transfer d wf t).
Proof.
  unfold empty_hands, final_transfer. cbv zeta.
  apply (moves_bind _ (false, false)).
  - destruct (filter _ _); tidy.
  - intro total. eapply moves_bind; [apply moves_emit; reflexivity|intros _].
    destruct (pipette_for total); cbn [take_tip]; tidy.
Qed.

Lemma transfer_mix_moves (m : well_map) (s : vessels) (d : mix_data)
  (t : tips) :
  moves empty_hands empty_hands (transfer_mix m s d t).
Proof.
  unfold transfer_mix.
  eapply moves_bind; [apply moves_emit; reflexivity|intros _].
  eapply moves_bind; [apply moves_lift|intro c].
  destruct (small_volumes c) as [|first_small more];
    [apply transfer_normal_moves|].
  apply (moves_bind _ empty_hands).
  - destruct more as [|v more]; cbv zeta.
    + eapply moves_bind; [apply moves_lift|intro wf].
      eapply moves_bind; [apply moves_lift|intro src].
      eapply moves_bind; [apply moves_emit; reflexivity|intros _].
      destruct (Qle_bool _ 0); [apply moves_ret|].
      apply (moves_bind _ empty_hands); [apply move_plasmid_moves|].
      intro t1. apply moves_ret.
    + eapply moves_bind; [apply moves_lift|intro ws].
      eapply moves_bind; [apply moves_emit; reflexivity|intros _].
      apply (moves_bind _ empty_hands); [apply stage_small_moves|intro t1].
      eapply moves_bind; [apply moves_lift|intro wf].
      eapply moves_bind; [apply moves_emit; reflexivity|intros _].
      apply (moves_bind _ empty_hands); [apply pool_to_final_moves|intro t2].
      apply moves_ret.
  - intros [[wf t1]|[wf t1]].
    + apply (moves_bind _ empty_hands); [apply transfer_normal_moves|].
      intro t2. apply final_transfer_moves.
    + apply moves_ret.
Qed.

Lemma premix_mix_moves (p : params) (m : well_map) (d : mix_data)
  (st : list string * tips) :
  moves empty_hands empty_hands (premix_mix p m d st).
Proof.
  unfold premix_mix. apply moves_for_each. intros vs [ps t] _. cbv zeta.
  destruct (_ && _); [|apply moves_ret].
  apply (moves_bind _ empty_hands); [apply premix_source_moves|].
  intro t1. apply moves_ret.
Qed.

Lemma process_mix_moves (p : params) (m : well_map) (s : vessels)
  (d : mix_data) (st : list string * tips) :
  moves empty_hands empty_hands (process_mix p m s d st).
Proof.
  unfold process_mix.
  apply (moves_bind _ empty_hands); [apply premix_mix_moves|].
  intros [ps t].
  apply (moves_bind _ empty_hands); [apply transfer_mix_moves|].
  intro t1. apply moves_ret.
Qed.

Lemma process_batch_moves (p : params) (m : well_map) (s : vessels)
  (all_mix_data : list mix_data) (batch_start : nat) (t : tips) :
  moves empty_hands empty_hands (process_batch p m s all_mix_data batch_start t).
Proof.
  unfold process_batch. cbv zeta.
  eapply moves_bind; [apply moves_emit; reflexivity|intros _].
  apply (moves_bind _ empty_hands).
  - apply moves_for_each. intros. apply process_mix_moves.
  - intros [ps t1]. apply moves_ret.
Qed.

Lemma execute_transfers_moves (p : params) (m : well_map) (s : vessels)
  (all_mix_data : list mix_data) (t : tips) :
  moves empty_hands empty_hands (execute_transfers p m s all_mix_data t).
Proof.
  unfold execute_transfers. apply moves_for_each. intros.
  apply process_batch_moves.
Qed.

Lemma dispense_group_moves (pip : pipette) (source : well)
  (g : list (well * Q)) :
  moves (with_tip empty_hands pip true) (with_tip empty_hands pip true)
        (dispense_group pip source g).
Proof.
  unfold dispense_group.
  destruct pip; cbn [with_tip empty_hands fst snd].
  - eapply moves_bind; [apply moves_emit; reflexivity|intros _].
    eapply moves_bind; [apply moves_for_each; intros; tidy|intros _; tidy].
  - eapply moves_bind; [apply moves_emit; reflexivity|intros _].
    eapply moves_bind; [apply moves_for_each; intros; tidy|intros _; tidy].
Qed.

Lemma dispense_groups_nonempty {D} (max_vol : Q) (l : list (D * Q)) :
  l <> [] -> dispense_groups max_vol l <> [].
Proof.
  intros Hne E. apply Hne.
  rewrite <- (dispense_groups_concat max_vol l), E. reflexivity.
Qed.

(** With at least one destination for its source, the NaCl dispensing of
    one source picks up a tip and drops it. *)
Lemma distribute_nacl_moves (plan : nacl_plan) (src : string) (total : Q)
  (l : list (well * Q)) (t : tips) :
  Py.get (nacl_dests plan) src = Some l -> l <> [] ->
  moves empty_hands empty_hands (distribute_nacl plan (src, total) t).
Proof.
  intros El Hne. unfold distribute_nacl. rewrite El. cbv zeta.
  eapply moves_bind; [apply moves_lift|intro source].
  set (pip := if Qle_bool (total + buffer) 50 then p50 else p1000).
  apply (moves_bind _ (with_tip empty_hands pip true));
    [apply take_tip_moves|intro t1].
  pose proof (dispense_groups_nonempty (select_max_vol total) l Hne) as Hg.
  destruct (dispense_groups (select_max_vol total) l) as [|g gs];
    [contradiction|].
  apply (moves_bind _ empty_hands).
  - apply (moves_bind _ (with_tip empty_hands pip true)).
    + apply moves_for_each. intros. apply dispense_group_moves.
    + intros _. apply moves_emit. destruct pip; reflexivity.
  - intros _. unfold empty_hands. tidy.
Qed.

Lemma execute_nacl_moves (all_mix_data : list mix_data) (s : vessels)
  (plan : nacl_plan) (t : tips) :
  plan_nacl all_mix_data s = Py.Ok plan ->
  moves empty_hands empty_hands (execute_nacl plan t).
Proof.
  intro Hplan. unfold execute_nacl.
  pose proof (plan_nacl_ok _ _ _ Hplan) as Hok.
  destruct (plan_nacl_keys _ _ _ Hplan) as [Hkeys _].
  apply moves_for_each. intros [src total] t' Hin.
  pose proof (plan_entry_lookup _ _ src Hok) as Hentry.
  rewrite (get_of_In _ _ _ Hkeys Hin) in Hentry.
  destruct (Py.get (nacl_dests plan) src) as [l|] eqn:El; [|contradiction].
  destruct Hentry as (_ & _ & Hne & _).
  exact (distribute_nacl_moves plan src total l t' El Hne).
Qed.

(** Without a destination for its source the NaCl dispensing would keep
    the tip it picked up: the drop of line 411 is under [if group]. *)
Lemma distribute_nacl_without_destinations (plan : nacl_plan) (src : string)
  (total : Q) (t t' : tips) :
  Py.get (nacl_dests plan) src = Some [] ->
  outcome (distribute_nacl plan (src, total) t) = Py.Ok t' ->
  tips_ok empty_hands (log (distribute_nacl plan (src, total) t))
  = Some (with_tip empty_hands
            (if Qle_bool (total + buffer) 50 then p50 else p1000) true).
Proof.
  intros El. unfold distribute_nacl. rewrite El. cbv zeta.
  destruct (getwell plasmid_plate src) as [source|e]; [|discriminate].
  rewrite bind_lift_ok.
  set (pip := if Qle_bool (total + buffer) 50 then p50 else p1000).
  pose proof (take_tip_moves pip t) as M. unfold moves in M.
  rewrite outcome_bind, log_bind.
  destruct (outcome (take_tip pip t)) as [t1|e]; [|discriminate].
  intros _. rewrite tips_ok_app, M.
  change (dispense_groups (select_max_vol total) (@nil (well * Q)))
    with (@nil (list (well * Q))).
  destruct pip; reflexivity.
Qed.

(** X25. Whatever the parameters and the table, the run never picks up
    a tip with a pipette that holds one and never drops a tip, aspirates,
    dispenses, blows out or mixes with a pipette that holds none; and a
    run that ends without an exception ends with no tip on either
    pipette. For the NaCl dispensing this rests on the plan: a source
    without destinations would keep its tip, and the plan has none. *)
Theorem run_respects_tips (p : params) (csv_file : table) :
  tips_ok empty_hands (log (run p csv_file)) <> None
  /\ (outcome (run p csv_file) = Py.Ok tt ->
      tips_ok empty_hands (log (run p csv_file)) = Some empty_hands).
Proof.
  assert (moves empty_hands empty_hands (run p csv_file)) as H.
  { unfold run. cbv zeta.
    apply (moves_bind _ empty_hands);
      [apply moves_quiet, init_tips_quiet|intro t].
    apply (moves_bind _ empty_hands);
      [apply moves_quiet, register_plasmids_quiet|intro m0].
    apply (moves_bind _ empty_hands);
      [apply moves_quiet, register_nacl_quiet|intro m].
    apply (moves_bind _ empty_hands);
      [apply moves_quiet, parse_csv_quiet|intros [all_mix_data|]];
      [|apply moves_ret].
    unfold run_mixes.
    apply (moves_bind _ empty_hands);
      [apply moves_quiet, assign_wells_quiet|intro c].
    eapply moves_bind; [apply moves_emit; reflexivity|intros _].
    unfold dispatch_and_transfer.
    destruct (plan_nacl all_mix_data (control_state c)) as [plan|e] eqn:Ep;
      [|apply moves_lift].
    rewrite bind_lift_ok.
    apply (moves_bind _ empty_hands);
      [exact (execute_nacl_moves _ _ _ t Ep)|intro t1].
    apply (moves_bind _ empty_hands);
      [apply execute_transfers_moves|intro t2].
    unfold empty_hands. tidy. }
  unfold moves in H. split.
  - destruct (outcome (run p csv_file)); [rewrite H; discriminate|exact H].
  - intro E. rewrite E in H. exact H.
Qed.

End TipDiscipline.

Section AliquotingTipDiscipline.
Import DNAmix_aliquoting_final.

Lemma distribute_body_moves (p : params) (source : well) (dests : list well)
  (i : nat) (v : Q) :
  moves (false, true) (false, true) (distribute_body p source dests i v).
Proof.
  unfold distribute_body. cbv zeta.
  apply (moves_bind _ (false, true)).
  - destruct (Py.Qlt_bool v _); [|apply moves_ret].
    apply (moves_bind _ (false, true)).
    + destruct (premix p); repeat tidy_step.
    + intros _. repeat tidy_step.
  - intro v'. repeat tidy_step.
Qed.

Lemma distribute_moves (p : params) (source : well) (dests : list well) :
  moves (false, true) (false, true) (distribute p source dests).
Proof.
  rewrite distribute_unfold.
  apply (moves_bind _ (false, true)); [|intro; apply moves_ret].
  apply moves_for_each. intros. apply distribute_body_moves.
Qed.

Lemma aliquot_body_moves (p : params) (tips200_by_row tips1000_by_row : list well)
  (entry : nat * well) (k : counters) :
  moves empty_hands empty_hands
        (aliquot_body p tips200_by_row tips1000_by_row entry k).
Proof.
  unfold aliquot_body, empty_hands. destruct entry as [i source_well].
  cbv zeta.
  apply (moves_bind _ (false, false)).
  { unfold aliquot_targets. cbv zeta. apply moves_for_each. intros.
    repeat tidy_step. }
  intro target_locs.
  apply (moves_bind _ (false, false)).
  { destruct (Nat.leb _ 200); repeat tidy_step. }
  intros [tip k'].
  repeat tidy_step.
  eapply moves_bind;
    [apply moves_for_each; intros; repeat tidy_step|intros _; repeat tidy_step].
Qed.

(** X26. Whatever the parameters, the aliquoting run never picks up a
    tip while the pipette holds one and never drops a tip, aspirates,
    dispenses, mixes or takes an air gap without one; and a run that ends
    without an exception ends with no tip on the pipette. *)
Theorem aliquoting_run_respects_tips (p : params) :
  tips_ok empty_hands (log (run p)) <> None
  /\ (outcome (run p) = Py.Ok tt ->
      tips_ok empty_hands (log (run p)) = Some empty_hands).
Proof.
  assert (moves empty_hands empty_hands (run p)) as H.
  { unfold run, empty_hands. cbv zeta.
    repeat tidy_step.
    apply (moves_bind _ (false, false)).
    { apply moves_quiet. unfold destination_wells. quiet. }
    intro dests. repeat tidy_step.
    apply (moves_bind _ (false, true)); [apply distribute_moves|intros _].
    repeat tidy_step.
    apply (moves_bind _ (false, false)).
    { rewrite aliquot_unfold. apply moves_for_each. intros.
      apply aliquot_body_moves. }
    intro k. repeat tidy_step. }
  unfold moves in H. split.
  - destruct (outcome (run p)); [rewrite H; discriminate|exact H].
  - intro E. rewrite E in H. exact H.
Qed.

End AliquotingTipDiscipline.

Section ComputedCount.
Import DNAmix_final.

(** ** The arithmetic of the volumes *)

(** With no rounding the definitions with a rounding are the exact
    ones. *)
Lemma rescale_with_exact (vols : list Q) :
  rescale_with (fun x => x) vols = rescale vols.
Proof. reflexivity. Qed.

Lemma assign_step_with_exact (d : mix_data) (s : vessels) :
  assign_step_with (fun v scale => is_small (v / scale)%Q) d s
  = assign_step d s.
Proof. reflexivity. Qed.

Lemma assign_wells_with_exact (all_mix_data : list mix_data) (s : vessels) :
  assign_wells_with (fun v scale => is_small (v / scale)%Q) all_mix_data s
  = assign_wells all_mix_data s.
Proof.
  revert s. induction all_mix_data as [|d r IH]; intro s; [reflexivity|].
  cbn [assign_wells_with assign_wells]. rewrite assign_step_with_exact.
  destruct (assign_step d s) as [l [[s'|s']|e]]; cbn [bind];
    rewrite ?IH; reflexivity.
Qed.

(** [Binary64.round] against the binary64 division of the kernel: the
    quotient of two integers below [2^53] is the binary64 number nearest
    to the fraction. *)
Definition kernel_quotient (n d : Z) : option Q :=
  Binary64.of_float (PrimFloat.div (PrimFloat.of_uint63 (Uint63.of_Z n))
                                   (PrimFloat.of_uint63 (Uint63.of_Z d))).

Definition agrees_with_kernel (nd : Z * Z) : bool :=
  match kernel_quotient (fst nd) (snd nd) with
  | Some q => Qeq_bool q (Binary64.round (Qmake (fst nd) (Z.to_pos (snd nd))))
  | None => false
  end.

Lemma round_agrees_with_kernel_division :
  forallb agrees_with_kernel
    [(8, 10); (61, 100); (71, 1000); (19, 100); (1, 10); (2, 10); (3, 10);
     (1, 3); (2, 3); (5, 7); (1, 1000000); (123456789, 1000);
     (9007199254740991, 3); (9007199254740991, 9007199254740990);
     (1, 9007199254740991); (4503599627370497, 2); (4503599627370499, 2);
     (9007199254740989, 4); (9007199254740987, 4); (7, 1); (0, 5)]%Z
  = true.
Proof. vm_compute. reflexivity. Qed.

(** The same for a product and a quotient of such numbers: the stored
    volume [0.8 * s] and the quotient [0.8 * s / s] of line 298, for the
    scale factor [s = 0.8 / 0.61]. *)
Lemma round_agrees_with_kernel_on_line_298 :
  let k x y := PrimFloat.div (PrimFloat.of_uint63 (Uint63.of_Z x))
                             (PrimFloat.of_uint63 (Uint63.of_Z y)) in
  let s := PrimFloat.div (k 8 10)%Z (k 61 100)%Z in
  let stored := PrimFloat.mul (k 8 10)%Z s in
  let r := Binary64.round in
  let s' := r (r 0.8 / r 0.61)%Q in
  let stored' := r (r 0.8 * s')%Q in
  option_map Qred (Binary64.of_float s) = Some (Qred s')
  /\ option_map Qred (Binary64.of_float stored) = Some (Qred stored')
  /\ option_map Qred (Binary64.of_float (PrimFloat.div stored s))
     = Some (Qred (r (stored' / s')%Q))
  /\ PrimFloat.ltb (PrimFloat.div stored s) (k 8 10)%Z = true.
Proof. vm_compute. repeat split. Qed.

(** In binary64 the count of line 298 can exceed the number of small
    volumes of the table: of 0.61, 0.8 and 10 µL only the first is below
    0.8, yet after the scaling by [0.8 / 0.61] the quotient of the
    second by the scale factor is below 0.8 as well. In exact arithmetic
    the count is one. *)
Lemma rounding_adds_a_small_volume :
  let table_volumes := [0.61; 0.8; 10]%Q in
  let r := Binary64.round in
  List.length (filter (is_small_with r) (map r table_volumes)) = 1
  /\ computed_count (small_after_division r)
       (stored_mix r (map r table_volumes) ["A1"; "A2"; "A6"] "A1") = 2
  /\ computed_count (small_after_division (fun x => x))
       (stored_mix (fun x => x) table_volumes ["A1"; "A2"; "A6"] "A1") = 1.
Proof. vm_compute. repeat split. Qed.

(** ** The allocator on the count it computes *)

(** One step of the allocator is one step of the policy, on the count
    that line 298 gives, whatever the arithmetic of its test. *)
Lemma assign_step_with_outcome (small : Q -> Q -> bool) (d : mix_data)
  (s : vessels) :
  scale_factors d <> [] ->
  vessels_wf s ->
  outcome (assign_step_with small d s)
  = Py.Ok (allocation_policy (computed_count small d) (dest_well d) s).
Proof.
  intros Hne (Hsmall & Hfinal & Hpool).
  unfold assign_step_with, computed_count.
  destruct (scale_factors d) as [|scale rest]; [congruence|].
  change (Py.index (scale :: rest) 0) with (Py.Ok scale).
  rewrite bind_lift_ok. cbv zeta. cbn [hd].
  destruct (small_volumes_count_with small d scale) as [|[|n]];
    cbn [Nat.ltb Nat.leb Nat.eqb allocation_policy].
  - reflexivity.
  - destruct (intermediate_pool s) as [|w rest']; [reflexivity|].
    inversion Hpool as [|? ? Hw _]; subst.
    rewrite (getwell_known w Hw). reflexivity.
  - destruct (intermediate_small_pool s) as [|sw sr]; [reflexivity|].
    destruct (intermediate_final_pool s) as [|fw fr]; [reflexivity|].
    inversion Hsmall as [|? ? Hsw _]; subst.
    inversion Hfinal as [|? ? Hfw _]; subst.
    rewrite (getwell_known sw Hsw), (getwell_known fw Hfw). reflexivity.
Qed.

Lemma assign_wells_with_policy_from (small : Q -> Q -> bool)
  (all_mix_data : list mix_data) (s : vessels) :
  Forall (fun d => scale_factors d <> []) all_mix_data ->
  vessels_wf s ->
  outcome (assign_wells_with small all_mix_data s)
  = Py.Ok (allocate_in_order
             (map (fun d => (computed_count small d, dest_well d)) all_mix_data)
             s).
Proof.
  intro Hne. revert s.
  induction Hne as [|d r Hd _ IH]; intros s Hwf; [reflexivity|].
  cbn [map assign_wells_with allocate_in_order].
  rewrite outcome_bind, (assign_step_with_outcome small d s Hd Hwf).
  pose proof (allocation_policy_wf (computed_count small d) (dest_well d) s Hwf)
    as Hwf'.
  destruct (allocation_policy _ (dest_well d) s) as [s'|s']; cbn in Hwf'.
  - apply IH. exact Hwf'.
  - reflexivity.
Qed.

(** The parser records a scale factor for every mix with at least one
    volume, whatever the rounding. *)
Lemma stored_mix_has_scale_factor (rnd : Q -> Q) (vols : list Q)
  (srcs : list string) (dest : string) :
  vols <> [] -> scale_factors (stored_mix rnd vols srcs dest) <> [].
Proof.
  intro Hne. unfold stored_mix, rescale_with. cbn [scale_factors].
  destruct (filter (is_small_with rnd) vols); cbn [snd].
  - destruct vols; [congruence|discriminate].
  - discriminate.
Qed.



Lemma filter_fst_length {B} (f : nat -> bool) (l : list (nat * B)) :
  List.length (filter (fun m => f (fst m)) l)
  = List.length (filter f (map fst l)).
Proof.
  induction l as [|m l IH]; [reflexivity|].
  cbn [map filter]. destruct (f (fst m)); cbn [List.length]; rewrite IH;
    reflexivity.
Qed.

(** X10. For mixes with a recorded scale factor, the allocator gets
    through all of them without pausing exactly when at most six of them
    have a count of two or more at line 298 and at most twelve a count
    of exactly one, whatever the arithmetic of the test. The two limits
    do not depend on each other: the twelve tubes C1-D6 are offered once
    through the small and final pools and once more through
    [intermediate_pool]. *)
Theorem allocation_capacity (small : Q -> Q -> bool)
  (all_mix_data : list mix_data) :
  Forall (fun d => scale_factors d <> []) all_mix_data ->
  let counts := map (computed_count small) all_mix_data in
  (exists c,
     outcome (assign_wells_with small all_mix_data initial_vessels)
     = Py.Ok (Next c))
  <-> (List.length (filter (Nat.ltb 1) counts) <= 6
       /\ List.length (filter (fun n => Nat.eqb n 1) counts) <= 12).
Proof.
  intros Hne counts.
  rewrite (assign_wells_with_policy_from small all_mix_data initial_vessels
             Hne initial_vessels_wf).
  set (ms := map (fun d => (computed_count small d, dest_well d)) all_mix_data).
  assert (E : (exists c, Py.Ok (allocate_in_order ms initial_vessels)
                         = Py.Ok (Next c))
              <-> exists c, allocate_in_order ms initial_vessels = Next c).
  { split; intros [c H]; exists c; congruence. }
  rewrite E, allocate_in_order_capacity. clear E.
  rewrite (filter_fst_length (Nat.ltb 1)),
    (filter_fst_length (fun n => Nat.eqb n 1)).
  assert (map fst ms = counts) as ->.
  { unfold ms, counts. rewrite map_map. reflexivity. }
  reflexivity.
Qed.

Lemma allocation_capacity_witness :
  let r := Binary64.round in
  let two := stored_mix r (map r [0.61; 0.8; 10]%Q) ["A1"; "A2"; "A6"] "A1" in
  let one := stored_mix r (map r [0.5; 10]%Q) ["A1"; "A6"] "B1" in
  exists c,
    outcome (assign_wells_with (small_after_division r)
               (repeat two 6 ++ repeat one 12) initial_vessels)
    = Py.Ok (Next c).
Proof.
  intros r two one.
  apply (allocation_capacity (small_after_division r)
           (repeat two 6 ++ repeat one 12)).
  - apply Forall_app. split; apply Forall_forall; intros m Hm;
      apply repeat_spec in Hm; subst;
      apply stored_mix_has_scale_factor; discriminate.
  - vm_compute. split; apply le_n.
Defined.

End ComputedCount.

Section EmptyFirstRow.
Import DNAmix_final.

(** ** Where the run dispenses on the destination plate *)



























End EmptyFirstRow.

(** ** White space of a cell *)

(** [str.strip()] removes the no-break space U+00A0 and the thin space
    U+2009 as it removes blanks and tabs: a cell that a spreadsheet
    padded with them reads as its number. *)
Lemma strip_removes_wide_spaces :
  let nbsp := String (ascii_of_nat 194) (String (ascii_of_nat 160) "") in
  let thin :=
    String (ascii_of_nat 226)
      (String (ascii_of_nat 128) (String (ascii_of_nat 137) "")) in
  Py.strip (nbsp ++ " 7.5" ++ thin ++ nbsp) = "7.5"
  /\ Py.strip (thin ++ "A 1" ++ thin) = "A 1"
  /\ Py.float (Py.strip (nbsp ++ "7.5 ")) = Py.Ok (7.5)%Q.
Proof. repeat split; vm_compute; reflexivity. Qed.
